(** * Offensive-Comment-Detector: a shallow embedding and its properties

    The development follows the two scripts of the repository:

    - [offensive_comment_detector.py]: [load_comments], [display_summary],
      [pre_filter_comments], [analyze_comment_with_ai], [process_comments],
      [generate_report_json], [export_report], [save_report_json],
      [plot_offense_distribution] and [main];
    - [data_generation.py]: [generate_comments_batch], the loop over the
      batches, the loop that assembles [final_comments] and the writing of
      the output file.

    Python dictionaries are finite maps from field names to values; field
    values are [None], booleans, integers and strings, and a character of
    a string is an [ascii].  A file or a reply in which a value is itself
    a list, an object or a fraction, or in which a list of comments holds
    something else than such dictionaries, is outside the model.  The file system, the console and the
    classification service are an explicit [world] threaded through a
    small state-and-exception monad.  The [csv] module is modelled in its
    default dialect; [json], [better_profanity], [faker] and the chat API
    are the fields of the class [Externals], what the programs take from
    [json.dump] on a report, from matplotlib and from the texts of Python's
    own messages the fields of the classes [Reporting] and [Printing].
    The command line is the record [Main.args]; the checks of the API keys
    that precede both scripts are left out.

    The first part holds the embedding and the vocabulary of the
    statements, the second part concrete inputs, the third part the
    properties and their instances on these inputs. *)

From Stdlib Require Import ZArith String Ascii List Bool Lia Sorted.
From stdpp Require Import base option list gmap strings pretty.

Open Scope string_scope.

(** ** Python values *)

(** The values a comment field holds: [None], booleans, integers and
    strings (JSON scalars without fractional numbers). *)
Inductive pyval :=
| PNone
| PBool (b : bool)
| PInt (z : Z)
| PStr (s : string).

#[global] Instance pyval_eq_dec : EqDecision pyval.
Proof. solve_decision. Defined.

#[global] Instance pyval_countable : Countable pyval.
Proof.
  refine (inj_countable'
    (λ v, match v with
          | PNone => inl (inl tt)
          | PBool b => inl (inr b)
          | PInt z => inr (inl z)
          | PStr s => inr (inr s)
          end)
    (λ x, match x with
          | inl (inl _) => PNone
          | inl (inr b) => PBool b
          | inr (inl z) => PInt z
          | inr (inr s) => PStr s
          end) _).
  by intros [].
Defined.

(** [bool(v)] *)
Definition truthy (v : pyval) : bool :=
  match v with
  | PNone => false
  | PBool b => b
  | PInt z => negb (z =? 0)%Z
  | PStr s => negb (String.eqb s "")
  end.

(** Booleans are integers in Python: [True == 1] and [False == 0]. *)
Definition num_of (v : pyval) : option Z :=
  match v with
  | PBool b => Some (Z.b2z b)
  | PInt z => Some z
  | _ => None
  end.

Definition norm (v : pyval) : pyval :=
  match v with
  | PBool b => PInt (Z.b2z b)
  | _ => v
  end.

(** [a == b] *)
Definition py_eq (a b : pyval) : bool := bool_decide (norm a = norm b).

(** [a < b]; [None] stands for the [TypeError] Python raises when the
    operands cannot be ordered. *)
Definition py_lt (a b : pyval) : option bool :=
  match num_of a, num_of b with
  | Some x, Some y => Some (x <? y)%Z
  | _, _ =>
      match a, b with
      | PStr s, PStr t => Some (String.ltb s t)
      | _, _ => None
      end
  end.

(** [str(v)], as an f-string splices it. *)
Definition py_str (v : pyval) : string :=
  match v with
  | PNone => "None"
  | PBool true => "True"
  | PBool false => "False"
  | PInt z => pretty z
  | PStr s => s
  end.

Definition type_name (v : pyval) : string :=
  match v with
  | PNone => "NoneType"
  | PBool _ => "bool"
  | PInt _ => "int"
  | PStr _ => "str"
  end.

(** ** Dictionaries *)

(** A comment is a [dict].  Its keys are strings, except that
    [csv.DictReader] files the fields of a row that is longer than the
    header as a list under the key [None]: that entry is [surplus]. *)
Record dict := Dict {
  items : gmap string pyval;
  surplus : option (list string)
}.

Definition empty_dict : dict := Dict ∅ None.

(** [d.get(k)] *)
Definition get (d : dict) (k : string) : pyval := default PNone (items d !! k).

(** [d.get(k, dflt)] *)
Definition get_or (d : dict) (k : string) (dflt : pyval) : pyval :=
  default dflt (items d !! k).

(** [d[k] = v] *)
Definition setitem (k : string) (v : pyval) (d : dict) : dict :=
  Dict (<[k := v]> (items d)) (surplus d).

(** [k in d] *)
Definition contains (d : dict) (k : string) : bool :=
  bool_decide (is_Some (items d !! k)).

(** [a == b] on dictionaries: the same keys with equal values. *)
Definition dict_eq (a b : dict) : bool :=
  bool_decide (norm <$> items a = norm <$> items b)
  && bool_decide (surplus a = surplus b).

(** [c in l] on a list of dictionaries *)
Definition dict_in (c : dict) (l : list dict) : bool := existsb (dict_eq c) l.

(** The entries of a comment other than the four the analysis writes. *)
Definition beside_analysis (m : gmap string pyval) : gmap string pyval :=
  delete "severity" (delete "explanation"
    (delete "offense_type" (delete "is_offensive" m))).

(** ** Exceptions *)

Inductive exn_class :=
| FileNotFoundError
| OSError
| UnicodeDecodeError
| ValueError
| JSONDecodeError
| TypeError
| AttributeError
| CsvError
| OtherException (name : string).

#[global] Instance exn_class_eq_dec : EqDecision exn_class.
Proof. solve_decision. Defined.

(** An exception object: its class and [str(e)]. *)
Record exn := Exn {
  exn_cls : exn_class;
  exn_str : string
}.

Inductive result (A : Type) :=
| Ok (a : A)
| Raise (e : exn).
Arguments Ok {A} a.
Arguments Raise {A} e.

#[global] Instance result_ret : MRet result := λ A a, Ok a.

#[global] Instance result_bind : MBind result := λ A B f r,
  match r with
  | Ok a => f a
  | Raise e => Raise e
  end.

(** ** The world: files, console, classification requests *)

(** What is at a path: something [open] refuses with the exception [e]
    (a directory, a file without permission), a file whose bytes do not
    decode, so that reading it raises [e], or a text file. *)
Inductive file :=
| NoAccess (e : exn)
| Undecodable (e : exn)
| Contents (text : string).

Record world := World {
  files : gmap string file;
  stdout : list string;
  requests : list pyval
}.

(** Computations that read and change the world and may raise. *)
Definition M (A : Type) : Type := world → result A * world.

#[global] Instance M_ret : MRet M := λ A a w, (Ok a, w).

#[global] Instance M_bind : MBind M := λ A B f m w,
  match m w with
  | (Ok a, w') => f a w'
  | (Raise e, w') => (Raise e, w')
  end.

Definition raise {A} (e : exn) : M A := λ w, (Raise e, w).

Definition lift_result {A} (r : result A) : M A := λ w, (r, w).

(** [try: body  except <classes in handles>: handler] *)
Definition try_except {A} (handles : exn → bool) (body : M A)
    (handler : exn → M A) : M A := λ w,
  match body w with
  | (Ok a, w') => (Ok a, w')
  | (Raise e, w') => if handles e then handler e w' else (Raise e, w')
  end.

(** [except Exception] *)
Definition any_exception (e : exn) : bool := true.

(** [except C] for a class without modelled subclasses *)
Definition of_class (c : exn_class) (e : exn) : bool :=
  bool_decide (exn_cls e = c).

(** [print(s)] *)
Definition print (s : string) : M unit := λ w,
  (Ok tt, World (files w) (stdout w ++ [s]) (requests w)).

(** [open(path, 'r').read()] *)
Definition read_file (path : string) : M string := λ w,
  match files w !! path with
  | None =>
      (Raise (Exn FileNotFoundError
                ("[Errno 2] No such file or directory: '" +:+ path +:+ "'")),
       w)
  | Some (NoAccess e) => (Raise e, w)
  | Some (Undecodable e) => (Raise e, w)
  | Some (Contents text) => (Ok text, w)
  end.

(** [open(path, 'w')]: the file is created or emptied. *)
Definition open_write (path : string) : M unit := λ w,
  match files w !! path with
  | Some (NoAccess e) => (Raise e, w)
  | _ =>
      (Ok tt, World (<[path := Contents ""]> (files w)) (stdout w) (requests w))
  end.

(** Writing to the file opened at [path]: the text is appended. *)
Definition file_write (path : string) (s : string) : M unit := λ w,
  match files w !! path with
  | Some (Contents text) =>
      (Ok tt, World (<[path := Contents (text +:+ s)]> (files w)) (stdout w)
                (requests w))
  | _ => (Ok tt, w)
  end.

(** [s.endswith(suffix)] *)
Definition endswith (s suffix : string) : bool :=
  let n := String.length s in
  let m := String.length suffix in
  (m <=? n)%nat && String.eqb (substring (n - m) m s) suffix.

(** ** The csv module, in its default dialect *)

(** The reader and writer of CPython's [csv] module for the dialect
    [excel]: a comma as delimiter, the double quote as quote character
    (written twice inside a quoted field), minimal quoting, CR LF as line
    terminator, no escape character, not strict.  Texts are lists of
    characters. *)
Module Csv.

Local Open Scope list_scope.

Definition delimiter : ascii := ","%char.
Definition quotechar : ascii := "034"%char.
Definition CR : ascii := "013"%char.
Definition LF : ascii := "010"%char.
Definition lineterminator : list ascii := [CR; LF].

(** [csv.field_size_limit()] *)
Definition field_limit : Z := 131072.

Definition is_newline (c : ascii) : bool := Ascii.eqb c LF || Ascii.eqb c CR.

(** The lines a file opened with [newline=''] yields: a line ends after
    LF, after CR LF, or after a CR that no LF follows, and keeps its
    ending; [cur] is the part of the current line already read. *)
Fixpoint lines_from (cur : list ascii) (s : list ascii) : list (list ascii) :=
  match s with
  | [] => match cur with [] => [] | _ => [cur] end
  | c :: rest =>
      if Ascii.eqb c LF then (cur ++ [c]) :: lines_from [] rest
      else if Ascii.eqb c CR then
        match rest with
        | c' :: rest' =>
            if Ascii.eqb c' LF then (cur ++ [c; c']) :: lines_from [] rest'
            else (cur ++ [c]) :: lines_from [] rest
        | [] => [cur ++ [c]]
        end
      else lines_from (cur ++ [c]) rest
  end.

Definition readlines (s : list ascii) : list (list ascii) := lines_from [] s.

(** *** The reader *)

Inductive parser_state :=
| START_RECORD
| START_FIELD
| IN_FIELD
| IN_QUOTED_FIELD
| QUOTE_IN_QUOTED_FIELD
| EAT_CRNL.

#[global] Instance parser_state_eq_dec : EqDecision parser_state.
Proof. solve_decision. Defined.

Record reader := Reader {
  state : parser_state;
  field : list ascii;
  fields : list (list ascii)
}.

Definition parse_reset : reader := Reader START_RECORD [] [].

Definition set_state (s : parser_state) (r : reader) : reader :=
  Reader s (field r) (fields r).

Definition parse_save_field (r : reader) : reader :=
  Reader (state r) [] (fields r ++ [field r]).

Definition parse_add_char (c : ascii) (r : reader) : result reader :=
  if (Z.of_nat (length (field r)) <? field_limit)%Z
  then Ok (Reader (state r) (field r ++ [c]) (fields r))
  else Raise (Exn CsvError "field larger than field limit (131072)").

(** The case [START_FIELD], which [START_RECORD] falls through to. *)
Definition start_field (c : ascii) (r : reader) : result reader :=
  if is_newline c then Ok (set_state EAT_CRNL (parse_save_field r))
  else if Ascii.eqb c quotechar then Ok (set_state IN_QUOTED_FIELD r)
  else if Ascii.eqb c delimiter then
    Ok (set_state START_FIELD (parse_save_field r))
  else parse_add_char c (set_state IN_FIELD r).

(** [parse_process_char] on a character of the line *)
Definition parse_process_char (c : ascii) (r : reader) : result reader :=
  match state r with
  | START_RECORD =>
      if is_newline c then Ok (set_state EAT_CRNL r) else start_field c r
  | START_FIELD => start_field c r
  | IN_FIELD =>
      if is_newline c then Ok (set_state EAT_CRNL (parse_save_field r))
      else if Ascii.eqb c delimiter then
        Ok (set_state START_FIELD (parse_save_field r))
      else parse_add_char c r
  | IN_QUOTED_FIELD =>
      if Ascii.eqb c quotechar then Ok (set_state QUOTE_IN_QUOTED_FIELD r)
      else parse_add_char c r
  | QUOTE_IN_QUOTED_FIELD =>
      if Ascii.eqb c quotechar then
        parse_add_char c (set_state IN_QUOTED_FIELD r)
      else if Ascii.eqb c delimiter then
        Ok (set_state START_FIELD (parse_save_field r))
      else if is_newline c then Ok (set_state EAT_CRNL (parse_save_field r))
      else parse_add_char c (set_state IN_FIELD r)
  | EAT_CRNL =>
      if is_newline c then Ok r
      else Raise (Exn CsvError
             "new-line character seen in unquoted field - do you need to open the file with newline=''?")
  end.

(** [parse_process_char] on the end-of-line mark *)
Definition parse_process_eol (r : reader) : reader :=
  match state r with
  | START_RECORD => r
  | START_FIELD | IN_FIELD | QUOTE_IN_QUOTED_FIELD =>
      set_state START_RECORD (parse_save_field r)
  | IN_QUOTED_FIELD => r
  | EAT_CRNL => set_state START_RECORD r
  end.

Fixpoint feed (line : list ascii) (r : reader) : result reader :=
  match line with
  | [] => Ok r
  | c :: line' => r' ← parse_process_char c r; feed line' r'
  end.

(** The records successive calls of the reader's [__next__] return: each
    call resets the parser and takes lines until one ends a record; when
    the lines run out inside a quoted field, what was read is the last
    record. *)
Fixpoint read_records (r : reader) (lines : list (list ascii))
    : result (list (list (list ascii))) :=
  match lines with
  | [] =>
      if negb (bool_decide (field r = []))
         || bool_decide (state r = IN_QUOTED_FIELD)
      then Ok [fields (parse_save_field r)]
      else Ok []
  | line :: rest =>
      r ← feed line r;
      let r := parse_process_eol r in
      if bool_decide (state r = START_RECORD) then
        records ← read_records parse_reset rest;
        Ok (fields r :: records)
      else read_records r rest
  end.

(** [list(csv.reader(f))] *)
Definition reader_rows (s : list ascii) : result (list (list (list ascii))) :=
  read_records parse_reset (readlines s).

(** *** The reader, character by character *)

(** The same records, computed in one pass over the text: [rr] is the
    parser after the characters of the current line read so far, and
    [fresh] tells that the current line is still empty. *)
Definition close_line (k : reader → result (list (list (list ascii))))
    (rr : result reader) : result (list (list (list ascii))) :=
  r ← rr;
  let r := parse_process_eol r in
  if bool_decide (state r = START_RECORD) then
    records ← k parse_reset;
    Ok (fields r :: records)
  else k r.

Fixpoint scan (rr : result reader) (fresh : bool) (s : list ascii)
    : result (list (list (list ascii))) :=
  match s with
  | [] =>
      if fresh then r ← rr; read_records r []
      else close_line (λ r, read_records r []) rr
  | c :: rest =>
      let rr1 := rr ≫= parse_process_char c in
      if Ascii.eqb c LF then close_line (λ r, scan (Ok r) true rest) rr1
      else if Ascii.eqb c CR then
        match rest with
        | c' :: rest' =>
            if Ascii.eqb c' LF then
              close_line (λ r, scan (Ok r) true rest')
                (rr1 ≫= parse_process_char c')
            else close_line (λ r, scan (Ok r) true rest) rr1
        | [] => close_line (λ r, read_records r []) rr1
        end
      else scan rr1 false rest
  end.

(** *** The writer *)

Definition must_quote (c : ascii) : bool :=
  Ascii.eqb c delimiter || Ascii.eqb c quotechar || is_newline c.

Fixpoint escape (f : list ascii) : list ascii :=
  match f with
  | [] => []
  | c :: f' =>
      if Ascii.eqb c quotechar then c :: c :: escape f' else c :: escape f'
  end.

(** [join_append]: the field, quoted when it holds a special character *)
Definition join_append (f : list ascii) : list ascii :=
  if existsb must_quote f then quotechar :: escape f ++ [quotechar] else f.

Fixpoint join (fs : list (list ascii)) : list ascii :=
  match fs with
  | [] => []
  | f :: fs' =>
      match fs' with
      | [] => join_append f
      | _ :: _ => join_append f ++ delimiter :: join fs'
      end
  end.

(** [writer.writerow]: a row that consists of one empty field is written
    as a pair of quotes. *)
Definition writerow (fs : list (list ascii)) : list ascii :=
  match fs with
  | [[]] => [quotechar; quotechar]
  | _ => join fs
  end ++ lineterminator.

(** *** DictReader and DictWriter *)

(** [dict(zip(fieldnames, row))], the surplus of a long row under the key
    [None], and [None] for the fields a short row lacks. *)
Definition row_dict (fieldnames row : list string) : dict :=
  let d := fold_left (λ d kv, <[kv.1 := PStr kv.2]> d) (zip fieldnames row)
             (∅ : gmap string pyval) in
  let lf := length fieldnames in
  let lr := length row in
  if (lf <? lr)%nat then Dict d (Some (drop lf row))
  else Dict (fold_left (λ d k, <[k := PNone]> d) (drop lr fieldnames) d) None.

(** [list(csv.reader(f))] on the text of a file *)
Definition records (s : string) : result (list (list string)) :=
  rows ← reader_rows (list_ascii_of_string s);
  Ok (map (map string_of_list_ascii) rows).

(** [list(csv.DictReader(f))]: the first record gives the field names, and
    empty records are skipped. *)
Definition DictReader (s : string) : result (list dict) :=
  rows ← records s;
  match rows with
  | [] => Ok []
  | fieldnames :: rows =>
      Ok (map (row_dict fieldnames) (filter (λ row, row ≠ []) rows))
  end.

(** What the writer makes of a value: nothing for [None], the value for a
    string, [str(value)] otherwise. *)
Definition field_text (v : pyval) : string :=
  match v with
  | PNone => ""
  | _ => py_str v
  end.

(** [DictWriter._dict_to_list]: a key that is no field name is an error.
    Python's message goes on with the list of these keys, which is left
    out here. *)
Definition dict_to_list (fieldnames : list string) (rowdict : dict)
    : result (list pyval) :=
  if bool_decide (dom (items rowdict) ⊆ list_to_set fieldnames)
     && bool_decide (surplus rowdict = None)
  then Ok (map (λ k, get_or rowdict k (PStr "")) fieldnames)
  else Raise (Exn ValueError "dict contains fields not in fieldnames").

(** The line [writer.writerow(values)] writes. *)
Definition row_line (values : list pyval) : string :=
  string_of_list_ascii
    (writerow (map (λ v, list_ascii_of_string (field_text v)) values)).

(** *** Fields within the field limit *)

Definition fits (f : list ascii) : Prop :=
  (Z.of_nat (length f) ≤ field_limit)%Z.

Definition within_limit (r : reader) : Prop :=
  fits (field r) ∧ Forall fits (fields r).

End Csv.

(** ** The libraries and services the scripts call *)

(** [client.chat.completions.create] either raises or answers with a list
    of choices, each carrying [message.content] (which may be [None]). *)
Inductive api_reply :=
| ApiRaises (e : exn)
| ApiResponse (choices : list (option string)).

(** The result of [json.load] and [json.loads], as far as the scripts look
    into it: an object with its scalar entries and, when it has one, the
    list under the key [comments]; an array of records; or a scalar. *)
Inductive json_data :=
| JObject (d : gmap string pyval) (comments : option (list dict))
| JArray (elems : list dict)
| JScalar (v : pyval).

Class Externals := {
  (** the reply of the classification service to its [n]-th request, sent
      for the comment text [text] *)
  chat_completions_create : nat → pyval → api_reply;
  (** [json.loads] *)
  json_loads : string → result json_data;
  (** [profanity.contains_profanity] *)
  contains_profanity : pyval → bool;
  (** [json.dumps({"analyzed_comments": comments}, indent=4)] *)
  json_dumps : list dict → string;
  (** the [n]-th name drawn from [fake.user_name()] *)
  fake_user_name : nat → string
}.

Section Detector.
Context `{Externals}.

(** ** pre_filter_comments *)

Definition pre_filter_one (comment : dict) : dict :=
  let text := get_or comment "comment_text" (PStr "") in
  if contains_profanity text then
    setitem "explanation" (PStr "Flagged by better_profanity")
      (setitem "offense_type" (PStr "profanity")
         (setitem "is_offensive" (PBool true) comment))
  else comment.

Definition flagged (comment : dict) : bool :=
  contains_profanity (get_or comment "comment_text" (PStr "")).

Definition pre_filter_comments (comments : list dict) : M (list dict) :=
  let filtered_comments := map pre_filter_one comments in
  let profane_count := length (filter (λ c, flagged c = true) comments) in
  _ ← print (String "010" "Pre-filtered " +:+ pretty profane_count
             +:+ " comments for profanity using better_profanity.");
  mret filtered_comments.

(** ** analyze_comment_with_ai *)

(** Sending the request built from [text]; the request is recorded. *)
Definition create (text : pyval) : M (list (option string)) := λ w,
  let w' := World (files w) (stdout w) (requests w ++ [text]) in
  match chat_completions_create (length (requests w)) text with
  | ApiRaises e => (Raise e, w')
  | ApiResponse choices => (Ok choices, w')
  end.

(** [json.loads(content)] *)
Definition loads (content : option string) : M json_data :=
  match content with
  | Some s => lift_result (json_loads s)
  | None =>
      raise (Exn TypeError
        "the JSON object must be str, bytes or bytearray, not NoneType")
  end.

Definition no_get (ty : string) : exn :=
  Exn AttributeError ("'" +:+ ty +:+ "' object has no attribute 'get'").

(** [analysis.get(k, dflt)] *)
Definition analysis_get (analysis : json_data) (k : string) (dflt : pyval)
    : M pyval :=
  match analysis with
  | JObject d _ => mret (default dflt (d !! k))
  | JArray _ => raise (no_get "list")
  | JScalar v => raise (no_get (type_name v))
  end.

Definition set_analysis (is_offensive offense_type explanation severity : pyval)
    (comment : dict) : dict :=
  setitem "severity" severity
    (setitem "explanation" explanation
       (setitem "offense_type" offense_type
          (setitem "is_offensive" is_offensive comment))).

Definition prefiltered (comment : dict) : bool :=
  truthy (get comment "is_offensive")
  && py_eq (get comment "offense_type") (PStr "profanity").

(** No assignment of the [try] block runs before the last call that can
    raise, so each handler starts from the comment as it was passed in. *)
Definition analyze_comment_with_ai (comment : dict) : M dict :=
  if prefiltered comment then
    mret (setitem "severity" (PInt 1) comment)
  else
    let text := get_or comment "comment_text" (PStr "") in
    try_except any_exception
      (choices ← create text;
       match choices with
       | content :: _ =>
           try_except (of_class JSONDecodeError)
             (analysis ← loads content;
              is_offensive ← analysis_get analysis "is_offensive" (PBool false);
              offense_type ← analysis_get analysis "offense_type" PNone;
              explanation ← analysis_get analysis "explanation" PNone;
              severity ← analysis_get analysis "severity" PNone;
              mret (set_analysis is_offensive offense_type explanation
                      severity comment))
             (λ e,
              _ ← print ("Error decoding JSON response for comment ID "
                         +:+ py_str (get comment "comment_id") +:+ ": "
                         +:+ py_str (from_option PStr PNone content));
              mret (set_analysis (PBool true) (PStr "error")
                      (PStr "Error decoding AI analysis response.")
                      (PInt 3) comment))
       | [] =>
           mret (set_analysis (PBool false) PNone
                   (PStr "No response from AI model.") PNone comment)
       end)
      (λ e,
       _ ← print ("Error during OpenAI API call for comment ID "
                  +:+ py_str (get comment "comment_id") +:+ ": " +:+ exn_str e);
       mret (set_analysis (PBool true) (PStr "api_error")
               (PStr ("Error during AI analysis: " +:+ exn_str e))
               (PInt 4) comment)).

(** ** process_comments *)

Fixpoint analyze_all (comments : list dict) : M (list dict) :=
  match comments with
  | [] => mret []
  | comment :: rest =>
      analyzed ← analyze_comment_with_ai comment;
      others ← analyze_all rest;
      mret (analyzed :: others)
  end.

Definition process_comments (comments : list dict) (pre_filter : bool)
    : M (list dict) :=
  comments ← (if pre_filter then pre_filter_comments comments
               else mret comments);
  analyze_all comments.

(** ** load_comments *)

Definition load_comments (file_path : string) : M (list dict) :=
  try_except any_exception
    (if endswith file_path ".csv" then
       csvfile ← read_file file_path;
       lift_result (Csv.DictReader csvfile)
     else if endswith file_path ".json" then
       jsonfile ← read_file file_path;
       data ← lift_result (json_loads jsonfile);
       match data with
       | JArray comments => mret comments
       | JObject _ (Some comments) => mret comments
       | _ =>
           raise (Exn ValueError
             "JSON file should contain a list of comments or a dictionary with a 'comments' key.")
       end
     else
       raise (Exn ValueError
                "Unsupported file format. Please use CSV or JSON."))
    (λ e,
     if of_class FileNotFoundError e then
       _ ← print ("Error: File not found at " +:+ file_path);
       mret []
     else
       _ ← print ("Error loading file: " +:+ exn_str e);
       mret []).

(** ** export_report *)

Definition fieldnames : list string :=
  ["comment_id"; "username"; "comment_text"; "is_offensive"; "offense_type";
   "explanation"; "severity"].

(** [for field in fieldnames: if field not in comment: comment[field] = None] *)
Definition fill_missing (comment : dict) : dict :=
  fold_left (λ comment field,
               if contains comment field then comment
               else setitem field PNone comment)
    fieldnames comment.

(** [csv.DictWriter(f, fieldnames=names).writerows(rowdicts)]: the rows
    before one that cannot be written are in the file. *)
Fixpoint writerows (names : list string) (path : string) (rowdicts : list dict)
    : M unit :=
  match rowdicts with
  | [] => mret tt
  | rowdict :: rest =>
      values ← lift_result (Csv.dict_to_list names rowdict);
      _ ← file_write path (Csv.row_line values);
      writerows names path rest
  end.

(** The filling loop also changes the dictionaries the caller holds;
    nothing here reads them again. *)
Definition export_report (analyzed_comments : list dict) (output_file : string)
    : M unit :=
  try_except any_exception
    (if endswith output_file ".csv" then
       _ ← open_write output_file;
       _ ← file_write output_file (Csv.row_line (map PStr fieldnames));
       _ ← writerows fieldnames output_file (map fill_missing analyzed_comments);
       print (String "010" "Analyzed data exported to " +:+ output_file)
     else if endswith output_file ".json" then
       _ ← open_write output_file;
       _ ← file_write output_file (json_dumps analyzed_comments);
       print (String "010" "Analyzed data exported to " +:+ output_file)
     else print "Unsupported output file format. Please use CSV or JSON.")
    (λ e, print ("Error exporting data: " +:+ exn_str e)).

(** ** The ways through analyze_comment_with_ai and load_comments *)

(** The exceptions of the inner [try] block that its own handler does not
    catch: [json.loads(None)], a decoder failure of another class, and
    [analysis.get] on a decoded value that is not a dictionary. *)
Inductive decoding_raises : option string → exn → Prop :=
| raises_no_content :
    decoding_raises None
      (Exn TypeError
         "the JSON object must be str, bytes or bytearray, not NoneType")
| raises_other_class s e :
    json_loads s = Raise e → exn_cls e ≠ JSONDecodeError →
    decoding_raises (Some s) e
| raises_list s l :
    json_loads s = Ok (JArray l) → decoding_raises (Some s) (no_get "list")
| raises_scalar s v :
    json_loads s = Ok (JScalar v) →
    decoding_raises (Some s) (no_get (type_name v)).

(** The paths of [analyze_comment_with_ai], by what the service and the
    JSON decoder answer. *)
Inductive analysis_path (comment : dict) (w : world) : dict → world → Prop :=
| path_prefiltered :
    prefiltered comment = true →
    analysis_path comment w (setitem "severity" (PInt 1) comment) w
| path_api_error e :
    prefiltered comment = false →
    chat_completions_create (length (requests w))
      (get_or comment "comment_text" (PStr "")) = ApiRaises e →
    analysis_path comment w
      (set_analysis (PBool true) (PStr "api_error")
         (PStr ("Error during AI analysis: " +:+ exn_str e)) (PInt 4) comment)
      (World (files w)
         (stdout w ++ ["Error during OpenAI API call for comment ID "
                       +:+ py_str (get comment "comment_id") +:+ ": "
                       +:+ exn_str e])
         (requests w ++ [get_or comment "comment_text" (PStr "")]))
| path_no_choices :
    prefiltered comment = false →
    chat_completions_create (length (requests w))
      (get_or comment "comment_text" (PStr "")) = ApiResponse [] →
    analysis_path comment w
      (set_analysis (PBool false) PNone (PStr "No response from AI model.")
         PNone comment)
      (World (files w) (stdout w)
         (requests w ++ [get_or comment "comment_text" (PStr "")]))
| path_decode_error content rest e :
    prefiltered comment = false →
    chat_completions_create (length (requests w))
      (get_or comment "comment_text" (PStr ""))
      = ApiResponse (Some content :: rest) →
    json_loads content = Raise e →
    exn_cls e = JSONDecodeError →
    analysis_path comment w
      (set_analysis (PBool true) (PStr "error")
         (PStr "Error decoding AI analysis response.") (PInt 3) comment)
      (World (files w)
         (stdout w ++ ["Error decoding JSON response for comment ID "
                       +:+ py_str (get comment "comment_id") +:+ ": "
                       +:+ content])
         (requests w ++ [get_or comment "comment_text" (PStr "")]))
| path_analysed content rest d cs :
    prefiltered comment = false →
    chat_completions_create (length (requests w))
      (get_or comment "comment_text" (PStr ""))
      = ApiResponse (Some content :: rest) →
    json_loads content = Ok (JObject d cs) →
    analysis_path comment w
      (set_analysis (default (PBool false) (d !! "is_offensive"))
         (default PNone (d !! "offense_type"))
         (default PNone (d !! "explanation"))
         (default PNone (d !! "severity")) comment)
      (World (files w) (stdout w)
         (requests w ++ [get_or comment "comment_text" (PStr "")]))
| path_other_error content rest e :
    prefiltered comment = false →
    chat_completions_create (length (requests w))
      (get_or comment "comment_text" (PStr ""))
      = ApiResponse (content :: rest) →
    decoding_raises content e →
    analysis_path comment w
      (set_analysis (PBool true) (PStr "api_error")
         (PStr ("Error during AI analysis: " +:+ exn_str e)) (PInt 4) comment)
      (World (files w)
         (stdout w ++ ["Error during OpenAI API call for comment ID "
                       +:+ py_str (get comment "comment_id") +:+ ": "
                       +:+ exn_str e])
         (requests w ++ [get_or comment "comment_text" (PStr "")])).

(** Why a path cannot be loaded: its extension is neither [.csv] nor
    [.json]; nothing is there; it cannot be opened or decoded; the csv
    reader or the JSON decoder rejects its text; or the JSON document is
    neither an array nor an object with the key [comments]. *)
Inductive unloadable (w : world) (path : string) : Prop :=
| unsupported_format :
    endswith path ".csv" = false → endswith path ".json" = false →
    unloadable w path
| missing_file :
    files w !! path = None → unloadable w path
| no_access e :
    files w !! path = Some (NoAccess e) → unloadable w path
| undecodable e :
    files w !! path = Some (Undecodable e) → unloadable w path
| malformed_csv text e :
    endswith path ".csv" = true →
    files w !! path = Some (Contents text) →
    Csv.DictReader text = Raise e →
    unloadable w path
| malformed_json text e :
    endswith path ".csv" = false → endswith path ".json" = true →
    files w !! path = Some (Contents text) →
    json_loads text = Raise e →
    unloadable w path
| json_without_comments text d :
    endswith path ".csv" = false → endswith path ".json" = true →
    files w !! path = Some (Contents text) →
    json_loads text = Ok (JObject d None) →
    unloadable w path
| json_scalar text v :
    endswith path ".csv" = false → endswith path ".json" = true →
    files w !! path = Some (Contents text) →
    json_loads text = Ok (JScalar v) →
    unloadable w path.

End Detector.

(** ** Comment files *)

(** The values [DictWriter] writes for a dictionary. *)
Definition row_values (names : list string) (c : dict) : list pyval :=
  map (λ k, get_or c k (PStr "")) names.

(** The header of a comment file, and the three entries of a comment
    that come from it. *)
Definition header : list string := ["comment_id"; "username"; "comment_text"].

Definition key_fields (c : dict) : list pyval :=
  [get c "comment_id"; get c "username"; get c "comment_text"].

(** The record [export_report] writes for a comment loaded from a row. *)
Definition exported (row : list string) : list (list ascii) :=
  (map list_ascii_of_string row ++ [[]; []; []; []])%list.

(** ** generate_report_json *)

Module Report.

(** [Counter(iterable)]: the keys in order of first occurrence, each with
    its number of occurrences; keys are compared with [==]. *)
Fixpoint counter_add (k : pyval) (c : list (pyval * nat)) : list (pyval * nat) :=
  match c with
  | [] => [(k, 1)]
  | (k', n) :: c' =>
      if py_eq k k' then (k', S n) :: c' else (k', n) :: counter_add k c'
  end.

Definition Counter (l : list pyval) : list (pyval * nat) :=
  fold_left (λ c k, counter_add k c) l [].

(** [c[k]] on a counter: 0 for a key it does not hold. *)
Fixpoint counter_get (c : list (pyval * nat)) (k : pyval) : nat :=
  match c with
  | [] => 0
  | (k', n) :: c' => if py_eq k k' then n else counter_get c' k
  end.

Record report := {
  total_comments : nat;
  num_offensive_comments : nat;
  offense_type_breakdown : list (pyval * nat);
  top_5_most_severe_offensive_comments_varied : list dict
}.

(** [key=lambda x: x.get('severity', 0)] *)
Definition sort_key (x : dict) : pyval := get_or x "severity" (PInt 0).

Definition key_lt (a b : pyval) : bool := default false (py_lt a b).

(** Every pair of keys can be compared with [<]. *)
Definition orderable (keys : list pyval) : bool :=
  forallb (λ a, forallb (λ b, bool_decide (is_Some (py_lt a b))) keys) keys.

Fixpoint insert_desc (x : dict) (l : list dict) : list dict :=
  match l with
  | [] => [x]
  | y :: l' =>
      if key_lt (sort_key x) (sort_key y) then y :: insert_desc x l'
      else x :: y :: l'
  end.

(** [sorted(l, key=..., reverse=True)]: a stable sort, larger keys first.
    With fewer than two items nothing is compared; otherwise a key that
    cannot be compared with another one makes [sorted] raise [TypeError],
    which is the result [None]. *)
Definition sorted_desc (l : list dict) : option (list dict) :=
  if (length l <? 2)%nat || orderable (map sort_key l)
  then Some (foldr insert_desc [] l)
  else None.

(** [seen_offense_types] holds the offense types up to [==]: a set of
    normalised values. *)
Definition seen (offense_type : pyval) (seen_offense_types : gset pyval) : bool :=
  bool_decide (norm offense_type ∈ seen_offense_types).

(** The first loop: it visits the sorted comments, keeps the first one of
    each offense type and stops once five are kept. *)
Fixpoint varied_loop (sorted_offensive : list dict) (top_5_varied : list dict)
    (seen_offense_types : gset pyval) : list dict :=
  match sorted_offensive with
  | [] => top_5_varied
  | comment :: rest =>
      let offense_type := get comment "offense_type" in
      if (length top_5_varied <? 5)%nat then
        if negb (seen offense_type seen_offense_types) then
          varied_loop rest (top_5_varied ++ [comment])
            ({[norm offense_type]} ∪ seen_offense_types)
        else if bool_decide (top_5_varied = []) then
          varied_loop rest (top_5_varied ++ [comment]) seen_offense_types
        else varied_loop rest top_5_varied seen_offense_types
      else top_5_varied
  end.

(** The second loop: [comment not in top_5_varied] compares dictionaries
    with [==]. *)
Fixpoint fill_loop (sorted_offensive : list dict) (top_5_varied : list dict)
    : list dict :=
  match sorted_offensive with
  | [] => top_5_varied
  | comment :: rest =>
      if negb (dict_in comment top_5_varied) && (length top_5_varied <? 5)%nat
      then fill_loop rest (top_5_varied ++ [comment])
      else fill_loop rest top_5_varied
  end.

Definition top_5 (sorted_offensive : list dict) : list dict :=
  let top_5_varied := varied_loop sorted_offensive [] ∅ in
  if (length top_5_varied <? 5)%nat then fill_loop sorted_offensive top_5_varied
  else top_5_varied.

Definition is_offensive (c : dict) : bool := truthy (get c "is_offensive").

(** [Counter([c.get('offense_type') for c in offensive_comments
              if c.get('offense_type')])] *)
Definition breakdown (offensive_comments : list dict) : list (pyval * nat) :=
  Counter (map (λ c, get c "offense_type")
             (filter (λ c, truthy (get c "offense_type") = true)
                offensive_comments)).

(** [None]: the call ends with the [TypeError] of [sorted]. *)
Definition generate_report_json (analyzed_comments : list dict)
    : option report :=
  let offensive_comments :=
    filter (λ c, is_offensive c = true) analyzed_comments in
  let num_offensive := length offensive_comments in
  let total_comments := length analyzed_comments in
  sorted_offensive ← sorted_desc offensive_comments;
  Some {| total_comments := total_comments;
          num_offensive_comments := num_offensive;
          offense_type_breakdown := breakdown offensive_comments;
          top_5_most_severe_offensive_comments_varied :=
            top_5 sorted_offensive |}.

(** *** Sorted and varied *)

(** The severity a comment is sorted by when it is a number or absent. *)
Definition severity (c : dict) : Z := default 0%Z (num_of (sort_key c)).

Definition numeric_severity (c : dict) : Prop := is_Some (num_of (sort_key c)).

(** Larger severities come first. *)
Definition descending (l : list dict) : Prop :=
  StronglySorted (λ a b, (severity b ≤ severity a)%Z) l.

(** The first comment of each offense type not in [seen], at most [n]. *)
Fixpoint first_of_each_type (n : nat) (seen : gset pyval) (l : list dict)
    : list dict :=
  match n, l with
  | S n', c :: rest =>
      if decide (norm (get c "offense_type") ∈ seen)
      then first_of_each_type n seen rest
      else c :: first_of_each_type n'
                  ({[norm (get c "offense_type")]} ∪ seen) rest
  | _, _ => []
  end.

End Report.

(** ** data_generation.py: assembling final_comments *)

Module Generation.

Definition OUTPUT_FILENAME : string := "generated_comments.csv".

Section Loop.
Context `{Externals}.

(** The record built for the item at position [index], and the number of
    names drawn from [fake] so far.  An item is what [json.loads] returned
    for a line of a reply. *)
Definition final_comment (index : nat) (drawn : nat) (comment : gmap string pyval)
    : dict * nat :=
  let '(comment, drawn) :=
    if bool_decide (is_Some (comment !! "username")) then (comment, drawn)
    else (<["username" := PStr (fake_user_name drawn)]> comment, S drawn) in
  let comment :=
    if bool_decide (is_Some (comment !! "comment_text")) then comment
    else <["comment_text" := PStr "This comment had an issue."]> comment in
  (Dict (<["comment_text" := default PNone (comment !! "comment_text")]>
           (<["username" := default PNone (comment !! "username")]>
              (<["comment_id" := PInt (Z.of_nat index + 1)]> ∅))) None,
   drawn).

(** [for index, comment in enumerate(all_generated_comments)], from
    position [index] on.  An item that is not a dictionary (a string, a
    number, a list) supports neither [comment["username"] = ...] nor
    [comment["username"]]: the script ends with a [TypeError], which is
    the result [None]. *)
Fixpoint final_loop (all_generated_comments : list json_data) (index : nat)
    (drawn : nat) : option (list dict) :=
  match all_generated_comments with
  | [] => Some []
  | JObject comment _ :: rest =>
      let '(record, drawn) := final_comment index drawn comment in
      others ← final_loop rest (S index) drawn;
      Some (record :: others)
  | _ :: _ => None
  end.

Definition final_comments (all_generated_comments : list json_data)
    : option (list dict) :=
  final_loop all_generated_comments 0 0.

End Loop.

(** [writer.writeheader(); writer.writerows(final_comments)] into the
    output file, and the closing message. *)
Definition save (final_comments : list dict) : M unit :=
  _ ← open_write OUTPUT_FILENAME;
  _ ← file_write OUTPUT_FILENAME (Csv.row_line (map PStr header));
  _ ← writerows header OUTPUT_FILENAME final_comments;
  print (String "010" "Generated comments saved to " +:+ OUTPUT_FILENAME).

(** The keys of a generated record. *)
Definition three_fields : gset string :=
  {["comment_id"; "username"; "comment_text"]}.

End Generation.

(** ** What the analysis loop does to a comment *)

(** The text a comment is classified by. *)
Definition text_of (c : dict) : pyval := get_or c "comment_text" (PStr "").

(** What the analysis keeps of a comment and what it always adds:
    [c'] is what comes back for [c]. *)
Definition analysed_from (c c' : dict) : Prop :=
  beside_analysis (items c') = beside_analysis (items c)
  ∧ surplus c' = surplus c
  ∧ is_Some (items c' !! "is_offensive")
  ∧ is_Some (items c' !! "offense_type")
  ∧ is_Some (items c' !! "severity").

(** ** Comments that differ pairwise *)

(** No comment of the list is [==] to a later one. *)
Definition pairwise_different (l : list dict) : Prop :=
  ∀ i j a b, (i < j)%nat → l !! i = Some a → l !! j = Some b →
             dict_eq a b = false.

(** The offense type of a comment, as the set of seen types holds it. *)
Definition type_of (c : dict) : pyval := norm (get c "offense_type").

(** ** Comments that an export can write and a load can read back *)

(** The keys of the comment are field names of the export, and the text of
    each field is within the field limit of the reader. *)
Definition exportable (c : dict) : Prop :=
  dom (items c) ⊆ list_to_set fieldnames
  ∧ surplus c = None
  ∧ Forall (λ k, Csv.fits (list_ascii_of_string (Csv.field_text (get c k))))
      fieldnames.

(** The comment [c'] holds, under each field name, the text that the
    writer makes of the entry of [c], and nothing else. *)
Definition reloaded_from (c c' : dict) : Prop :=
  surplus c' = None
  ∧ dom (items c') = list_to_set fieldnames
  ∧ ∀ k, k ∈ fieldnames →
         items c' !! k = Some (PStr (Csv.field_text (get c k))).

(** ** The rest of offensive_comment_detector.py *)

(** What the program takes from [json.dump] on a report, from matplotlib
    and from the message of the [TypeError] of [sorted]: the text written
    for a report; the outcome of drawing and showing a bar chart of the
    given labels and counts, which may raise; the message for a list of
    sort keys that cannot be ordered. *)
Class Reporting := {
  report_dumps : Report.report → string;
  show_bar_chart : list pyval → list nat → result unit;
  sorted_error : list pyval → string
}.

Module Main.
Import Report.

Section Program.
Context `{Externals} `{Reporting}.

(** *** display_summary *)

(** The line printed for the comment at position [i] of the sample. *)
Definition sample_line (i : nat) (comment : dict) : string :=
  "  " +:+ pretty (i + 1)%nat +:+ ". ID: " +:+ py_str (get comment "comment_id")
  +:+ ", User: " +:+ py_str (get comment "username")
  +:+ ", Comment: " +:+ py_str (get comment "comment_text").

(** [for i, comment in enumerate(sample): print(...)], from position [i]
    on. *)
Fixpoint print_samples (i : nat) (sample : list dict) : M unit :=
  match sample with
  | [] => mret tt
  | comment :: rest =>
      _ ← print (sample_line i comment);
      print_samples (S i) rest
  end.

Definition display_summary (comments : list dict) : M unit :=
  let total_comments := length comments in
  _ ← print ("Total number of comments loaded: " +:+ pretty total_comments);
  if bool_decide (comments ≠ []) then
    _ ← print (String "010" "Sample of the first 5 comments:");
    print_samples 0 (take 5 comments)
  else print "No comments to display.".

(** *** save_report_json *)

Definition REPORT_JSON_FILE_DEFAULT : string := "offensive_comment_report.json".
Definition OUTPUT_FILE_DEFAULT : string := "analyzed_comments.csv".

Definition save_report_json (report_data : report) (output_file : string)
    : M unit :=
  try_except any_exception
    (_ ← open_write output_file;
     _ ← file_write output_file (report_dumps report_data);
     print (String "010" "Offensive comment report saved to: "
            +:+ output_file))
    (λ e, print ("Error saving JSON report: " +:+ exn_str e)).

(** *** plot_offense_distribution *)

Definition plot_offense_distribution (analyzed_comments : list dict) : M unit :=
  let offensive_comments :=
    filter (λ c, truthy (get c "is_offensive")
                 && truthy (get c "offense_type") = true)
      analyzed_comments in
  let offense_types := map (λ c, get c "offense_type") offensive_comments in
  let offense_type_counts := Counter offense_types in
  if bool_decide (offense_type_counts ≠ []) then
    let labels := map fst offense_type_counts in
    let counts := map snd offense_type_counts in
    lift_result (show_bar_chart labels counts)
  else print "No offensive comments found to plot distribution.".

(** *** main *)

(** The parsed command line. *)
Record args := {
  input_file : string;
  output_file : string;
  pre_filter : bool;
  plot_chart : bool;
  report_json_output : bool;
  report_json_output_file : string
}.

(** The command line without arguments. *)
Definition default_args : args := {|
  input_file := "generated_comments.csv";
  output_file := OUTPUT_FILE_DEFAULT;
  pre_filter := false;
  plot_chart := false;
  report_json_output := false;
  report_json_output_file := REPORT_JSON_FILE_DEFAULT
|}.

(** The dictionaries of [analyzed_comments] as [export_report] leaves
    them: its filling loop writes to the dictionaries of the list it is
    given, and it runs once a CSV file has been opened. *)
Definition after_export (analyzed_comments : list dict) (output_file : string)
    : M (list dict) := λ w,
  (Ok (if endswith output_file ".csv" then
         match files w !! output_file with
         | Some (NoAccess _) => analyzed_comments
         | _ => map fill_missing analyzed_comments
         end
       else analyzed_comments), w).

(** The call of [generate_report_json], with the [TypeError] of [sorted]. *)
Definition report_of (analyzed_comments : list dict) : M report :=
  match generate_report_json analyzed_comments with
  | Some report_data => mret report_data
  | None =>
      raise (Exn TypeError
               (sorted_error
                  (map sort_key
                     (filter (λ c, is_offensive c = true) analyzed_comments))))
  end.

Definition main (a : args) : M unit :=
  comments ← load_comments (input_file a);
  if bool_decide (comments ≠ []) then
    _ ← display_summary comments;
    analyzed_comments ← process_comments comments (pre_filter a);
    exported_comments ← after_export analyzed_comments (output_file a);
    _ ← export_report analyzed_comments (output_file a);
    report_data ← report_of exported_comments;
    _ ← (if report_json_output a
         then save_report_json report_data (report_json_output_file a)
         else mret tt);
    if plot_chart a then plot_offense_distribution exported_comments
    else mret tt
  else print "No comments loaded. Exiting.".

End Program.
End Main.

(** ** The rest of data_generation.py *)

(** [str(value)] for a decoded JSON value, as an f-string splices it, and
    the message of the [TypeError] that the assembly loop raises at an
    item that is no dictionary. *)
Class Printing := {
  str_of_json : json_data → string;
  item_error : json_data → string
}.

Module Generator.
Import Generation.
Local Open Scope list_scope.

Definition NUM_COMMENTS_TO_GENERATE : nat := 200.
Definition COMMENTS_PER_BATCH : nat := 10.

(** *** str.strip and str.splitlines *)

(** The characters [str.isspace] accepts, among the code points below
    256: tab to carriage return, the four separators, the space, NEL and
    the no-break space. *)
Definition is_space (c : ascii) : bool :=
  let n := nat_of_ascii c in
  ((9 <=? n) && (n <=? 13) || (28 <=? n) && (n <=? 32)
   || (n =? 133) || (n =? 160))%nat.

Fixpoint lstrip (s : string) : string :=
  match s with
  | EmptyString => EmptyString
  | String c rest => if is_space c then lstrip rest else s
  end.

Fixpoint rstrip (s : string) : string :=
  match s with
  | EmptyString => EmptyString
  | String c rest =>
      match rstrip rest with
      | EmptyString => if is_space c then EmptyString else String c EmptyString
      | kept => String c kept
      end
  end.

(** [s.strip()] *)
Definition strip (s : string) : string := rstrip (lstrip s).

(** The line boundaries of [str.splitlines], among the code points below
    256: line feed, vertical tab, form feed, carriage return, the file,
    group and record separators, and NEL. *)
Definition is_linebreak (c : ascii) : bool :=
  let n := nat_of_ascii c in
  ((10 <=? n) && (n <=? 13) || (28 <=? n) && (n <=? 30) || (n =? 133))%nat.

(** [cur] is the part of the current line already read; a carriage return
    followed by a line feed is one boundary. *)
Fixpoint splitlines_from (cur : string) (s : string) : list string :=
  match s with
  | EmptyString => if String.eqb cur "" then [] else [cur]
  | String c rest =>
      if is_linebreak c then
        cur :: match rest with
               | String c' rest' =>
                   if Ascii.eqb c Csv.CR && Ascii.eqb c' Csv.LF
                   then splitlines_from "" rest'
                   else splitlines_from "" rest
               | EmptyString => []
               end
      else splitlines_from (cur +:+ String c "") rest
  end.

(** [s.splitlines()] *)
Definition splitlines (s : string) : list string := splitlines_from "" s.

(** *** generate_comments_batch *)

Definition quote : string := String "034" "".

Definition prompt (num_comments : nat) : string :=
  "Generate " +:+ pretty num_comments
  +:+ " diverse user comments suitable for testing an offensive content detection system."
  +:+ String "010" "Include a mix of positive, neutral, and various types of offensive comments (hate speech, toxicity, profanity, harassment, spam, sarcasm, etc.)."
  +:+ String "010" "Each comment should be a single-line JSON object with the keys: "
  +:+ quote +:+ "username" +:+ quote
  +:+ " (generate a realistic-sounding username), and "
  +:+ quote +:+ "comment_text" +:+ quote
  +:+ " (the user comment). Separate each JSON object with a newline character.".

(** [key in value] for a string [key] and a decoded JSON value: a key of
    an object, a part of a string; no record of an array equals a string;
    the other scalars are no containers. *)
Definition py_in (key : string) (value : json_data) : result bool :=
  match value with
  | JObject d comments =>
      Ok (bool_decide (is_Some (d !! key))
          || String.eqb key "comments" && bool_decide (is_Some comments))
  | JArray _ => Ok false
  | JScalar (PStr s) =>
      Ok (bool_decide (is_Some (String.index 0 key s)))
  | JScalar v =>
      Raise (Exn TypeError
               ("argument of type '" +:+ type_name v +:+ "' is not iterable"))
  end.

(** What [generate_comments_batch] keeps: a value that passes both
    tests of the loop. *)
Definition accepted (value : json_data) : Prop :=
  py_in "username" value = Ok true ∧ py_in "comment_text" value = Ok true.

(** The entry of an item under [key], when the item is an object. *)
Definition entry (key : string) (value : json_data) : pyval :=
  match value with
  | JObject d _ => default PNone (d !! key)
  | _ => PNone
  end.

(** The record that the assembly loop builds from the entries of the item
    at position [index]. *)
Definition assembled (index : nat) (item : json_data) : dict :=
  Dict (<["comment_text" := entry "comment_text" item]>
          (<["username" := entry "username" item]>
             (<["comment_id" := PInt (Z.of_nat index + 1)]> ∅))) None.

Section Script.
Context `{Externals} `{Printing}.

(** [for line in lines: ...], with the comments kept so far. *)
Fixpoint batch_loop (lines : list string) (comments : list json_data)
    : M (list json_data) :=
  match lines with
  | [] => mret comments
  | line :: rest =>
      comments ←
        try_except (of_class JSONDecodeError)
          (comment_json ← lift_result (json_loads line);
           has_username ← lift_result (py_in "username" comment_json);
           has_both ←
             (if has_username : bool
              then lift_result (py_in "comment_text" comment_json)
              else mret false);
           if has_both : bool then mret (comments ++ [comment_json])
           else
             _ ← print ("Warning: Incomplete JSON object: "
                        +:+ str_of_json comment_json);
             mret comments)
          (λ e,
           _ ← print ("Warning: Could not decode JSON line: " +:+ line);
           mret comments);
      batch_loop rest comments
  end.

(** The chat API of [Externals] is here the Groq client; the request is
    the prompt. *)
Definition generate_comments_batch (num_comments : nat) : M (list json_data) :=
  try_except any_exception
    (choices ← create (PStr (prompt num_comments));
     match choices with
     | first :: _ =>
         content ←
           match first with
           | Some content => mret (strip content)
           | None =>
               raise (Exn AttributeError
                        "'NoneType' object has no attribute 'strip'")
           end;
         batch_loop (splitlines content) []
     | [] =>
         _ ← print "Warning: No response from the Groq model.";
         mret []
     end)
    (λ e,
     _ ← print ("Error during Groq API call: " +:+ exn_str e);
     mret []).

(** *** The script *)

(** [range(start, stop, step)] for a positive step. *)
Fixpoint range_from (fuel start stop step : nat) : list nat :=
  match fuel with
  | 0 => []
  | S fuel' =>
      if (start <? stop)%nat
      then start :: range_from fuel' (start + step) stop step
      else []
  end.

Definition range (start stop step : nat) : list nat :=
  range_from stop start stop step.

(** [for i in range(...): ...], with the comments generated so far;
    [time.sleep] changes nothing here. *)
Fixpoint batches (starts : list nat) (all_generated_comments : list json_data)
    : M (list json_data) :=
  match starts with
  | [] => mret all_generated_comments
  | i :: rest =>
      _ ← print ("Generating comments " +:+ pretty (i + 1)%nat +:+ " to "
                 +:+ pretty ((i + COMMENTS_PER_BATCH) `min`
                             NUM_COMMENTS_TO_GENERATE)%nat
                 +:+ "...");
      batch ← generate_comments_batch COMMENTS_PER_BATCH;
      batches rest (all_generated_comments ++ batch)
  end.

(** The first item of the list that is no dictionary: the assembly loop
    stops there. *)
Fixpoint first_unsubscriptable (l : list json_data) : option json_data :=
  match l with
  | [] => None
  | JObject _ _ :: rest => first_unsubscriptable rest
  | x :: _ => Some x
  end.

(** The script after the check of the API key. *)
Definition script : M unit :=
  all_generated_comments ←
    batches (range 0 NUM_COMMENTS_TO_GENERATE COMMENTS_PER_BATCH) [];
  _ ← print (String "010" "Generated "
             +:+ pretty (length all_generated_comments) +:+ " comments.");
  match final_comments all_generated_comments with
  | Some final_comments => save final_comments
  | None =>
      raise (Exn TypeError
               (item_error
                  (default (JScalar PNone)
                     (first_unsubscriptable all_generated_comments))))
  end.

End Script.
End Generator.

(** * Concrete runs *)

Module Examples.
Import Report Generation.

(** A service that answers its first request without choices, fails on
    the second one, sends an undecodable text on the third one and an
    empty object afterwards; a decoder that knows two documents; a word
    list with one word. *)
Definition service : Externals := {|
  chat_completions_create := λ n text,
    match n with
    | 0 => ApiResponse []
    | 1 => ApiRaises (Exn (OtherException "APIConnectionError")
                          "Connection error.")
    | 2 => ApiResponse [Some "not json"]
    | _ => ApiResponse [Some "{}"]
    end;
  json_loads := λ s,
    if String.eqb s "{}" then Ok (JObject ∅ None)
    else if String.eqb s "[]" then Ok (JArray [])
    else Raise (Exn JSONDecodeError
                  "Expecting value: line 1 column 1 (char 0)");
  contains_profanity := λ text,
    match text with
    | PStr s => String.eqb s "damn"
    | _ => true
    end;
  json_dumps := λ comments, "{}";
  fake_user_name := λ n, "user" +:+ pretty n
|}.

Definition comment (id user text : string) : dict :=
  Dict (<["comment_text" := PStr text]>
          (<["username" := PStr user]> (<["comment_id" := PStr id]> ∅))) None.

Definition analyzed (id : string) (offense_type : pyval) (severity : pyval)
    : dict :=
  set_analysis (PBool true) offense_type (PStr "because") severity
    (comment id "someone" "something").

Definition idle : world := World ∅ [] [].

(** The world after [n] classification requests. *)
Definition after (n : nat) : world := World ∅ [] (replicate n (PStr "earlier")).

Definition hello : dict := comment "1" "ann" "hello".
Definition swearing : dict := comment "2" "bob" "damn".

(** What comes back for [hello] when the service sends no choices. *)
Definition unanswered : dict :=
  set_analysis (PBool false) PNone (PStr "No response from AI model.") PNone
    hello.

(** Two offensive comments, the first with a null severity. *)
Definition null_severity_input : list dict :=
  [analyzed "1" (PStr "toxicity") PNone;
   analyzed "2" (PStr "harassment") (PInt 3)].

Definition mixed_input : list dict :=
  [analyzed "1" (PStr "toxicity") (PInt 2);
   comment "2" "ann" "hello";
   analyzed "3" (PStr "toxicity") (PInt 4);
   analyzed "4" PNone (PInt 1);
   analyzed "5" (PStr "harassment") (PInt 5)].

Definition mixed_report : report :=
  Eval vm_compute in
    default (Build_report 0 0 [] []) (generate_report_json mixed_input).

Definition generated_input : list json_data :=
  [JObject (<["comment_text" := PStr "nice"]> (<["username" := PStr "ann"]> ∅))
     None;
   JObject (<["comment_text" := PStr "meh"]> (<["username" := PStr "bob"]> ∅))
     None].

Definition generated_records : list dict :=
  Eval vm_compute in
    default [] (@final_comments service generated_input).

(** A service whose replies name an offense and no severity. *)
Definition careless : Externals := {|
  chat_completions_create := λ n text, ApiResponse [Some "reply"];
  json_loads := λ s,
    Ok (JObject (<["explanation" := PStr "rude"]>
                   (<["offense_type" := PStr "toxicity"]>
                      (<["is_offensive" := PBool true]> ∅))) None);
  contains_profanity := λ text, false;
  json_dumps := λ comments, "{}";
  fake_user_name := λ n, "user"
|}.

(** Offensive comments of types A, A, B and C with severities 5, 4, 3
    and 1. *)
Definition abc_input : list dict :=
  [analyzed "1" (PStr "A") (PInt 5); analyzed "2" (PStr "A") (PInt 4);
   analyzed "3" (PStr "B") (PInt 3); analyzed "4" (PStr "C") (PInt 1)].

Definition dquote : string := String "034" "".
Definition crlf : string := String "013" (String "010" "").

(** A comment file with a quoted field and an empty line. *)
Definition comments_csv : string :=
  "comment_id,username,comment_text" +:+ crlf
  +:+ "1,ann," +:+ dquote +:+ "well, " +:+ dquote +:+ dquote +:+ "hello"
  +:+ dquote +:+ dquote +:+ dquote +:+ crlf
  +:+ crlf
  +:+ "2,bob,damn" +:+ String "010" "".

Definition comments_rows : list (list string) :=
  Eval vm_compute in
    match Csv.records comments_csv with
    | Ok (_ :: rows) => rows
    | _ => []
    end.

Definition disk : world :=
  World (<["comments.csv" := Contents comments_csv]> ∅) [] [].

(** A comment file whose last field opens a quote that is never closed. *)
Definition broken_csv : string :=
  "comment_id,username,comment_text" +:+ crlf
  +:+ "1,ann," +:+ dquote +:+ "hello".

Definition broken_disk : world :=
  World (<["broken.csv" := Contents broken_csv]> ∅) [] [].

(** A service whose replies carry a choice without content. *)
Definition contentless : Externals := {|
  chat_completions_create := λ n text, ApiResponse [None];
  json_loads := λ s,
    Raise (Exn JSONDecodeError "Expecting value: line 1 column 1 (char 0)");
  contains_profanity := λ text, false;
  json_dumps := λ comments, "{}";
  fake_user_name := λ n, "user"
|}.

End Examples.

(** ** Runs of the whole programs *)

Module Runs.
Import Report Generation Examples Main Generator.
Local Open Scope list_scope.

(** A report writer that only counts, a display that always works, and
    the message of [sorted] for keys that are [None]. *)
Definition paper : Reporting := {|
  report_dumps := λ r, "{" +:+ pretty (total_comments r) +:+ "}";
  show_bar_chart := λ labels counts, Ok tt;
  sorted_error := λ keys,
    "'<' not supported between instances of 'NoneType' and 'NoneType'"
|}.

Definition plain : Printing := {|
  str_of_json := λ value,
    match value with
    | JScalar v => py_str v
    | JArray _ => "[...]"
    | JObject _ _ => "{...}"
    end;
  item_error := λ value, "string indices must be integers, not 'str'"
|}.

(** What [process_comments] with the pre-filter returns for a clean and
    a profane comment, and the world it leaves. *)
Definition processed : list dict * world :=
  Eval vm_compute in
    match @process_comments service [hello; swearing] true idle with
    | (Ok analyzed, w) => (analyzed, w)
    | (Raise _, w) => ([], w)
    end.

(** A comment from a file with a fourth column. *)
Definition liked : dict := setitem "likes" (PStr "3") (comment "2" "bob" "ok").

(** Analysed comments: one found harmless, one offensive. *)
Definition harmless : dict :=
  set_analysis (PBool false) PNone PNone PNone hello.

Definition exported_input : list dict :=
  [harmless; analyzed "2" (PStr "toxicity") (PInt 4)].

(** The command line [comments.csv --report_json]. *)
Definition with_report : args := {|
  input_file := "comments.csv";
  output_file := OUTPUT_FILE_DEFAULT;
  pre_filter := false;
  plot_chart := false;
  report_json_output := true;
  report_json_output_file := REPORT_JSON_FILE_DEFAULT
|}.

(** The run of [main] on the comment file with the service that answers
    without severities, step by step. *)
Definition loaded : list dict * world :=
  Eval vm_compute in
    match @load_comments careless "comments.csv" disk with
    | (Ok comments, w) => (comments, w)
    | (Raise _, w) => ([], w)
    end.

Definition shown : world :=
  Eval vm_compute in (@display_summary loaded.1 loaded.2).2.

Definition classified : list dict * world :=
  Eval vm_compute in
    match @process_comments careless loaded.1 false shown with
    | (Ok analyzed, w) => (analyzed, w)
    | (Raise _, w) => ([], w)
    end.

Definition answered : list dict * world :=
  Eval vm_compute in
    match @process_comments service loaded.1 false shown with
    | (Ok analyzed, w) => (analyzed, w)
    | (Raise _, w) => ([], w)
    end.

(** The analysed comments as the export to [analyzed_comments.csv] leaves
    them, and the report on them. *)
Definition answered_exported : list dict :=
  Eval vm_compute in map fill_missing answered.1.

Definition answered_report : report :=
  Eval vm_compute in
    default (Build_report 0 0 [] []) (generate_report_json answered_exported).

(** Two offensive comments, one with a number and one with a word as
    severity. *)
Definition worded_input : list dict :=
  [analyzed "1" (PStr "toxicity") (PInt 2);
   analyzed "2" (PStr "harassment") (PStr "high")].

Definition main_run : result unit * world :=
  Eval vm_compute in @main careless paper with_report disk.

(** A Groq client whose every reply holds two objects and a blank line;
    the decoder knows the two lines. *)
Definition first_line : string :=
  "{" +:+ quote +:+ "username" +:+ quote +:+ ": " +:+ quote +:+ "ann"
  +:+ quote +:+ ", " +:+ quote +:+ "comment_text" +:+ quote +:+ ": "
  +:+ quote +:+ "nice" +:+ quote +:+ "}".

Definition second_line : string :=
  "{" +:+ quote +:+ "username" +:+ quote +:+ ": " +:+ quote +:+ "bob"
  +:+ quote +:+ ", " +:+ quote +:+ "comment_text" +:+ quote +:+ ": "
  +:+ quote +:+ "meh" +:+ quote +:+ "}".

Definition groq : Externals := {|
  chat_completions_create := λ n text,
    ApiResponse [Some (first_line +:+ String "010" (String "010" second_line)
                       +:+ String "010" "")];
  json_loads := λ s,
    if String.eqb s first_line then
      Ok (JObject (<["comment_text" := PStr "nice"]>
                     (<["username" := PStr "ann"]> ∅)) None)
    else if String.eqb s second_line then
      Ok (JObject (<["comment_text" := PStr "meh"]>
                     (<["username" := PStr "bob"]> ∅)) None)
    else Raise (Exn JSONDecodeError
                  "Expecting value: line 1 column 1 (char 0)");
  contains_profanity := λ text, false;
  json_dumps := λ comments, "{}";
  fake_user_name := λ n, "user" +:+ pretty n
|}.

(** A client that sends an object and, on a line of its own, a number. *)
Definition numbering : Externals := {|
  chat_completions_create := λ n text,
    ApiResponse [Some (first_line +:+ String "010" "5")];
  json_loads := λ s,
    if String.eqb s first_line then
      Ok (JObject (<["comment_text" := PStr "nice"]>
                     (<["username" := PStr "ann"]> ∅)) None)
    else if String.eqb s "5" then Ok (JScalar (PInt 5))
    else Raise (Exn JSONDecodeError
                  "Expecting value: line 1 column 1 (char 0)");
  contains_profanity := λ text, false;
  json_dumps := λ comments, "{}";
  fake_user_name := λ n, "user" +:+ pretty n
|}.

Definition script_run : result unit * world :=
  Eval vm_compute in @script groq plain idle.

Definition saved : world :=
  Eval vm_compute in (save generated_records idle).2.

End Runs.

(** * Properties *)

(** ** Dictionary updates *)

Lemma get_setitem_eq k v d : get (setitem k v d) k = v.
Proof. unfold get, setitem; simpl. by rewrite lookup_insert_eq. Qed.

Lemma get_setitem_ne k k' v d : k ≠ k' → get (setitem k v d) k' = get d k'.
Proof. intros Hne. unfold get, setitem; simpl. by rewrite lookup_insert_ne. Qed.

Lemma items_setitem k v d : items (setitem k v d) = <[k := v]> (items d).
Proof. reflexivity. Qed.

Lemma surplus_setitem k v d : surplus (setitem k v d) = surplus d.
Proof. reflexivity. Qed.

Lemma beside_analysis_lookup m k :
  k ≠ "is_offensive" → k ≠ "offense_type" → k ≠ "explanation" →
  k ≠ "severity" → beside_analysis m !! k = m !! k.
Proof.
  intros. unfold beside_analysis. by rewrite !lookup_delete_ne.
Qed.

Lemma beside_analysis_severity v d :
  beside_analysis (items (setitem "severity" v d)) = beside_analysis (items d).
Proof.
  unfold beside_analysis. apply map_eq; intros k.
  destruct (decide (k = "severity")) as [->|Hs].
  - by rewrite !lookup_delete_eq.
  - rewrite !(lookup_delete_ne _ "severity") by done.
    destruct (decide (k = "explanation")) as [->|He];
      [by rewrite !lookup_delete_eq|].
    rewrite !(lookup_delete_ne _ "explanation") by done.
    destruct (decide (k = "offense_type")) as [->|Ho];
      [by rewrite !lookup_delete_eq|].
    rewrite !(lookup_delete_ne _ "offense_type") by done.
    destruct (decide (k = "is_offensive")) as [->|Hi];
      [by rewrite !lookup_delete_eq|].
    rewrite !(lookup_delete_ne _ "is_offensive") by done.
    rewrite items_setitem. by rewrite lookup_insert_ne.
Qed.

Lemma beside_analysis_set a b c d comment :
  beside_analysis (items (set_analysis a b c d comment))
  = beside_analysis (items comment).
Proof.
  unfold beside_analysis, set_analysis. apply map_eq; intros k.
  destruct (decide (k = "severity")) as [->|Hs];
    [by rewrite !lookup_delete_eq|].
  rewrite !(lookup_delete_ne _ "severity") by done.
  destruct (decide (k = "explanation")) as [->|He];
    [by rewrite !lookup_delete_eq|].
  rewrite !(lookup_delete_ne _ "explanation") by done.
  destruct (decide (k = "offense_type")) as [->|Ho];
    [by rewrite !lookup_delete_eq|].
  rewrite !(lookup_delete_ne _ "offense_type") by done.
  destruct (decide (k = "is_offensive")) as [->|Hi];
    [by rewrite !lookup_delete_eq|].
  rewrite !(lookup_delete_ne _ "is_offensive") by done.
  rewrite !items_setitem. by rewrite !lookup_insert_ne.
Qed.

Lemma set_analysis_fields a b c d comment :
  get (set_analysis a b c d comment) "is_offensive" = a
  ∧ get (set_analysis a b c d comment) "offense_type" = b
  ∧ get (set_analysis a b c d comment) "explanation" = c
  ∧ get (set_analysis a b c d comment) "severity" = d.
Proof.
  unfold set_analysis.
  repeat split;
    repeat (first [ rewrite get_setitem_eq; reflexivity
                  | rewrite get_setitem_ne by done ]).
Qed.

Lemma set_analysis_other a b c d comment k :
  k ≠ "is_offensive" → k ≠ "offense_type" → k ≠ "explanation" →
  k ≠ "severity" →
  items (set_analysis a b c d comment) !! k = items comment !! k.
Proof.
  intros. unfold set_analysis. rewrite !items_setitem.
  by rewrite !lookup_insert_ne.
Qed.

Lemma surplus_set_analysis a b c d comment :
  surplus (set_analysis a b c d comment) = surplus comment.
Proof. reflexivity. Qed.

(** ** The classifier *)

Section Classifier.
Context `{Externals}.

Ltac run_monad :=
  unfold try_except, mbind, M_bind, mret, M_ret, create, loads, lift_result,
    raise, print, analysis_get; simpl.

(** The call never raises, and what it returns lies on one of the paths. *)
Lemma analyze_paths comment w :
  ∃ c' w', analyze_comment_with_ai comment w = (Ok c', w')
           ∧ analysis_path comment w c' w'.
Proof.
  unfold analyze_comment_with_ai.
  destruct (prefiltered comment) eqn:Hpre.
  { eexists _, _. split; [reflexivity|]. by constructor. }
  run_monad.
  destruct (chat_completions_create _ _) as [e|[|[content|] rest]] eqn:Hapi;
    simpl.
  - eexists _, _. split; [reflexivity|]. by apply path_api_error.
  - eexists _, _. split; [reflexivity|]. by apply path_no_choices.
  - destruct (json_loads content) as [[d cs|l|v]|e] eqn:Hj; simpl.
    + eexists _, _. split; [reflexivity|]. by eapply path_analysed.
    + eexists _, _. split; [reflexivity|].
      eapply (path_other_error _ _ _ _ (no_get "list")); [done|done|].
      by eapply raises_list.
    + eexists _, _. split; [reflexivity|].
      eapply (path_other_error _ _ _ _ (no_get (type_name v))); [done|done|].
      by eapply raises_scalar.
    + unfold of_class. case_bool_decide as Hc; simpl.
      * eexists _, _. split; [reflexivity|]. by eapply path_decode_error.
      * eexists _, _. split; [reflexivity|].
        eapply path_other_error; [done|done|]. by apply raises_other_class.
  - eexists _, _. split; [reflexivity|].
    eapply (path_other_error _ _ _ _ (Exn TypeError _)); [done|done|].
    apply raises_no_content.
Qed.

(** C10: on every path [analyze_comment_with_ai] returns (it never raises),
    and the comment it returns has the [comment_id], [username] and
    [comment_text] entries of the comment it was given; more generally the
    two dictionaries agree on every entry other than [is_offensive],
    [offense_type], [explanation] and [severity]. *)
Theorem analyze_comment_with_ai_frame comment w :
  ∃ c' w', analyze_comment_with_ai comment w = (Ok c', w')
    ∧ items c' !! "comment_id" = items comment !! "comment_id"
    ∧ items c' !! "username" = items comment !! "username"
    ∧ items c' !! "comment_text" = items comment !! "comment_text"
    ∧ beside_analysis (items c') = beside_analysis (items comment)
    ∧ surplus c' = surplus comment.
Proof.
  destruct (analyze_paths comment w) as (c' & w' & Heq & Hpath).
  exists c', w'. split; [done|].
  destruct Hpath;
    first [ rewrite beside_analysis_severity, items_setitem,
              !lookup_insert_ne by done; done
          | rewrite beside_analysis_set, !set_analysis_other by done; done ].
Qed.

(** C6: when the classification call raises, the comment comes back (the
    exception does not propagate) marked offensive with offense type
    [api_error], severity 4 and an explanation that ends with the text of
    the error. *)
Theorem api_exception_marks_api_error comment w e :
  prefiltered comment = false →
  chat_completions_create (length (requests w))
    (get_or comment "comment_text" (PStr "")) = ApiRaises e →
  ∃ c' w', analyze_comment_with_ai comment w = (Ok c', w')
    ∧ get c' "is_offensive" = PBool true
    ∧ get c' "offense_type" = PStr "api_error"
    ∧ get c' "severity" = PInt 4
    ∧ get c' "explanation" = PStr ("Error during AI analysis: " +:+ exn_str e).
Proof.
  intros Hpre Hapi.
  destruct (analyze_paths comment w) as (c' & w' & Heq & Hpath).
  exists c', w'. split; [done|].
  destruct Hpath; try congruence.
  assert (e0 = e) as -> by congruence.
  pose proof (set_analysis_fields (PBool true) (PStr "api_error")
    (PStr ("Error during AI analysis: " +:+ exn_str e)) (PInt 4) comment).
  tauto.
Qed.

(** C5, as the code has it: when the first choice of the response
    carries a text that [json.loads] rejects with a [JSONDecodeError], the
    comment comes back marked offensive with offense type [error], the
    fixed explanation and severity 3.  A content that is [None], or a text
    that decodes to an array or a scalar, takes the path of the outer
    handler instead. *)
Theorem undecodable_response_marks_error comment w content rest e :
  prefiltered comment = false →
  chat_completions_create (length (requests w))
    (get_or comment "comment_text" (PStr ""))
    = ApiResponse (Some content :: rest) →
  json_loads content = Raise e →
  exn_cls e = JSONDecodeError →
  ∃ c' w', analyze_comment_with_ai comment w = (Ok c', w')
    ∧ get c' "is_offensive" = PBool true
    ∧ get c' "offense_type" = PStr "error"
    ∧ get c' "explanation" = PStr "Error decoding AI analysis response."
    ∧ get c' "severity" = PInt 3.
Proof.
  intros Hpre Hapi Hj Hcls.
  destruct (analyze_paths comment w) as (c' & w' & Heq & Hpath).
  exists c', w'. split; [done|].
  destruct Hpath as [| | |content' rest' e'| |content' rest' e' ? ? Hraises];
    try congruence.
  - apply set_analysis_fields.
  - exfalso. assert (content' = Some content) as -> by congruence.
    inversion Hraises; subst; congruence.
Qed.

(** C2, as the code has it: a comment that comes back with a false
    [is_offensive] was answered either by a response without choices, and
    then [offense_type] and [severity] are [None] and [explanation] is the
    fixed text "No response from AI model.", or by a JSON object, and then
    the three entries are what the object holds under these keys ([None]
    for a key it lacks). *)
Theorem not_offensive_fields comment w c' w' :
  analyze_comment_with_ai comment w = (Ok c', w') →
  truthy (get c' "is_offensive") = false →
  let reply := chat_completions_create (length (requests w))
                 (get_or comment "comment_text" (PStr "")) in
  (reply = ApiResponse []
   ∧ get c' "offense_type" = PNone
   ∧ get c' "severity" = PNone
   ∧ get c' "explanation" = PStr "No response from AI model.")
  ∨ (∃ content rest d cs,
       reply = ApiResponse (Some content :: rest)
       ∧ json_loads content = Ok (JObject d cs)
       ∧ get c' "offense_type" = default PNone (d !! "offense_type")
       ∧ get c' "explanation" = default PNone (d !! "explanation")
       ∧ get c' "severity" = default PNone (d !! "severity")).
Proof.
  intros Hrun Hfalse reply. subst reply.
  destruct (analyze_paths comment w) as (c & w1 & Heq & Hpath).
  rewrite Heq in Hrun. injection Hrun as <- <-.
  destruct Hpath as [Hpre| | | |content rest d cs|].
  - exfalso. rewrite get_setitem_ne in Hfalse by done.
    unfold prefiltered in Hpre. apply andb_true_iff in Hpre as [Ht _].
    congruence.
  - exfalso. revert Hfalse.
    by rewrite (proj1 (set_analysis_fields _ _ _ _ _)).
  - left. split; [done|].
    pose proof (set_analysis_fields (PBool false) PNone
      (PStr "No response from AI model.") PNone comment). tauto.
  - exfalso. revert Hfalse.
    by rewrite (proj1 (set_analysis_fields _ _ _ _ _)).
  - right. exists content, rest, d, cs. split; [done|]. split; [done|].
    pose proof (set_analysis_fields
      (default (PBool false) (d !! "is_offensive"))
      (default PNone (d !! "offense_type"))
      (default PNone (d !! "explanation"))
      (default PNone (d !! "severity")) comment). tauto.
  - exfalso. revert Hfalse.
    by rewrite (proj1 (set_analysis_fields _ _ _ _ _)).
Qed.

Lemma analyze_prefiltered comment w :
  prefiltered comment = true →
  analyze_comment_with_ai comment w = (Ok (setitem "severity" (PInt 1) comment), w).
Proof. intros Hpre. unfold analyze_comment_with_ai. by rewrite Hpre. Qed.

Lemma pre_filter_one_flagged comment :
  flagged comment = true →
  get (pre_filter_one comment) "is_offensive" = PBool true
  ∧ get (pre_filter_one comment) "offense_type" = PStr "profanity"
  ∧ get (pre_filter_one comment) "explanation"
    = PStr "Flagged by better_profanity"
  ∧ prefiltered (pre_filter_one comment) = true.
Proof.
  unfold flagged, pre_filter_one, prefiltered. intros ->.
  rewrite get_setitem_eq.
  rewrite (get_setitem_ne "explanation" "offense_type") by done.
  rewrite get_setitem_eq.
  rewrite !(get_setitem_ne _ "is_offensive") by done.
  by rewrite get_setitem_eq.
Qed.

(** The loop of [process_comments] analyses every comment, and a comment
    the pre-filter has flagged only receives its severity. *)
Lemma analyze_all_total comments w :
  ∃ analyzed w', analyze_all comments w = (Ok analyzed, w')
    ∧ length analyzed = length comments
    ∧ ∀ i c, comments !! i = Some c → prefiltered c = true →
        analyzed !! i = Some (setitem "severity" (PInt 1) c).
Proof.
  revert w. induction comments as [|c comments IH]; intros w.
  - exists [], w. by repeat split.
  - destruct (analyze_paths c w) as (c' & w1 & Hc & Hpath).
    destruct (IH w1) as (l & w2 & Hl & Hlen & Hflag).
    exists (c' :: l), w2. split; [|split].
    + simpl. unfold mbind, M_bind. rewrite Hc, Hl. reflexivity.
    + simpl. by rewrite Hlen.
    + intros [|i] c0 Hi Hpre; simpl in *.
      * injection Hi as ->. rewrite analyze_prefiltered in Hc by done.
        congruence.
      * by apply Hflag.
Qed.

(** C3: a comment whose text the profanity filter matches leaves
    [pre_filter_comments] marked offensive with offense type [profanity]
    and the fixed explanation; [analyze_comment_with_ai] then returns it
    with severity 1 and the same offense type, in an unchanged world (no
    request is sent, nothing is printed); and this is the comment
    [process_comments] delivers at that position. *)
Theorem profane_comment_gets_severity_1 comments i comment w :
  comments !! i = Some comment →
  contains_profanity (get_or comment "comment_text" (PStr "")) = true →
  ∃ filtered w1 c1,
    pre_filter_comments comments w = (Ok filtered, w1)
    ∧ filtered !! i = Some c1
    ∧ get c1 "is_offensive" = PBool true
    ∧ get c1 "offense_type" = PStr "profanity"
    ∧ get c1 "explanation" = PStr "Flagged by better_profanity"
    ∧ (∀ w2, ∃ c2, analyze_comment_with_ai c1 w2 = (Ok c2, w2)
               ∧ get c2 "severity" = PInt 1
               ∧ get c2 "offense_type" = PStr "profanity")
    ∧ (∃ analyzed w3 c3,
         process_comments comments true w = (Ok analyzed, w3)
         ∧ analyzed !! i = Some c3
         ∧ get c3 "severity" = PInt 1
         ∧ get c3 "offense_type" = PStr "profanity").
Proof.
  intros Hi Hprofane.
  destruct (pre_filter_one_flagged comment Hprofane) as (Ho & Ht & He & Hpre).
  assert (Hsev : get (setitem "severity" (PInt 1) (pre_filter_one comment))
                   "severity" = PInt 1) by apply get_setitem_eq.
  assert (Hty : get (setitem "severity" (PInt 1) (pre_filter_one comment))
                  "offense_type" = PStr "profanity")
    by (by rewrite get_setitem_ne).
  eexists _, _, (pre_filter_one comment).
  split; [reflexivity|]. split.
  { rewrite list_lookup_fmap. by rewrite Hi. }
  repeat (split; [done|]). split.
  - intros w2. eexists. split; [by apply analyze_prefiltered|done].
  - unfold process_comments, pre_filter_comments, mbind, M_bind, print; simpl.
    match goal with
    | |- context [analyze_all ?l ?w0] =>
        destruct (analyze_all_total l w0) as (l' & w3 & Hl & _ & Hflag)
    end.
    exists l', w3, (setitem "severity" (PInt 1) (pre_filter_one comment)).
    split; [by rewrite Hl|]. split; [|done].
    apply Hflag; [|done]. rewrite list_lookup_fmap. by rewrite Hi.
Qed.

End Classifier.

(** ** The report *)

Module ReportFacts.
Import Report.

Lemma py_eq_refl a : py_eq a a = true.
Proof. unfold py_eq. by apply bool_decide_eq_true. Qed.

Lemma py_eq_sym a b : py_eq a b = py_eq b a.
Proof. unfold py_eq. apply bool_decide_ext. split; congruence. Qed.

Lemma py_eq_trans_l a b c : py_eq a b = true → py_eq a c = py_eq b c.
Proof.
  unfold py_eq. intros Hab%bool_decide_eq_true.
  apply bool_decide_ext. rewrite Hab. tauto.
Qed.

Lemma py_eq_truthy a b : py_eq a b = true → truthy a = truthy b.
Proof.
  unfold py_eq. intros Hab%bool_decide_eq_true.
  destruct a as [|[]|za|sa], b as [|[]|zb|sb]; simpl in *;
    simplify_eq; done.
Qed.

Lemma counter_get_add k k' c :
  counter_get (counter_add k' c) k
  = (counter_get c k + (if py_eq k k' then 1 else 0))%nat.
Proof.
  induction c as [|[k'' n] c IH]; simpl.
  - destruct (py_eq k k'); reflexivity.
  - destruct (py_eq k' k'') eqn:E; simpl.
    + assert (py_eq k k' = py_eq k k'') as ->.
      { rewrite (py_eq_sym k k'), (py_eq_sym k k''). by apply py_eq_trans_l. }
      destruct (py_eq k k''); lia.
    + destruct (py_eq k k'') eqn:E'; [|apply IH].
      rewrite (py_eq_trans_l _ _ k' E'), (py_eq_sym k'' k'), E. lia.
Qed.

Lemma counter_get_fold l c k :
  counter_get (fold_left (λ c k, counter_add k c) l c) k
  = (counter_get c k + length (filter (λ v, py_eq k v = true) l))%nat.
Proof.
  revert c. induction l as [|v l IH]; intros c; simpl.
  - lia.
  - rewrite IH, counter_get_add, filter_cons.
    destruct (decide (py_eq k v = true)) as [->|Hne]; simpl; [lia|].
    destruct (py_eq k v); [done|lia].
Qed.

Lemma counter_get_Counter l k :
  counter_get (Counter l) k = length (filter (λ v, py_eq k v = true) l).
Proof. unfold Counter. by rewrite counter_get_fold. Qed.

Lemma counter_add_keys k c k0 n0 :
  (k0, n0) ∈ counter_add k c → k0 = k ∨ ∃ n, (k0, n) ∈ c.
Proof.
  induction c as [|[k' n] c IH]; simpl.
  - intros Hin%list_elem_of_singleton. left. congruence.
  - destruct (py_eq k k').
    + intros [Heq|Hin]%elem_of_cons.
      * right. exists n. injection Heq as -> _. left.
      * right. exists n0. by right.
    + intros [Heq|Hin]%elem_of_cons.
      * right. exists n. injection Heq as -> _. left.
      * destruct (IH Hin) as [->|[m Hm]]; [by left|].
        right. exists m. by right.
Qed.

Lemma Counter_keys l k n : (k, n) ∈ Counter l → k ∈ l.
Proof.
  unfold Counter.
  assert (Hgen : ∀ c, (k, n) ∈ fold_left (λ c k, counter_add k c) l c →
                      k ∈ l ∨ ∃ m, (k, m) ∈ c).
  { clear. revert n. induction l as [|v l IH]; intros n c; simpl.
    - eauto.
    - intros Hin. destruct (IH _ _ Hin) as [?|[m Hm]].
      + left. by right.
      + destruct (counter_add_keys _ _ _ _ Hm) as [->|?]; [left; left|eauto]. }
  intros Hin. destruct (Hgen _ Hin) as [?|[m Hm]]; [done|].
  by apply elem_of_nil in Hm.
Qed.

Lemma generate_report_json_breakdown cs r :
  generate_report_json cs = Some r →
  offense_type_breakdown r = breakdown (filter (λ c, is_offensive c = true) cs).
Proof.
  unfold generate_report_json. intros Hr.
  destruct (sorted_desc _); simpl in Hr; [|done].
  injection Hr as <-. reflexivity.
Qed.

(** C7: in the report [generate_report_json] returns, the count the
    breakdown holds for an offense type [t] is the number of comments whose
    [is_offensive] is true and whose [offense_type] is non-empty and equal
    to [t]; every key of the breakdown is such an offense type, so [None]
    is not a key and comments without offense type add nothing. *)
Theorem breakdown_counts_offensive_typed cs r :
  generate_report_json cs = Some r →
  (∀ t, counter_get (offense_type_breakdown r) t
        = length (filter (λ c, is_offensive c = true
                               ∧ truthy (get c "offense_type") = true
                               ∧ py_eq t (get c "offense_type") = true) cs))
  ∧ (∀ k n, (k, n) ∈ offense_type_breakdown r →
            k ≠ PNone
            ∧ ∃ c, c ∈ cs ∧ is_offensive c = true ∧ get c "offense_type" = k)
  ∧ counter_get (offense_type_breakdown r) PNone = 0%nat.
Proof.
  intros Hr. rewrite (generate_report_json_breakdown _ _ Hr).
  unfold breakdown.
  assert (Hcount : ∀ t,
    counter_get (Counter (map (λ c, get c "offense_type")
      (filter (λ c, truthy (get c "offense_type") = true)
         (filter (λ c, is_offensive c = true) cs)))) t
    = length (filter (λ c, is_offensive c = true
                           ∧ truthy (get c "offense_type") = true
                           ∧ py_eq t (get c "offense_type") = true) cs)).
  { intros t. rewrite counter_get_Counter. clear.
    induction cs as [|c cs IH]; [done|].
    rewrite !filter_cons.
    destruct (decide (is_offensive c = true)) as [Ho|Ho].
    - rewrite filter_cons.
      destruct (decide (truthy (get c "offense_type") = true)) as [Ht|Ht].
      + simpl. rewrite filter_cons.
        destruct (decide (py_eq t (get c "offense_type") = true)) as [He|He].
        * rewrite decide_True by done. simpl. by rewrite IH.
        * rewrite decide_False by tauto. done.
      + rewrite decide_False by tauto. done.
    - rewrite decide_False by tauto. done. }
  split; [done|]. split.
  - intros k n Hin. apply Counter_keys in Hin.
    apply list_elem_of_fmap in Hin as (c & -> & Hc).
    apply list_elem_of_filter in Hc as [Ht Hc].
    apply list_elem_of_filter in Hc as [Ho Hc].
    split; [|by exists c].
    intros Hnone. by rewrite Hnone in Ht.
  - rewrite Hcount. clear.
    induction cs as [|c cs IH]; [done|].
    rewrite filter_cons. case_decide as Hc; [|done].
    destruct Hc as (_ & Ht & He).
    apply py_eq_truthy in He. simpl in He. congruence.
Qed.

Lemma orderable_spec keys a b :
  orderable keys = true → a ∈ keys → b ∈ keys → is_Some (py_lt a b).
Proof.
  unfold orderable. rewrite forallb_forall. intros Hall Ha Hb.
  apply list_elem_of_In in Ha, Hb.
  specialize (Hall a Ha). rewrite forallb_forall in Hall.
  specialize (Hall b Hb). by apply bool_decide_eq_true in Hall.
Qed.

(** C1, where the code departs from it: as soon as two comments are
    offensive and one of them carries the severity [None], [sorted] raises
    and [generate_report_json] returns no report; the null severity is not
    treated as 0. *)
Theorem null_severity_breaks_report cs c :
  c ∈ cs →
  is_offensive c = true →
  items c !! "severity" = Some PNone →
  (2 ≤ length (filter (λ c, is_offensive c = true) cs))%nat →
  generate_report_json cs = None.
Proof.
  intros Hc Ho Hsev Hlen. unfold generate_report_json, sorted_desc.
  replace (length (filter _ cs) <? 2)%nat with false
    by (symmetry; apply Nat.ltb_ge; lia).
  destruct (orderable _) eqn:Hord; [|done]. exfalso.
  assert (Hkey : PNone ∈ map sort_key (filter (λ c, is_offensive c = true) cs)).
  { apply list_elem_of_fmap. exists c. split.
    - unfold sort_key, get_or. by rewrite Hsev.
    - by apply list_elem_of_filter. }
  destruct (orderable_spec _ _ _ Hord Hkey Hkey) as [? Hlt]. done.
Qed.

Local Open Scope list_scope.

(** *** The sort *)

Lemma key_lt_numeric x y :
  numeric_severity x → numeric_severity y →
  py_lt (sort_key x) (sort_key y) = Some (severity x <? severity y)%Z
  ∧ key_lt (sort_key x) (sort_key y) = (severity x <? severity y)%Z.
Proof.
  unfold numeric_severity, key_lt, severity, py_lt.
  intros [a Ha] [b Hb]. by rewrite Ha, Hb.
Qed.

Lemma orderable_numeric l :
  Forall numeric_severity l → orderable (map sort_key l) = true.
Proof.
  intros Hall. unfold orderable. apply forallb_forall. intros a Ha.
  apply forallb_forall. intros b Hb. apply bool_decide_eq_true.
  apply in_map_iff in Ha as (x & <- & Hx), Hb as (y & <- & Hy).
  rewrite Forall_forall in Hall.
  apply list_elem_of_In in Hx, Hy.
  destruct (key_lt_numeric x y (Hall x Hx) (Hall y Hy)) as [-> _]. by eexists.
Qed.

Lemma sorted_desc_numeric l :
  Forall numeric_severity l → sorted_desc l = Some (foldr insert_desc [] l).
Proof.
  intros Hall. unfold sorted_desc. rewrite orderable_numeric by done.
  by rewrite orb_true_r.
Qed.

Lemma insert_desc_perm x l : insert_desc x l ≡ₚ x :: l.
Proof.
  induction l as [|y l IH]; simpl; [done|].
  case_match; [|done]. rewrite IH. apply Permutation_swap.
Qed.

Lemma sort_perm l : foldr insert_desc [] l ≡ₚ l.
Proof.
  induction l as [|x l IH]; simpl; [done|].
  by rewrite insert_desc_perm, IH.
Qed.

Lemma sorted_desc_perm l l' : sorted_desc l = Some l' → l' ≡ₚ l.
Proof.
  unfold sorted_desc. case_match; [|done]. intros [= <-]. apply sort_perm.
Qed.

Lemma insert_desc_descending x l :
  numeric_severity x → Forall numeric_severity l →
  descending l → descending (insert_desc x l).
Proof.
  intros Hx Hl Hsorted. induction Hsorted as [|y l Hs IH Hy]; simpl.
  - repeat constructor.
  - apply Forall_cons in Hl as [Hny Hnl].
    destruct (key_lt_numeric x y Hx Hny) as [_ ->].
    destruct (Z.ltb_spec (severity x) (severity y)) as [Hlt|Hge].
    + constructor; [by apply IH|].
      rewrite insert_desc_perm. constructor; [lia|done].
    + constructor; [by constructor|].
      constructor; [done|].
      eapply Forall_impl; [exact Hy|]. intros z Hz. simpl in *. lia.
Qed.

Lemma sort_descending l :
  Forall numeric_severity l → descending (foldr insert_desc [] l).
Proof.
  induction 1 as [|x l Hx Hl IH]; simpl; [constructor|].
  apply insert_desc_descending; [done| |done].
  by rewrite sort_perm.
Qed.

(** Comments of equal severity keep the order they had. *)
Lemma insert_desc_stable k x l :
  numeric_severity x → Forall numeric_severity l →
  filter (λ c, severity c = k) (insert_desc x l)
  = filter (λ c, severity c = k) (x :: l).
Proof.
  intros Hx Hl. induction Hl as [|y l Hy Hl IH]; simpl; [done|].
  destruct (key_lt_numeric x y Hx Hy) as [_ ->].
  destruct (Z.ltb_spec (severity x) (severity y)) as [Hlt|Hge]; [|done].
  rewrite (filter_cons _ y), IH, !filter_cons.
  repeat case_decide; try done; lia.
Qed.

Lemma sort_stable k l :
  Forall numeric_severity l →
  filter (λ c, severity c = k) (foldr insert_desc [] l)
  = filter (λ c, severity c = k) l.
Proof.
  induction 1 as [|x l Hx Hl IH]; simpl; [done|].
  rewrite insert_desc_stable; [|done|by rewrite sort_perm].
  by rewrite !filter_cons, IH.
Qed.

(** *** The two loops *)

(** The branch [elif not top_5_varied] is never taken: the first loop
    keeps the first comment of each offense type, five at most. *)
Lemma varied_loop_spec l : ∀ top seen_types,
  (top = [] → seen_types = ∅) →
  varied_loop l top seen_types
  = top ++ first_of_each_type (5 - length top) seen_types l.
Proof.
  induction l as [|c l IH]; intros top seen_types Hseen.
  - simpl. destruct (5 - length top)%nat; by rewrite app_nil_r.
  - simpl varied_loop. destruct (Nat.ltb_spec (length top) 5) as [Hlt|Hge].
    + destruct (5 - length top)%nat as [|n] eqn:Hn; [lia|].
      simpl first_of_each_type. unfold seen.
      destruct (decide (norm (get c "offense_type") ∈ seen_types)) as [Hin|Hout].
      * rewrite bool_decide_eq_true_2 by done. simpl.
        rewrite bool_decide_eq_false_2.
        { rewrite IH by done. by rewrite Hn. }
        intros ->. rewrite Hseen in Hin by done. set_solver.
      * rewrite bool_decide_eq_false_2 by done. simpl.
        rewrite IH by (by destruct top).
        rewrite length_app. simpl.
        replace (5 - (length top + 1))%nat with n by lia.
        by rewrite <- app_assoc.
    + replace (5 - length top)%nat with 0%nat by lia.
      simpl. by rewrite app_nil_r.
Qed.

Lemma first_of_each_type_length n seen l :
  (length (first_of_each_type n seen l) ≤ n)%nat.
Proof.
  revert n seen. induction l as [|c l IH]; intros [|n] seen; simpl; try lia.
  case_decide; simpl.
  - apply (IH (S n)).
  - specialize (IH n ({[norm (get c "offense_type")]} ∪ seen)). lia.
Qed.

Lemma fill_loop_length l : ∀ top,
  (length top ≤ 5)%nat → (length (fill_loop l top) ≤ 5)%nat.
Proof.
  induction l as [|c l IH]; intros top Hlen; simpl; [done|].
  destruct (Nat.ltb_spec (length top) 5) as [Hlt|Hge].
  - destruct (dict_in c top); simpl; apply IH;
      rewrite ?length_app; simpl; lia.
  - rewrite andb_false_r. by apply IH.
Qed.

Lemma fill_loop_prefix l : ∀ top, ∃ more, fill_loop l top = top ++ more.
Proof.
  induction l as [|c l IH]; intros top; simpl.
  - exists []. by rewrite app_nil_r.
  - case_match.
    + destruct (IH (top ++ [c])) as [more ->].
      exists (c :: more). by rewrite <- app_assoc.
    + apply IH.
Qed.

(** The list starts with the first comment of each offense type and holds
    at most five comments. *)
Lemma top_5_spec l :
  (length (top_5 l) ≤ 5)%nat
  ∧ ∃ more, top_5 l = first_of_each_type 5 ∅ l ++ more.
Proof.
  unfold top_5. rewrite varied_loop_spec by done. simpl app.
  pose proof (first_of_each_type_length 5 ∅ l) as Hlen.
  case_match.
  - split; [by apply fill_loop_length|apply fill_loop_prefix].
  - split; [done|]. exists []. by rewrite app_nil_r.
Qed.

(** With numeric severities the report is produced: the offensive comments
    are sorted by decreasing severity, those of equal severity in their
    order of arrival, and the varied list is drawn from that sequence. *)
Lemma generate_report_json_numeric cs :
  Forall numeric_severity (filter (λ c, is_offensive c = true) cs) →
  ∃ r sorted_offensive,
    generate_report_json cs = Some r
    ∧ sorted_offensive ≡ₚ filter (λ c, is_offensive c = true) cs
    ∧ descending sorted_offensive
    ∧ (∀ k, filter (λ c, severity c = k) sorted_offensive
            = filter (λ c, severity c = k)
                (filter (λ c, is_offensive c = true) cs))
    ∧ top_5_most_severe_offensive_comments_varied r = top_5 sorted_offensive
    ∧ total_comments r = length cs
    ∧ num_offensive_comments r
      = length (filter (λ c, is_offensive c = true) cs).
Proof.
  intros Hnum. eexists _, _. split.
  - unfold generate_report_json. rewrite sorted_desc_numeric by done.
    reflexivity.
  - split; [apply sort_perm|]. split; [by apply sort_descending|].
    split; [intros k; by apply sort_stable|done].
Qed.

End ReportFacts.

(** ** The generated comments *)

Module GenerationFacts.
Import Generation.

Section Loop.
Context `{Externals}.

Lemma final_comment_shape index drawn comment :
  get (final_comment index drawn comment).1 "comment_id"
  = PInt (Z.of_nat index + 1)
  ∧ dom (items (final_comment index drawn comment).1) = three_fields
  ∧ surplus (final_comment index drawn comment).1 = None.
Proof.
  unfold final_comment.
  destruct (bool_decide (is_Some (comment !! "username")));
    destruct (bool_decide (is_Some (_ !! "comment_text"))); simpl;
    (split; [|split; [|done]]);
    first [ unfold get; simpl;
            by rewrite !lookup_insert_ne, lookup_insert_eq by done
          | rewrite !dom_insert_L, dom_empty_L; unfold three_fields;
            set_solver ].
Qed.

Lemma final_loop_spec all_generated_comments index drawn recs :
  final_loop all_generated_comments index drawn = Some recs →
  length recs = length all_generated_comments
  ∧ ∀ i r, recs !! i = Some r →
      get r "comment_id" = PInt (Z.of_nat (index + i) + 1)
      ∧ dom (items r) = three_fields
      ∧ surplus r = None.
Proof.
  revert index drawn recs.
  induction all_generated_comments as [|item l IH]; intros index drawn recs.
  - simpl. intros [= <-]. split; [done|]. intros i r Hi. done.
  - simpl. destruct item as [comment cs| |]; [|done..].
    pose proof (final_comment_shape index drawn comment) as Hshape.
    destruct (final_comment index drawn comment) as [record drawn'].
    destruct (final_loop l (S index) drawn') as [others|] eqn:Hl; [|done].
    simpl. intros [= <-].
    destruct (IH _ _ _ Hl) as [Hlen Hothers]. split.
    + simpl. by rewrite Hlen.
    + intros [|i] r Hi; simpl in Hi.
      * injection Hi as <-. by rewrite Nat.add_0_r.
      * destruct (Hothers _ _ Hi) as (Hid & Hdom & Hs).
        rewrite Hid. repeat split; [|done..]. f_equal. lia.
Qed.

(** C9: when the assembly loop completes, it yields one record per
    generated comment; the record at position [i] (from 0) has exactly the
    three entries [comment_id], [username] and [comment_text], and its
    [comment_id] is [i + 1]: the identifiers are 1, 2, 3, ... in order. *)
Theorem final_comments_sequential all_generated_comments recs :
  final_comments all_generated_comments = Some recs →
  length recs = length all_generated_comments
  ∧ ∀ i r, recs !! i = Some r →
      get r "comment_id" = PInt (Z.of_nat i + 1)
      ∧ dom (items r) = three_fields
      ∧ surplus r = None.
Proof.
  unfold final_comments. intros Hrun.
  destruct (final_loop_spec _ _ _ _ Hrun) as [Hlen Hshape].
  split; [done|]. intros i r Hi. by apply Hshape.
Qed.

(** The loop completes on every list of JSON objects. *)
Lemma final_loop_objects all_generated_comments index drawn :
  Forall (λ item, ∃ d cs, item = JObject d cs) all_generated_comments →
  is_Some (final_loop all_generated_comments index drawn).
Proof.
  intros Hall. revert index drawn.
  induction Hall as [|item l (d & cs & ->) _ IH]; intros index drawn.
  - by eexists.
  - simpl. destruct (final_comment index drawn d) as [record drawn'].
    destruct (IH (S index) drawn') as [others ->]. by eexists.
Qed.

End Loop.
End GenerationFacts.

(** ** The csv reader reads back what the csv writer wrote *)

Module CsvFacts.
Import Csv.
Local Open Scope list_scope.

Lemma feed_app a b r : feed (a ++ b) r = feed a r ≫= feed b.
Proof.
  revert r. induction a as [|c a IH]; intros r; simpl; [done|].
  unfold mbind, result_bind.
  destruct (parse_process_char c r) as [r'|e]; [apply IH|done].
Qed.

Lemma feed_snoc a c r : feed (a ++ [c]) r = feed a r ≫= parse_process_char c.
Proof.
  rewrite feed_app. unfold mbind, result_bind.
  destruct (feed a r) as [r'|e]; [|done]. simpl.
  unfold mbind, result_bind. by destruct (parse_process_char c r').
Qed.

Lemma feed_snoc2 a c c' r :
  feed (a ++ [c; c']) r
  = (feed a r ≫= parse_process_char c) ≫= parse_process_char c'.
Proof.
  change [c; c'] with ([c] ++ [c']). by rewrite app_assoc, !feed_snoc.
Qed.

Lemma read_records_cons line rest r0 :
  read_records r0 (line :: rest)
  = close_line (λ r, read_records r rest) (feed line r0).
Proof. reflexivity. Qed.

Lemma close_line_ext k1 k2 rr :
  (∀ r, k1 r = k2 r) → close_line k1 rr = close_line k2 rr.
Proof.
  intros Hk. unfold close_line, mbind, result_bind.
  destruct rr as [r|e]; [|done]. rewrite !Hk. by case_bool_decide.
Qed.

(** Reading line by line and reading character by character agree. *)
Lemma read_records_scan s : ∀ cur r0,
  read_records r0 (lines_from cur s)
  = scan (feed cur r0) (bool_decide (cur = [])) s.
Proof.
  induction s as [s IH] using (induction_ltof1 _ (@length ascii)).
  unfold ltof in IH. intros cur r0.
  assert (Hnext : ∀ rest, length rest < length s →
            ∀ r, read_records r (lines_from [] rest) = scan (Ok r) true rest).
  { intros rest Hlt r. by rewrite (IH rest Hlt [] r). }
  destruct s as [|c rest].
  - simpl. destruct cur as [|c0 cur]; [done|].
    rewrite bool_decide_eq_false_2 by done.
    by rewrite read_records_cons.
  - simpl. destruct (Ascii.eqb c LF) eqn:Hlf.
    { rewrite read_records_cons, feed_snoc.
      apply close_line_ext, Hnext. simpl; lia. }
    destruct (Ascii.eqb c CR) eqn:Hcr.
    { destruct rest as [|c' rest'].
      - by rewrite read_records_cons, feed_snoc.
      - destruct (Ascii.eqb c' LF) eqn:Hlf'.
        + rewrite read_records_cons, feed_snoc2.
          apply close_line_ext, Hnext. simpl; lia.
        + rewrite read_records_cons, feed_snoc.
          apply close_line_ext, Hnext. simpl; lia. }
    rewrite (IH rest) by (simpl; lia).
    rewrite feed_snoc. f_equal.
    apply bool_decide_eq_false_2. by destruct cur.
Qed.

Lemma reader_rows_scan s : reader_rows s = scan (Ok parse_reset) true s.
Proof. unfold reader_rows, readlines. by rewrite read_records_scan. Qed.


(** *** One step of the scan *)

Lemma scan_char c rr fresh rest :
  Ascii.eqb c LF = false → Ascii.eqb c CR = false →
  scan rr fresh (c :: rest) = scan (rr ≫= parse_process_char c) false rest.
Proof. intros Hlf Hcr. simpl. by rewrite Hlf, Hcr. Qed.

Lemma scan_LF rr fresh rest :
  scan rr fresh (LF :: rest)
  = close_line (λ r, scan (Ok r) true rest) (rr ≫= parse_process_char LF).
Proof. reflexivity. Qed.

Lemma scan_CR_LF rr fresh rest :
  scan rr fresh (CR :: LF :: rest)
  = close_line (λ r, scan (Ok r) true rest)
      ((rr ≫= parse_process_char CR) ≫= parse_process_char LF).
Proof. reflexivity. Qed.

Lemma scan_CR_other c rr fresh rest :
  Ascii.eqb c LF = false →
  scan rr fresh (CR :: c :: rest)
  = close_line (λ r, scan (Ok r) true (c :: rest))
      (rr ≫= parse_process_char CR).
Proof. intros Hlf. simpl. by rewrite Hlf. Qed.

Lemma must_quote_false c :
  must_quote c = false →
  Ascii.eqb c delimiter = false ∧ Ascii.eqb c quotechar = false
  ∧ Ascii.eqb c LF = false ∧ Ascii.eqb c CR = false.
Proof.
  unfold must_quote, is_newline.
  intros H. apply orb_false_elim in H as [H1 H2].
  apply orb_false_elim in H1 as [? ?]. apply orb_false_elim in H2 as [? ?].
  done.
Qed.

Lemma add_char_ok c st fld flds :
  (Z.of_nat (length fld) < field_limit)%Z →
  parse_add_char c (Reader st fld flds) = Ok (Reader st (fld ++ [c]) flds).
Proof.
  intros Hlen. unfold parse_add_char. simpl.
  by rewrite (proj2 (Z.ltb_lt _ _) Hlen).
Qed.

Ltac step :=
  unfold mbind, result_bind, parse_process_char, start_field, set_state,
    parse_save_field, parse_process_eol, close_line, is_newline;
  simpl.

(** *** The body of a quoted field *)

Lemma scan_quoted_body rest flds f : ∀ fld fresh,
  (Z.of_nat (length fld + length f) ≤ field_limit)%Z →
  scan (Ok (Reader IN_QUOTED_FIELD fld flds)) fresh
    (escape f ++ quotechar :: rest)
  = scan (Ok (Reader QUOTE_IN_QUOTED_FIELD (fld ++ f) flds)) false rest.
Proof.
  induction f as [f IH] using (induction_ltof1 _ (@length ascii)).
  unfold ltof in IH. intros fld fresh Hlen.
  destruct f as [|c f].
  - simpl escape. rewrite app_nil_l, app_nil_r.
    by rewrite scan_char by reflexivity.
  - assert (Hroom : (Z.of_nat (length fld) < field_limit)%Z)
      by (simpl in Hlen; lia).
    assert (Hrest : ∀ c0, (Z.of_nat (length (fld ++ [c0]) + length f)
                           ≤ field_limit)%Z)
      by (intros c0; rewrite length_app; simpl in *; lia).
    replace (fld ++ c :: f) with ((fld ++ [c]) ++ f)
      by (by rewrite <- app_assoc).
    destruct (Ascii.eqb c quotechar) eqn:Hq.
    { apply Ascii.eqb_eq in Hq as ->. simpl escape.
      rewrite <- !app_comm_cons.
      rewrite !scan_char by reflexivity. step.
      rewrite add_char_ok by done.
      apply IH; [simpl; lia|done]. }
    destruct (Ascii.eqb c LF) eqn:Hlf.
    { apply Ascii.eqb_eq in Hlf as ->. simpl escape.
      rewrite <- app_comm_cons, scan_LF. step.
      rewrite add_char_ok by done. simpl.
      apply IH; [simpl; lia|done]. }
    destruct (Ascii.eqb c CR) eqn:Hcr.
    { apply Ascii.eqb_eq in Hcr as ->. simpl escape.
      rewrite <- app_comm_cons.
      destruct f as [|c2 f].
      - simpl escape. rewrite app_nil_l.
        rewrite scan_CR_other by reflexivity. step.
        rewrite add_char_ok by done. step. by rewrite app_nil_r.
      - destruct (Ascii.eqb c2 LF) eqn:Hlf2.
        + apply Ascii.eqb_eq in Hlf2 as ->. simpl escape.
          rewrite <- app_comm_cons, scan_CR_LF. step.
          rewrite add_char_ok by done. simpl.
          rewrite add_char_ok by (rewrite length_app; simpl in *; lia).
          simpl.
          replace ((fld ++ [CR]) ++ LF :: f) with (((fld ++ [CR]) ++ [LF]) ++ f)
            by (by rewrite <- (app_assoc _ [LF])).
          apply IH; [simpl; lia|].
          rewrite !length_app. simpl in *. lia.
        + assert (Hhead : ∃ c3 tl, escape (c2 :: f) = c3 :: tl
                                   ∧ Ascii.eqb c3 LF = false).
          { simpl. destruct (Ascii.eqb c2 quotechar); eauto. }
          destruct Hhead as (c3 & tl & Hesc & Hc3).
          pose proof (IH (c2 :: f) ltac:(simpl; lia) (fld ++ [CR]) true
                        (Hrest CR)) as Hnext.
          rewrite Hesc in *. rewrite <- app_comm_cons in *.
          rewrite scan_CR_other by done. step.
          rewrite add_char_ok by done. simpl.
          exact Hnext. }
    simpl escape. rewrite Hq. rewrite <- app_comm_cons.
    rewrite scan_char by done. step. rewrite Hq.
    rewrite add_char_ok by done.
    apply IH; [simpl; lia|done].
Qed.

(** *** The rest of an unquoted field *)

Lemma scan_plain_body rest flds f : ∀ fld,
  existsb must_quote f = false →
  (Z.of_nat (length fld + length f) ≤ field_limit)%Z →
  scan (Ok (Reader IN_FIELD fld flds)) false (f ++ rest)
  = scan (Ok (Reader IN_FIELD (fld ++ f) flds)) false rest.
Proof.
  induction f as [|c f IH]; intros fld Hplain Hlen.
  - by rewrite app_nil_l, app_nil_r.
  - simpl in Hplain. apply orb_false_elim in Hplain as [Hc Hf].
    destruct (must_quote_false c Hc) as (Hd & Hq & Hlf & Hcr).
    rewrite <- app_comm_cons, scan_char by done. step.
    rewrite Hlf, Hcr, Hd. simpl.
    rewrite add_char_ok by (simpl in Hlen; lia).
    replace (fld ++ c :: f) with ((fld ++ [c]) ++ f)
      by (by rewrite <- app_assoc).
    apply IH; [done|]. rewrite length_app. simpl in *. lia.
Qed.

(** *** A field and what follows it *)

Lemma scan_field_delimiter st flds f fresh rest :
  st = START_RECORD ∨ st = START_FIELD →
  fits f →
  scan (Ok (Reader st [] flds)) fresh (join_append f ++ delimiter :: rest)
  = scan (Ok (Reader START_FIELD [] (flds ++ [f]))) false rest.
Proof.
  intros Hst Hfit. unfold fits in Hfit. unfold join_append.
  destruct (existsb must_quote f) eqn:Hq.
  - rewrite <- app_comm_cons, <- app_assoc. simpl app.
    rewrite scan_char by reflexivity.
    assert (Hopen : Ok (Reader st [] flds) ≫= parse_process_char quotechar
                    = Ok (Reader IN_QUOTED_FIELD [] flds))
      by (by destruct Hst as [-> | ->]).
    rewrite Hopen, scan_quoted_body by (simpl; lia).
    rewrite scan_char by reflexivity. by step.
  - destruct f as [|c f].
    + rewrite app_nil_l, scan_char by reflexivity.
      by destruct Hst as [-> | ->].
    + simpl in Hq. apply orb_false_elim in Hq as [Hc Hf].
      destruct (must_quote_false c Hc) as (Hd & Hqc & Hlf & Hcr).
      rewrite <- app_comm_cons, scan_char by done.
      assert (Hfirst : Ok (Reader st [] flds) ≫= parse_process_char c
                       = Ok (Reader IN_FIELD [c] flds)).
      { destruct Hst as [-> | ->]; step; by rewrite Hlf, Hcr, Hqc, Hd. }
      rewrite Hfirst, scan_plain_body by (simpl in *; (done || lia)).
      rewrite scan_char by reflexivity. by step.
Qed.

Lemma scan_field_end st flds f fresh rest :
  st = START_FIELD ∨ (st = START_RECORD ∧ f ≠ []) →
  fits f →
  scan (Ok (Reader st [] flds)) fresh (join_append f ++ CR :: LF :: rest)
  = scan (Ok parse_reset) true rest
    ≫= λ records, Ok ((flds ++ [f]) :: records).
Proof.
  intros Hst Hfit. unfold fits in Hfit. unfold join_append.
  destruct (existsb must_quote f) eqn:Hq.
  - rewrite <- app_comm_cons, <- app_assoc. simpl app.
    rewrite scan_char by reflexivity.
    assert (Hopen : Ok (Reader st [] flds) ≫= parse_process_char quotechar
                    = Ok (Reader IN_QUOTED_FIELD [] flds))
      by (by destruct Hst as [-> | [-> _]]).
    rewrite Hopen, scan_quoted_body by (simpl; lia).
    rewrite scan_CR_LF. by step.
  - destruct f as [|c f].
    + destruct Hst as [-> | [_ ?]]; [|done].
      rewrite app_nil_l, scan_CR_LF. by step.
    + simpl in Hq. apply orb_false_elim in Hq as [Hc Hf].
      destruct (must_quote_false c Hc) as (Hd & Hqc & Hlf & Hcr).
      rewrite <- app_comm_cons, scan_char by done.
      assert (Hfirst : Ok (Reader st [] flds) ≫= parse_process_char c
                       = Ok (Reader IN_FIELD [c] flds)).
      { destruct Hst as [-> | [-> _]]; step; by rewrite Hlf, Hcr, Hqc, Hd. }
      rewrite Hfirst, scan_plain_body by (simpl in *; (done || lia)).
      rewrite scan_CR_LF. by step.
Qed.

(** *** A row, and a sequence of rows *)

Lemma scan_join fs : ∀ st flds fresh rest,
  fs ≠ [] →
  st = START_FIELD ∨ (st = START_RECORD ∧ fs ≠ [[]]) →
  Forall fits fs →
  scan (Ok (Reader st [] flds)) fresh (join fs ++ CR :: LF :: rest)
  = scan (Ok parse_reset) true rest
    ≫= λ records, Ok ((flds ++ fs) :: records).
Proof.
  induction fs as [|f fs IH]; intros st flds fresh rest Hne Hst Hfit; [done|].
  apply Forall_cons in Hfit as [Hf Hfs].
  destruct fs as [|f2 fs].
  - simpl join. apply scan_field_end; [|done].
    destruct Hst as [-> | [-> Hrow]]; [by left|right].
    split; [done|]. by intros ->.
  - change (join (f :: f2 :: fs))
      with (join_append f ++ delimiter :: join (f2 :: fs)).
    rewrite <- app_assoc, <- app_comm_cons.
    rewrite scan_field_delimiter
      by (done || destruct Hst as [-> | [-> _]]; auto).
    rewrite IH by (done || by left).
    by rewrite <- app_assoc.
Qed.

Lemma scan_writerow row fresh rest :
  Forall fits row →
  scan (Ok parse_reset) fresh (writerow row ++ rest)
  = scan (Ok parse_reset) true rest ≫= λ records, Ok (row :: records).
Proof.
  intros Hfit. unfold writerow, lineterminator.
  destruct row as [|f row].
  { rewrite app_nil_l. simpl app. rewrite scan_CR_LF. by step. }
  destruct (decide (f :: row = [[]])) as [Heq|Hne].
  { injection Heq as -> ->. simpl app.
    rewrite !scan_char by reflexivity. rewrite scan_CR_LF. by step. }
  assert (Hjoin : match f :: row with [[]] => [quotechar; quotechar]
                  | _ => join (f :: row) end = join (f :: row)).
  { destruct f, row; try done. }
  rewrite Hjoin, <- app_assoc.
  change ([CR; LF] ++ rest) with (CR :: LF :: rest).
  unfold parse_reset at 1. rewrite scan_join by (done || auto).
  by rewrite app_nil_l.
Qed.

(** The reader returns the rows the writer was given. *)
Lemma reader_rows_writerow rows :
  Forall (Forall fits) rows →
  reader_rows (concat (map writerow rows)) = Ok rows.
Proof.
  intros Hfit. rewrite reader_rows_scan.
  induction Hfit as [|row rows Hrow _ IH]; [done|].
  simpl. by rewrite scan_writerow, IH.
Qed.

(** *** The fields the reader returns respect the field limit *)

Lemma within_limit_add c r r' :
  parse_add_char c r = Ok r' → within_limit r → within_limit r'.
Proof.
  unfold parse_add_char, within_limit, fits.
  destruct (Z.ltb_spec (Z.of_nat (length (field r))) field_limit);
    [|done].
  intros [= <-] [_ Hfs]. simpl. split; [|done].
  rewrite length_app. simpl. lia.
Qed.

Lemma within_limit_save r : within_limit r → within_limit (parse_save_field r).
Proof.
  unfold within_limit, parse_save_field, fits. intros [Hf Hfs]. simpl.
  split; [unfold field_limit; lia|].
  apply Forall_app. split; [done|]. by apply Forall_singleton.
Qed.

Lemma within_limit_state st r : within_limit r → within_limit (set_state st r).
Proof. done. Qed.

Lemma within_limit_char c r r' :
  parse_process_char c r = Ok r' → within_limit r → within_limit r'.
Proof.
  unfold parse_process_char, start_field. intros Hstep Hr.
  repeat case_match; simplify_eq;
    first [ done
          | by apply within_limit_state
          | by apply within_limit_state, within_limit_save
          | by eapply within_limit_add; [eassumption|] ].
Qed.

Lemma within_limit_eol r : within_limit r → within_limit (parse_process_eol r).
Proof.
  unfold parse_process_eol. intros Hr.
  repeat case_match;
    first [ done | by apply within_limit_state, within_limit_save ].
Qed.

Lemma within_limit_feed line : ∀ r r',
  feed line r = Ok r' → within_limit r → within_limit r'.
Proof.
  induction line as [|c line IH]; intros r r'; simpl.
  - by intros [= <-].
  - unfold mbind, result_bind.
    destruct (parse_process_char c r) as [r1|] eqn:Hstep; [|done].
    intros Hfeed Hr. eapply IH; [done|]. by eapply within_limit_char.
Qed.

Lemma within_limit_reset : within_limit parse_reset.
Proof. split; [by unfold fits|by constructor]. Qed.

Lemma read_records_fits lines : ∀ r rows,
  read_records r lines = Ok rows → within_limit r → Forall (Forall fits) rows.
Proof.
  induction lines as [|line lines IH]; intros r rows; simpl.
  - intros Hrows Hr. case_match; simplify_eq; [|by constructor].
    apply Forall_singleton. by apply within_limit_save.
  - unfold mbind, result_bind.
    destruct (feed line r) as [r1|] eqn:Hfeed; [|done].
    intros Hrows Hr.
    assert (Hr1 : within_limit (parse_process_eol r1))
      by (by eapply within_limit_eol, within_limit_feed).
    case_bool_decide.
    + destruct (read_records parse_reset lines) as [records|] eqn:Hrec;
        [|done].
      injection Hrows as <-. constructor; [apply Hr1|].
      eapply IH; [done|]. apply within_limit_reset.
    + by eapply IH.
Qed.

Lemma reader_rows_fits s rows :
  reader_rows s = Ok rows → Forall (Forall fits) rows.
Proof.
  intros Hrows. eapply read_records_fits; [done|]. apply within_limit_reset.
Qed.

End CsvFacts.

(** ** Loading and exporting files *)

Module FilesFacts.
Import Csv CsvFacts Generation GenerationFacts.

Lemma list_ascii_of_string_app a b :
  list_ascii_of_string (a +:+ b)
  = (list_ascii_of_string a ++ list_ascii_of_string b)%list.
Proof. induction a as [|c a IH]; simpl; [done|]. by rewrite IH. Qed.

Lemma row_line_ascii values :
  list_ascii_of_string (row_line values)
  = writerow (map (λ v, list_ascii_of_string (field_text v)) values).
Proof. unfold row_line. by rewrite list_ascii_of_string_of_list_ascii. Qed.

Lemma dict_to_list_ok names c vs :
  dict_to_list names c = Ok vs → vs = row_values names c.
Proof. unfold dict_to_list. case_match; [|done]. by intros [= <-]. Qed.

Section Files.
Context `{Externals}.

Lemma load_comments_csv path text cs w :
  endswith path ".csv" = true →
  files w !! path = Some (Contents text) →
  DictReader text = Ok cs →
  load_comments path w = (Ok cs, w).
Proof.
  intros Hext Hfile Hread.
  unfold load_comments, try_except, mbind, M_bind, read_file, lift_result.
  by rewrite Hext, Hfile, Hread.
Qed.

Lemma writerows_ok names path cs : ∀ w text,
  files w !! path = Some (Contents text) →
  Forall (λ c, dict_to_list names c = Ok (row_values names c)) cs →
  ∃ text',
    writerows names path cs w
    = (Ok tt, World (<[path := Contents text']> (files w)) (stdout w)
                (requests w))
    ∧ list_ascii_of_string text'
      = (list_ascii_of_string text
         ++ concat (map (λ c, list_ascii_of_string
                                (row_line (row_values names c))) cs))%list.
Proof.
  induction cs as [|c cs IH]; intros w text Hfile Hall.
  - exists text. split; [|by rewrite app_nil_r]. simpl.
    unfold mret, M_ret. destruct w as [fs out rq]; simpl in *.
    by rewrite insert_id.
  - apply Forall_cons in Hall as [Hc Hcs].
    simpl. unfold mbind, M_bind, lift_result, file_write.
    rewrite Hc, Hfile.
    match goal with
    | |- context [writerows names path cs ?w1] =>
        destruct (IH w1 (text +:+ row_line (row_values names c)))
          as (text' & Hrun & Htext);
          [simpl; by rewrite lookup_insert_eq|done|]
    end.
    exists text'. split.
    + rewrite Hrun. simpl. by rewrite insert_insert_eq.
    + rewrite Htext, list_ascii_of_string_app. simpl.
      by rewrite <- app_assoc.
Qed.

Lemma bind_ok {A B} (m : M A) (f : A → M B) w a w' :
  m w = (Ok a, w') → (m ≫= f) w = f a w'.
Proof. intros Hm. unfold mbind, M_bind. by rewrite Hm. Qed.

Lemma open_write_ok path w :
  (∀ e, files w !! path ≠ Some (NoAccess e)) →
  open_write path w
  = (Ok tt, World (<[path := Contents ""]> (files w)) (stdout w) (requests w)).
Proof.
  intros Hopen. unfold open_write.
  destruct (files w !! path) as [[e| |]|] eqn:Hf; try done.
  by destruct (Hopen e).
Qed.

Lemma file_write_ok path s text w :
  files w !! path = Some (Contents text) →
  file_write path s w
  = (Ok tt, World (<[path := Contents (text +:+ s)]> (files w)) (stdout w)
              (requests w)).
Proof. intros Hf. unfold file_write. by rewrite Hf. Qed.

Lemma export_report_csv output_file cs w :
  endswith output_file ".csv" = true →
  (∀ e, files w !! output_file ≠ Some (NoAccess e)) →
  Forall (λ c, dict_to_list fieldnames c = Ok (row_values fieldnames c))
    (map fill_missing cs) →
  ∃ text',
    export_report cs output_file w
    = (Ok tt,
       World (<[output_file := Contents text']> (files w))
         (stdout w ++ [String "010" "Analyzed data exported to "
                       +:+ output_file])
         (requests w))
    ∧ list_ascii_of_string text'
      = concat (map writerow
                  (map list_ascii_of_string fieldnames
                   :: map (λ c, map (λ v, list_ascii_of_string (field_text v))
                                  (row_values fieldnames (fill_missing c)))
                      cs)).
Proof.
  intros Hext Hopen Hall.
  set (w1 := World (<[output_file := Contents ""]> (files w)) (stdout w)
               (requests w)).
  set (head := row_line (map PStr fieldnames)).
  set (w2 := World (<[output_file := Contents ("" +:+ head)]> (files w1))
               (stdout w1) (requests w1)).
  destruct (writerows_ok fieldnames output_file (map fill_missing cs) w2
              ("" +:+ head))
    as (text' & Hrun & Htext); [apply lookup_insert_eq|done|].
  exists text'. split.
  - unfold export_report, try_except. rewrite Hext.
    rewrite (bind_ok _ _ w tt w1) by (by apply open_write_ok).
    rewrite (bind_ok _ _ w1 tt w2)
      by (apply file_write_ok, lookup_insert_eq).
    rewrite (bind_ok _ _ w2 tt _ Hrun).
    unfold print. cbn [files stdout requests w1 w2].
    by rewrite !insert_insert_eq.
  - rewrite Htext. change ("" +:+ head) with head.
    unfold head. rewrite row_line_ascii. cbn [concat map].
    f_equal. rewrite !map_map. f_equal. apply map_ext. intros c.
    by rewrite row_line_ascii.
Qed.

Lemma loaded_row row :
  length row = 3%nat →
  key_fields (row_dict header row) = map PStr row
  ∧ dict_to_list fieldnames (fill_missing (row_dict header row))
    = Ok (row_values fieldnames (fill_missing (row_dict header row)))
  ∧ map (λ v, list_ascii_of_string (field_text v))
      (row_values fieldnames (fill_missing (row_dict header row)))
    = exported row.
Proof.
  intros Hlen.
  destruct row as [|a [|b [|c [|d row]]]]; try discriminate Hlen.
  repeat split; vm_compute; reflexivity.
Qed.

Lemma reloaded_row row :
  length row = 3%nat →
  key_fields
    (row_dict fieldnames (map string_of_list_ascii (exported row)))
  = map PStr row
  ∧ map string_of_list_ascii (exported row) ≠ [].
Proof.
  intros Hlen.
  destruct row as [|a [|b [|c [|d row]]]]; try discriminate Hlen.
  unfold exported. cbn [map app]. rewrite !string_of_list_ascii_of_string.
  split; [|discriminate]. vm_compute. reflexivity.
Qed.

Lemma filter_all {A} (P : A → Prop) `{∀ x, Decision (P x)} (l : list A) :
  Forall P l → filter P l = l.
Proof.
  induction 1 as [|x l Hx _ IH]; [done|].
  rewrite filter_cons, decide_True by done. by rewrite IH.
Qed.

(** C8: a CSV file that the csv reader reads as the header [comment_id],
    [username], [comment_text] followed by records of three fields each
    (empty lines apart) is loaded without error; exporting what was loaded
    to a CSV path that can be opened succeeds; and loading the exported
    file yields as many comments, with the same [comment_id], [username]
    and [comment_text] as the records of the input file. *)
Theorem csv_round_trip input_file output_file text rows w :
  endswith input_file ".csv" = true →
  endswith output_file ".csv" = true →
  files w !! input_file = Some (Contents text) →
  (∀ e, files w !! output_file ≠ Some (NoAccess e)) →
  records text = Ok (header :: rows) →
  Forall (λ row, row = [] ∨ length row = 3%nat) rows →
  ∃ comments w1 w2 comments' w3,
    load_comments input_file w = (Ok comments, w1)
    ∧ export_report comments output_file w1 = (Ok tt, w2)
    ∧ load_comments output_file w2 = (Ok comments', w3)
    ∧ map key_fields comments
      = map (map PStr) (filter (λ row, row ≠ []) rows)
    ∧ map key_fields comments' = map key_fields comments.
Proof.
  intros Hin Hout Hfile Hopen Hrec Hrows.
  set (data := filter (λ row, row ≠ []) rows).
  assert (Hdata : Forall (λ row, length row = 3%nat) data).
  { apply Forall_forall. intros row [Hne Hrow]%list_elem_of_filter.
    rewrite Forall_forall in Hrows. by destruct (Hrows row Hrow). }
  assert (Hfits : Forall (Forall (λ f, fits (list_ascii_of_string f))) data).
  { unfold records, mbind, result_bind in Hrec.
    destruct (reader_rows (list_ascii_of_string text)) as [rows0|] eqn:Hrows0;
      [|done].
    apply reader_rows_fits in Hrows0. injection Hrec as Hrec.
    assert (Hall : Forall (Forall (λ f, fits (list_ascii_of_string f)))
                     (map (map string_of_list_ascii) rows0)).
    { apply Forall_fmap. eapply Forall_impl; [exact Hrows0|].
      intros row Hrow. apply Forall_fmap. eapply Forall_impl; [exact Hrow|].
      intros f Hf. unfold compose; cbv beta.
      by rewrite list_ascii_of_string_of_list_ascii. }
    rewrite Hrec in Hall. apply Forall_cons in Hall as [_ Hall].
    apply Forall_forall. intros row [_ Hrow]%list_elem_of_filter.
    rewrite Forall_forall in Hall. by apply Hall. }
  set (comments := map (row_dict header) data).
  assert (Hload : load_comments input_file w = (Ok comments, w)).
  { apply (load_comments_csv _ text); [done..|].
    unfold DictReader, mbind, result_bind. by rewrite Hrec. }
  assert (Hkeys : map key_fields comments = map (map PStr) data).
  { unfold comments. rewrite map_map. apply map_ext_Forall.
    eapply Forall_impl; [exact Hdata|].
    intros row Hrow. by destruct (loaded_row row Hrow). }
  destruct (export_report_csv output_file comments w Hout Hopen)
    as (text' & Hexport & Htext).
  { unfold comments. rewrite map_map. apply Forall_fmap.
    eapply Forall_impl; [exact Hdata|].
    intros row Hrow. unfold compose; cbv beta.
    by destruct (loaded_row row Hrow) as (_ & ? & _). }
  assert (Hwritten :
    list_ascii_of_string text'
    = concat (map writerow
                (map list_ascii_of_string fieldnames :: map exported data))).
  { rewrite Htext. do 3 f_equal. unfold comments. rewrite map_map.
    apply map_ext_Forall. eapply Forall_impl; [exact Hdata|].
    intros row Hrow. unfold compose; cbv beta.
    by destruct (loaded_row row Hrow) as (_ & _ & ?). }
  assert (Hreread :
    records text'
    = Ok (fieldnames :: map (λ row, map string_of_list_ascii (exported row))
                          data)).
  { unfold records. rewrite Hwritten, reader_rows_writerow.
    - unfold mbind, result_bind. f_equal. rewrite map_cons. f_equal.
      by rewrite map_map.
    - constructor; [by repeat constructor|].
      apply Forall_fmap. eapply Forall_impl; [exact Hfits|].
      intros row Hrow. unfold exported. apply Forall_app. split.
      + by apply Forall_fmap.
      + by repeat constructor. }
  set (comments' :=
    map (row_dict fieldnames)
      (map (λ row, map string_of_list_ascii (exported row)) data)).
  eexists comments, w, _, comments', _.
  split; [done|]. split; [exact Hexport|]. split; [|split; [done|]].
  - apply (load_comments_csv _ text'); [done| |].
    + cbn [files]. by rewrite lookup_insert_eq.
    + unfold DictReader, mbind, result_bind. rewrite Hreread.
      rewrite filter_all; [done|].
      apply Forall_fmap. eapply Forall_impl; [exact Hdata|].
      intros row Hrow. unfold compose; cbv beta.
      by destruct (reloaded_row row Hrow).
  - rewrite Hkeys. unfold comments'. rewrite !map_map.
    apply map_ext_Forall. eapply Forall_impl; [exact Hdata|].
    intros row Hrow. unfold compose; cbv beta.
    by destruct (reloaded_row row Hrow).
Qed.

(** C4, as the code has it: for a path that cannot be loaded (nothing is
    there, it cannot be opened or decoded, its extension is neither [.csv]
    nor [.json], the csv reader or the JSON decoder raises on its text, or
    the JSON document is a scalar or an object without the key
    [comments]), [load_comments] returns the empty list (it does not
    raise), prints one line, which starts with "Error", and leaves files
    and requests as they were.  A CSV text that the reader accepts is
    loaded, however malformed. *)
Theorem load_comments_unloadable path w :
  unloadable w path →
  (∀ text d, files w !! path = Some (Contents text) →
             json_loads text = Ok (JObject d None) →
             d !! "comments" = None) →
  ∃ line,
    load_comments path w
    = (Ok [], World (files w) (stdout w ++ [line]) (requests w))
    ∧ String.prefix "Error" line = true.
Proof.
  intros Hbad _.
  unfold load_comments, try_except, mbind, M_bind, read_file, lift_result,
    raise, print, of_class, mret, M_ret.
  destruct (endswith path ".csv") eqn:Hcsv.
  - destruct (files w !! path) as [[e|e|text]|] eqn:Hfile.
    + case_bool_decide; eexists; split; reflexivity.
    + case_bool_decide; eexists; split; reflexivity.
    + destruct (DictReader text) as [cs|e] eqn:Hread.
      * exfalso. inversion Hbad; congruence.
      * case_bool_decide; eexists; split; reflexivity.
    + cbn [exn_cls]. rewrite bool_decide_eq_true_2 by done.
      eexists; split; reflexivity.
  - destruct (endswith path ".json") eqn:Hjson.
    + destruct (files w !! path) as [[e|e|text]|] eqn:Hfile.
      * case_bool_decide; eexists; split; reflexivity.
      * case_bool_decide; eexists; split; reflexivity.
      * destruct (json_loads text) as [[d [cs|]|cs|v]|e] eqn:Hjs.
        -- exfalso. inversion Hbad; congruence.
        -- eexists; split; reflexivity.
        -- exfalso. inversion Hbad; congruence.
        -- eexists; split; reflexivity.
        -- case_bool_decide; eexists; split; reflexivity.
      * cbn [exn_cls]. rewrite bool_decide_eq_true_2 by done.
        eexists; split; reflexivity.
    + eexists; split; reflexivity.
Qed.

(** *** The file the generator writes *)

Lemma generated_record_row r :
  dom (items r) = three_fields → surplus r = None →
  dict_to_list header r = Ok (row_values header r)
  ∧ row_values header r = key_fields r.
Proof.
  intros Hdom Hsurplus. split.
  - unfold dict_to_list. rewrite Hdom, Hsurplus.
    rewrite bool_decide_eq_true_2 by (unfold three_fields, header; set_solver).
    by rewrite bool_decide_eq_true_2.
  - unfold row_values, key_fields, header, get_or, get. cbn [map].
    assert (Hin : ∀ k, k ∈ three_fields → is_Some (items r !! k))
      by (intros k Hk; apply elem_of_dom; by rewrite Hdom).
    destruct (Hin "comment_id") as [? ->]; [unfold three_fields; set_solver|].
    destruct (Hin "username") as [? ->]; [unfold three_fields; set_solver|].
    destruct (Hin "comment_text") as [? ->]; [unfold three_fields; set_solver|].
    done.
Qed.

(** What the generator leaves in its output file: the header and, for
    each record in turn, the line of its identifier, user name and text. *)
Lemma save_final_comments all_generated_comments recs w :
  final_comments all_generated_comments = Some recs →
  (∀ e, files w !! OUTPUT_FILENAME ≠ Some (NoAccess e)) →
  ∃ text,
    save recs w
    = (Ok tt,
       World (<[OUTPUT_FILENAME := Contents text]> (files w))
         (stdout w ++ [String "010" "Generated comments saved to "
                       +:+ OUTPUT_FILENAME])
         (requests w))
    ∧ list_ascii_of_string text
      = concat (map writerow
                  (map list_ascii_of_string header
                   :: map (λ r, map (λ v, list_ascii_of_string (field_text v))
                                  (key_fields r)) recs)).
Proof.
  intros Hrecs Hopen.
  unfold final_comments in Hrecs.
  destruct (final_loop_spec _ _ _ _ Hrecs) as [_ Hshape].
  assert (Hrows : Forall (λ r, dict_to_list header r = Ok (row_values header r)
                               ∧ row_values header r = key_fields r) recs).
  { apply Forall_lookup. intros i r Hi.
    destruct (Hshape i r Hi) as (_ & Hdom & Hs).
    by apply generated_record_row. }
  set (w1 := World (<[OUTPUT_FILENAME := Contents ""]> (files w)) (stdout w)
               (requests w)).
  set (head := row_line (map PStr header)).
  set (w2 := World (<[OUTPUT_FILENAME := Contents ("" +:+ head)]> (files w1))
               (stdout w1) (requests w1)).
  destruct (writerows_ok header OUTPUT_FILENAME recs w2 ("" +:+ head))
    as (text & Hrun & Htext); [apply lookup_insert_eq| |].
  { eapply Forall_impl; [exact Hrows|]. by intros r [? _]. }
  exists text. split.
  - unfold save.
    rewrite (bind_ok _ _ w tt w1) by (by apply open_write_ok).
    rewrite (bind_ok _ _ w1 tt w2)
      by (apply file_write_ok, lookup_insert_eq).
    rewrite (bind_ok _ _ w2 tt _ Hrun).
    unfold print. cbn [files stdout requests w1 w2].
    by rewrite !insert_insert_eq.
  - rewrite Htext. change ("" +:+ head) with head.
    unfold head. rewrite row_line_ascii. cbn [concat map].
    f_equal. rewrite !map_map. f_equal. apply map_ext_Forall.
    eapply Forall_impl; [exact Hrows|]. intros r [_ Hr]. cbv beta.
    by rewrite row_line_ascii, Hr.
Qed.

End Files.
End FilesFacts.

(** ** The analysis loop *)

Module PipelineFacts.
Local Open Scope list_scope.

Lemma beside_analysis_setitem k v d :
  k = "is_offensive" ∨ k = "offense_type" ∨ k = "explanation"
  ∨ k = "severity" →
  beside_analysis (items (setitem k v d)) = beside_analysis (items d).
Proof.
  intros Hk. unfold beside_analysis. apply map_eq; intros j.
  rewrite items_setitem.
  destruct (decide (j = "severity")) as [->|Hs];
    [by rewrite !lookup_delete_eq|].
  rewrite !(lookup_delete_ne _ "severity") by done.
  destruct (decide (j = "explanation")) as [->|He];
    [by rewrite !lookup_delete_eq|].
  rewrite !(lookup_delete_ne _ "explanation") by done.
  destruct (decide (j = "offense_type")) as [->|Ho];
    [by rewrite !lookup_delete_eq|].
  rewrite !(lookup_delete_ne _ "offense_type") by done.
  destruct (decide (j = "is_offensive")) as [->|Hi];
    [by rewrite !lookup_delete_eq|].
  rewrite !(lookup_delete_ne _ "is_offensive") by done.
  apply lookup_insert_ne. by destruct Hk as [->|[->|[->| ->]]].
Qed.

Section Loop.
Context `{Externals}.

(** What one call of [analyze_comment_with_ai] does to the world and to
    the comment. *)
Lemma analyze_effects comment w :
  ∃ c' w', analyze_comment_with_ai comment w = (Ok c', w')
    ∧ files w' = files w
    ∧ requests w'
      = requests w ++ (if prefiltered comment then [] else [text_of comment])
    ∧ beside_analysis (items c') = beside_analysis (items comment)
    ∧ surplus c' = surplus comment
    ∧ is_Some (items c' !! "is_offensive")
    ∧ is_Some (items c' !! "offense_type")
    ∧ is_Some (items c' !! "severity").
Proof.
  destruct (analyze_paths comment w) as (c' & w' & Heq & Hpath).
  exists c', w'. split; [done|].
  destruct Hpath as [Hpre|e Hpre|Hpre|? ? e Hpre|? ? ? ? Hpre|? ? e Hpre];
    rewrite Hpre; cbn [files requests]; unfold text_of.
  { rewrite app_nil_r, beside_analysis_severity, items_setitem.
    unfold prefiltered in Hpre. apply andb_true_iff in Hpre as [Ho Ht].
    repeat split; try done.
    - rewrite lookup_insert_ne by done. unfold get in Ho.
      destruct (items comment !! "is_offensive"); [by eexists|done].
    - rewrite lookup_insert_ne by done. unfold get in Ht.
      destruct (items comment !! "offense_type"); [by eexists|done].
    - rewrite lookup_insert_eq. by eexists. }
  all: rewrite beside_analysis_set; unfold set_analysis;
    rewrite !items_setitem; repeat split; try done.
  all: first [ rewrite lookup_insert_eq; by eexists
             | rewrite lookup_insert_ne by done; rewrite lookup_insert_eq;
               by eexists
             | rewrite !lookup_insert_ne by done; rewrite lookup_insert_eq;
               by eexists ].
Qed.

Lemma analyze_all_effects comments : ∀ w,
  ∃ analyzed w', analyze_all comments w = (Ok analyzed, w')
    ∧ files w' = files w
    ∧ requests w'
      = requests w
        ++ map text_of (filter (λ c, prefiltered c = false) comments)
    ∧ Forall2 analysed_from comments analyzed.
Proof.
  induction comments as [|c comments IH]; intros w.
  - exists [], w. repeat split; [by rewrite app_nil_r|constructor].
  - destruct (analyze_effects c w)
      as (c' & w1 & Hc & Hf1 & Hr1 & Hframe).
    destruct (IH w1) as (l & w2 & Hl & Hf2 & Hr2 & Hall).
    exists (c' :: l), w2. split; [|split; [|split]].
    + simpl. unfold mbind, M_bind. by rewrite Hc, Hl.
    + congruence.
    + rewrite Hr2, Hr1, filter_cons.
      destruct (prefiltered c); simpl; [by rewrite app_nil_r|].
      by rewrite <- app_assoc.
    + by constructor.
Qed.

Lemma pre_filter_one_frame c :
  beside_analysis (items (pre_filter_one c)) = beside_analysis (items c)
  ∧ surplus (pre_filter_one c) = surplus c.
Proof.
  unfold pre_filter_one. case_match; [|done].
  rewrite !beside_analysis_setitem by auto. done.
Qed.

Lemma process_comments_effects comments pre_filter w :
  ∃ analyzed w', process_comments comments pre_filter w = (Ok analyzed, w')
    ∧ files w' = files w
    ∧ requests w'
      = requests w
        ++ map text_of
             (filter (λ c, prefiltered c = false)
                (if pre_filter then map pre_filter_one comments
                 else comments))
    ∧ Forall2 analysed_from comments analyzed.
Proof.
  unfold process_comments. destruct pre_filter.
  - unfold pre_filter_comments, mbind, M_bind, print, mret, M_ret.
    cbn [fst snd].
    match goal with
    | |- context [analyze_all ?l ?w0] =>
        destruct (analyze_all_effects l w0)
          as (analyzed & w' & Hrun & Hf & Hr & Hall)
    end.
    exists analyzed, w'. rewrite Hrun. repeat split; try done.
    change (map pre_filter_one comments)
      with (pre_filter_one <$> comments) in Hall.
    rewrite Forall2_fmap_l in Hall.
    eapply Forall2_impl; [exact Hall|].
    intros c c' (Hb & Hs & Hkeys). cbv beta in *.
    destruct (pre_filter_one_frame c) as [Hb' Hs'].
    split; [congruence|]. split; [congruence|done].
  - unfold mbind, M_bind, mret, M_ret.
    destruct (analyze_all_effects comments w)
      as (analyzed & w' & Hrun & Hf & Hr & Hall).
    exists analyzed, w'. by rewrite Hrun.
Qed.

(** X1: [process_comments] never raises and returns one comment per
    comment it was given; it leaves the files alone and sends exactly one
    request for each comment that is not already resolved as profanity,
    in the order of the comments, and none for the others. *)
Theorem process_comments_one_request_each comments pre_filter w :
  ∃ analyzed w', process_comments comments pre_filter w = (Ok analyzed, w')
    ∧ length analyzed = length comments
    ∧ files w' = files w
    ∧ requests w'
      = requests w
        ++ map text_of
             (filter (λ c, prefiltered c = false)
                (if pre_filter then map pre_filter_one comments
                 else comments)).
Proof.
  destruct (process_comments_effects comments pre_filter w)
    as (analyzed & w' & Hrun & Hf & Hr & Hall).
  exists analyzed, w'. repeat split; try done.
  symmetry. by eapply Forall2_length.
Qed.

(** X2: the comment [process_comments] returns at a position agrees with
    the comment given at that position on every entry other than
    [is_offensive], [offense_type], [explanation] and [severity], with or
    without the pre-filter. *)
Theorem process_comments_keeps_other_entries comments pre_filter w analyzed w' :
  process_comments comments pre_filter w = (Ok analyzed, w') →
  Forall2 (λ c c', beside_analysis (items c') = beside_analysis (items c)
                   ∧ surplus c' = surplus c) comments analyzed.
Proof.
  intros Hrun.
  destruct (process_comments_effects comments pre_filter w)
    as (analyzed0 & w0 & Hrun0 & _ & _ & Hall).
  rewrite Hrun0 in Hrun. injection Hrun as <- <-.
  eapply Forall2_impl; [exact Hall|]. by intros c c' (? & ? & _).
Qed.

(** X3: every comment [process_comments] returns holds the keys
    [is_offensive], [offense_type] and [severity]; so the sort key of
    [generate_report_json] is the stored severity, never the default 0. *)
Theorem process_comments_sets_severity comments pre_filter w analyzed w' :
  process_comments comments pre_filter w = (Ok analyzed, w') →
  Forall (λ c', is_Some (items c' !! "is_offensive")
                ∧ is_Some (items c' !! "offense_type")
                ∧ is_Some (items c' !! "severity")
                ∧ Report.sort_key c' = get c' "severity") analyzed.
Proof.
  intros Hrun.
  destruct (process_comments_effects comments pre_filter w)
    as (analyzed0 & w0 & Hrun0 & _ & _ & Hall).
  rewrite Hrun0 in Hrun. injection Hrun as <- <-.
  clear Hrun0.
  induction Hall as [|c c' l l' (_ & _ & Ho & Ht & Hs) _ IH];
    constructor; [|exact IH].
  repeat split; try done.
  unfold Report.sort_key, get_or, get. by destruct Hs as [v ->].
Qed.

End Loop.
End PipelineFacts.

(** ** The report: counts, failure, and the five comments *)

Module ReportShape.
Import Report ReportFacts.
Local Open Scope list_scope.

(** *** Counts *)

Lemma counter_add_sum k c :
  sum_list (map snd (counter_add k c)) = S (sum_list (map snd c)).
Proof.
  induction c as [|[k' n] c IH]; [done|].
  simpl. destruct (py_eq k k'); simpl; [done|]. rewrite IH. lia.
Qed.

Lemma Counter_sum l : sum_list (map snd (Counter l)) = length l.
Proof.
  unfold Counter.
  assert (Hgen : ∀ c, sum_list (map snd (fold_left (λ c k, counter_add k c) l c))
                      = (sum_list (map snd c) + length l)%nat).
  { induction l as [|k l IH]; intros c; simpl; [lia|].
    rewrite IH, counter_add_sum. lia. }
  by rewrite Hgen.
Qed.

Lemma counter_add_positive k c :
  Forall (λ kn, (1 ≤ kn.2)%nat) c →
  Forall (λ kn, (1 ≤ kn.2)%nat) (counter_add k c).
Proof.
  induction 1 as [|[k' n] c Hn Hc IH]; simpl.
  - by repeat constructor.
  - destruct (py_eq k k'); constructor; simpl in *; try done; lia.
Qed.

Lemma Counter_positive l : Forall (λ kn, (1 ≤ kn.2)%nat) (Counter l).
Proof.
  unfold Counter.
  assert (Hgen : ∀ c, Forall (λ kn, (1 ≤ kn.2)%nat) c →
                      Forall (λ kn, (1 ≤ kn.2)%nat)
                        (fold_left (λ c k, counter_add k c) l c)).
  { induction l as [|k l IH]; intros c Hc; simpl; [done|].
    by apply IH, counter_add_positive. }
  by apply Hgen.
Qed.

(** X4: in a report, [total_comments] is the number of comments, and
    [num_offensive_comments] the number of those whose [is_offensive] is
    truthy; the counts of [offense_type_breakdown] are all positive and add
    up to the number of offensive comments with a truthy [offense_type],
    so to at most [num_offensive_comments]. *)
Theorem report_counts_add_up cs r :
  generate_report_json cs = Some r →
  total_comments r = length cs
  ∧ num_offensive_comments r = length (filter (λ c, is_offensive c = true) cs)
  ∧ (num_offensive_comments r ≤ total_comments r)%nat
  ∧ Forall (λ kn, (1 ≤ kn.2)%nat) (offense_type_breakdown r)
  ∧ sum_list (map snd (offense_type_breakdown r))
    = length (filter (λ c, is_offensive c = true
                           ∧ truthy (get c "offense_type") = true) cs)
  ∧ (sum_list (map snd (offense_type_breakdown r))
     ≤ num_offensive_comments r)%nat.
Proof.
  intros Hr.
  assert (Hb := generate_report_json_breakdown cs r Hr).
  unfold generate_report_json in Hr.
  destruct (sorted_desc _) as [sorted_offensive|]; [|done].
  injection Hr as <-. cbn [total_comments num_offensive_comments] in *.
  cbn [offense_type_breakdown] in *.
  assert (Hsum : sum_list (map snd (breakdown (filter (λ c, is_offensive c = true) cs)))
                 = length (filter (λ c, is_offensive c = true
                           ∧ truthy (get c "offense_type") = true) cs)).
  { unfold breakdown. rewrite Counter_sum, length_map.
    clear. induction cs as [|c cs IH]; [done|].
    rewrite !filter_cons.
    destruct (decide (is_offensive c = true)) as [Ho|Ho].
    - rewrite filter_cons.
      destruct (decide (truthy (get c "offense_type") = true)) as [Ht|Ht].
      + rewrite decide_True by done. simpl. by rewrite IH.
      + rewrite decide_False by tauto. done.
    - rewrite decide_False by tauto. done. }
  split; [done|]. split; [done|].
  split; [apply length_filter|].
  split; [apply Counter_positive|].
  split; [done|].
  rewrite Hsum.
  clear. induction cs as [|c cs IH]; [done|].
  rewrite !filter_cons.
  destruct (decide (is_offensive c = true)) as [Ho|Ho].
  - destruct (decide (truthy (get c "offense_type") = true)) as [Ht|Ht].
    + rewrite decide_True by done. simpl. lia.
    + rewrite decide_False by tauto. simpl. lia.
  - rewrite decide_False by tauto. done.
Qed.

(** *** The five comments *)

Lemma dict_eq_sym a b : dict_eq a b = dict_eq b a.
Proof.
  unfold dict_eq. f_equal; apply bool_decide_ext; split; congruence.
Qed.

Lemma dict_eq_type a b : dict_eq a b = true → type_of a = type_of b.
Proof.
  unfold dict_eq, type_of, get. intros [Hitems _]%andb_true_iff.
  apply bool_decide_eq_true in Hitems.
  assert (Hk : (norm <$> items a) !! "offense_type"
               = (norm <$> items b) !! "offense_type") by by rewrite Hitems.
  rewrite !lookup_fmap in Hk.
  destruct (items a !! "offense_type"), (items b !! "offense_type");
    simpl in *; congruence.
Qed.

Lemma pairwise_different_snoc l c :
  pairwise_different l → (∀ a, a ∈ l → dict_eq a c = false) →
  pairwise_different (l ++ [c]).
Proof.
  intros Hl Hc i j a b Hij Ha Hb.
  assert (Hj : (j < length (l ++ [c]))%nat) by (by eapply lookup_lt_Some).
  rewrite length_app in Hj. simpl in Hj.
  rewrite lookup_app_l in Ha by lia.
  destruct (decide (j < length l)%nat) as [Hlt|Hge].
  - rewrite lookup_app_l in Hb by done. by apply (Hl i j).
  - rewrite lookup_app_r in Hb by lia.
    replace (j - length l)%nat with 0%nat in Hb by lia.
    injection Hb as <-. apply Hc. by eapply list_elem_of_lookup_2.
Qed.

Lemma first_of_each_type_elem n sn l c :
  c ∈ first_of_each_type n sn l → c ∈ l ∧ type_of c ∉ sn.
Proof.
  revert n sn. induction l as [|x l IH]; intros [|n] sn; simpl;
    try (by intros ?%elem_of_nil).
  fold (type_of x). case_decide as Hx.
  - intros [Hc Hsn]%(IH (S n)). split; [by right|done].
  - intros [->|Hc]%elem_of_cons; [split; [by left|done]|].
    destruct (IH _ _ Hc) as [Hl Hsn]. split; [by right|].
    intros Hin. apply Hsn, elem_of_union. by right.
Qed.

Lemma first_of_each_type_types n sn l i j a b :
  (i < j)%nat →
  first_of_each_type n sn l !! i = Some a →
  first_of_each_type n sn l !! j = Some b →
  type_of a ≠ type_of b.
Proof.
  revert n sn i j. induction l as [|x l IH]; intros [|n] sn i j; simpl;
    try done.
  fold (type_of x). case_decide as Hx.
  - apply (IH (S n)).
  - destruct i as [|i], j as [|j]; simpl; try lia.
    + intros _ [= <-] Hb.
      apply list_elem_of_lookup_2, first_of_each_type_elem in Hb as [_ Hb].
      set_solver.
    + intros Hij. apply IH. lia.
Qed.

Lemma first_of_each_type_covers n sn l c :
  c ∈ l →
  type_of c ∈ sn
  ∨ (∃ t, t ∈ first_of_each_type n sn l ∧ type_of t = type_of c)
  ∨ length (first_of_each_type n sn l) = n.
Proof.
  revert n sn. induction l as [|x l IH]; intros n sn Hc;
    [by apply elem_of_nil in Hc|].
  destruct n as [|n]; [by right; right|].
  simpl. fold (type_of x). case_decide as Hx.
  - apply elem_of_cons in Hc as [->|Hc]; [by left|]. by apply IH.
  - apply elem_of_cons in Hc as [->|Hc].
    { right; left. exists x. split; [by left|done]. }
    destruct (IH n ({[type_of x]} ∪ sn) Hc) as [Hin|[(t & Ht & Heq)|Hlen]].
    + apply elem_of_union in Hin as [Hin|Hin]; [|by left].
      apply elem_of_singleton in Hin.
      right; left. exists x. split; [by left|done].
    + right; left. exists t. split; [by right|done].
    + right; right. simpl. by rewrite Hlen.
Qed.

Lemma first_of_each_type_different n sn l :
  pairwise_different (first_of_each_type n sn l).
Proof.
  intros i j a b Hij Ha Hb.
  destruct (dict_eq a b) eqn:Heq; [|done].
  apply dict_eq_type in Heq.
  by destruct (first_of_each_type_types n sn l i j a b).
Qed.

Lemma dict_in_false c l :
  dict_in c l = false ↔ ∀ a, a ∈ l → dict_eq a c = false.
Proof.
  unfold dict_in. induction l as [|x l IH]; simpl.
  - split; [by intros _ a ?%elem_of_nil|done].
  - rewrite orb_false_iff, IH, (dict_eq_sym c x). split.
    + intros [Hx Hl] a [->|Ha]%elem_of_cons; [done|by apply Hl].
    + intros Hall. split; [apply Hall; by left|].
      intros a Ha. apply Hall. by right.
Qed.

Lemma dict_in_app c l more :
  dict_in c l = true → dict_in c (l ++ more) = true.
Proof. unfold dict_in. rewrite existsb_app. by intros ->. Qed.

Lemma dict_eq_refl c : dict_eq c c = true.
Proof. unfold dict_eq. by rewrite !bool_decide_eq_true_2. Qed.

Lemma fill_loop_elem l : ∀ top c,
  c ∈ fill_loop l top → c ∈ top ∨ c ∈ l.
Proof.
  induction l as [|x l IH]; intros top c; simpl; [by left|].
  case_match.
  - intros [[Hc|Hc]%elem_of_app|Hc]%IH.
    + by left.
    + apply list_elem_of_singleton in Hc as ->. right; by left.
    + right; by right.
  - intros [Hc|Hc]%IH; [by left|right; by right].
Qed.

Lemma fill_loop_different l : ∀ top,
  pairwise_different top → pairwise_different (fill_loop l top).
Proof.
  induction l as [|x l IH]; intros top Htop; simpl; [done|].
  case_match eqn:Hadd; [|by apply IH].
  apply andb_true_iff in Hadd as [Hin _]. apply negb_true_iff in Hin.
  apply IH, pairwise_different_snoc; [done|]. by apply dict_in_false.
Qed.

Lemma fill_loop_complete l : ∀ top c,
  (length (fill_loop l top) < 5)%nat → c ∈ l →
  dict_in c (fill_loop l top) = true.
Proof.
  induction l as [|x l IH]; intros top c Hlen Hc;
    [by apply elem_of_nil in Hc|].
  simpl in *.
  destruct (negb (dict_in x top) && (length top <? 5)%nat) eqn:Hadd.
  - apply elem_of_cons in Hc as [->|Hc]; [|by apply IH].
    destruct (fill_loop_prefix l (top ++ [x])) as [more ->].
    apply dict_in_app. unfold dict_in. rewrite existsb_app. simpl.
    by rewrite dict_eq_refl, orb_true_r.
  - apply elem_of_cons in Hc as [->|Hc]; [|by apply IH].
    destruct (fill_loop_prefix l top) as [more Hmore].
    rewrite Hmore in *. rewrite length_app in Hlen.
    apply andb_false_iff in Hadd as [Hin|Hfull].
    + apply dict_in_app. by apply negb_false_iff in Hin.
    + apply Nat.ltb_ge in Hfull. lia.
Qed.

(** What [generate_report_json] puts into the report: the loops run on
    the offensive comments in some order. *)
Lemma report_top_5 cs r :
  generate_report_json cs = Some r →
  ∃ sorted_offensive,
    sorted_offensive ≡ₚ filter (λ c, is_offensive c = true) cs
    ∧ top_5_most_severe_offensive_comments_varied r = top_5 sorted_offensive.
Proof.
  unfold generate_report_json. intros Hr.
  destruct (sorted_desc _) as [sorted_offensive|] eqn:Hsort; [|done].
  injection Hr as <-. exists sorted_offensive.
  split; [by apply sorted_desc_perm|done].
Qed.

Lemma top_5_cases l :
  (top_5 l = first_of_each_type 5 ∅ l
   ∧ length (first_of_each_type 5 ∅ l) = 5%nat)
  ∨ (top_5 l = fill_loop l (first_of_each_type 5 ∅ l)
     ∧ (length (first_of_each_type 5 ∅ l) < 5)%nat).
Proof.
  unfold top_5. rewrite varied_loop_spec by done. simpl app.
  pose proof (first_of_each_type_length 5 ∅ l) as Hlen.
  change (5 - length (@nil dict))%nat with 5%nat.
  destruct (Nat.ltb_spec (length (first_of_each_type 5 ∅ l)) 5).
  - by right.
  - left. split; [done|lia].
Qed.

(** X5: the list [top_5_most_severe_offensive_comments_varied] of a
    report holds at most five comments; each of them is an offensive
    comment of the input; no two of them are equal as dictionaries; and
    when it holds fewer than five, every offensive comment of the input is
    equal to one of them. *)
Theorem top_5_distinct_offensive_comments cs r :
  generate_report_json cs = Some r →
  (length (top_5_most_severe_offensive_comments_varied r) ≤ 5)%nat
  ∧ Forall (λ c, c ∈ cs ∧ is_offensive c = true)
      (top_5_most_severe_offensive_comments_varied r)
  ∧ pairwise_different (top_5_most_severe_offensive_comments_varied r)
  ∧ ((length (top_5_most_severe_offensive_comments_varied r) < 5)%nat →
     ∀ c, c ∈ cs → is_offensive c = true →
          dict_in c (top_5_most_severe_offensive_comments_varied r) = true).
Proof.
  intros (l & Hperm & ->)%report_top_5.
  assert (Hmem : ∀ c, c ∈ l ↔ c ∈ cs ∧ is_offensive c = true).
  { intros c. rewrite Hperm, list_elem_of_filter. tauto. }
  split; [apply top_5_spec|].
  destruct (top_5_cases l) as [[-> Hfull]|[-> Hfew]].
  - split; [|split].
    + apply Forall_forall. intros c [Hc _]%first_of_each_type_elem.
      by apply Hmem.
    + apply first_of_each_type_different.
    + lia.
  - split; [|split].
    + apply Forall_forall. intros c [Hc|Hc]%fill_loop_elem.
      * apply first_of_each_type_elem in Hc as [Hc _]. by apply Hmem.
      * by apply Hmem.
    + apply fill_loop_different, first_of_each_type_different.
    + intros Hlen c Hc Ho. apply fill_loop_complete; [done|].
      by apply Hmem.
Qed.

(** X6: the list covers as many offense types as five comments can: for
    every offensive comment of the input, some comment of the list has
    its offense type, unless the list holds five comments of five
    different offense types. *)
Theorem top_5_covers_offense_types cs r c :
  generate_report_json cs = Some r →
  c ∈ cs → is_offensive c = true →
  (∃ t, t ∈ top_5_most_severe_offensive_comments_varied r
        ∧ py_eq (get t "offense_type") (get c "offense_type") = true)
  ∨ (length (top_5_most_severe_offensive_comments_varied r) = 5%nat
     ∧ ∀ i j a b, (i < j)%nat →
         top_5_most_severe_offensive_comments_varied r !! i = Some a →
         top_5_most_severe_offensive_comments_varied r !! j = Some b →
         py_eq (get a "offense_type") (get b "offense_type") = false).
Proof.
  intros (l & Hperm & ->)%report_top_5 Hc Ho.
  assert (Hl : c ∈ l) by (rewrite Hperm; by apply list_elem_of_filter).
  destruct (first_of_each_type_covers 5 ∅ l c Hl)
    as [Hin|[(t & Ht & Heq)|Hlen]]; [set_solver| |].
  - left. exists t. split.
    + destruct (top_5_spec l) as (_ & more & ->).
      apply elem_of_app. by left.
    + unfold py_eq. by apply bool_decide_eq_true_2.
  - right. destruct (top_5_cases l) as [[-> _]|[_ Hfew]]; [|lia].
    split; [done|]. intros i j a b Hij Ha Hb.
    unfold py_eq. apply bool_decide_eq_false_2.
    by apply (first_of_each_type_types 5 ∅ l i j).
Qed.

(** *** The most severe comment *)

(** X7: in a report on comments whose offensive ones all have a number
    (or no entry) as severity, the first comment of the list is an
    offensive comment of the largest severity, and among these the one
    that comes first in the input.  The list is empty only when no comment
    is offensive. *)
Theorem most_severe_comes_first cs r :
  generate_report_json cs = Some r →
  Forall numeric_severity (filter (λ c, is_offensive c = true) cs) →
  match top_5_most_severe_offensive_comments_varied r with
  | [] => filter (λ c, is_offensive c = true) cs = []
  | first :: _ =>
      (∀ c, c ∈ cs → is_offensive c = true →
            (severity c ≤ severity first)%Z)
      ∧ head (filter (λ c, severity c = severity first)
                (filter (λ c, is_offensive c = true) cs))
        = Some first
  end.
Proof.
  intros Hreport Hnum.
  destruct (generate_report_json_numeric cs Hnum)
    as (r' & l & Hr & Hperm & Hdesc & Hstable & Htop & _).
  assert (r' = r) as -> by congruence.
  rewrite Htop.
  destruct l as [|x l].
  - change (top_5 []) with (@nil dict).
    by apply Permutation_nil_l in Hperm.
  - destruct (top_5_spec (x :: l)) as (_ & more & ->).
    simpl. split.
    + intros c Hc Ho.
      assert (Hin : c ∈ x :: l)
        by (rewrite Hperm; by apply list_elem_of_filter).
      apply StronglySorted_inv in Hdesc as [_ Hmax].
      apply elem_of_cons in Hin as [->|Hin]; [lia|].
      rewrite Forall_forall in Hmax. by apply Hmax.
    + rewrite <- Hstable, filter_cons, decide_True by done. done.
Qed.

(** *** When the report fails *)

Lemma py_lt_comparable a b :
  is_Some (py_lt a b)
  ↔ (is_Some (num_of a) ∧ is_Some (num_of b))
    ∨ (∃ s t, a = PStr s ∧ b = PStr t).
Proof.
  destruct a, b; simpl; split;
    try (intros [? ?]; discriminate);
    try (intros [[[? ?] [? ?]]|(? & ? & ? & ?)]; discriminate);
    eauto 10.
Qed.

Lemma orderable_iff keys :
  orderable keys = true
  ↔ Forall (λ a, is_Some (num_of a)) keys ∨ Forall (λ a, ∃ s, a = PStr s) keys.
Proof.
  split.
  - intros Hord. destruct keys as [|a keys]; [by left|].
    assert (Ha : a ∈ a :: keys) by by left.
    destruct (proj1 (py_lt_comparable a a) (orderable_spec _ _ _ Hord Ha Ha))
      as [[Hnum _]|(s & _ & -> & _)].
    + left. apply Forall_forall. intros b Hb.
      destruct (proj1 (py_lt_comparable a b)
                  (orderable_spec _ _ _ Hord Ha Hb))
        as [[_ ?]|(s & t & -> & _)]; [done|].
      by destruct Hnum.
    + right. apply Forall_forall. intros b Hb.
      destruct (proj1 (py_lt_comparable (PStr s) b)
                  (orderable_spec _ _ _ Hord Ha Hb))
        as [[[? ?] _]|(s' & t & _ & ->)]; [done|by eexists].
  - intros Hkeys. unfold orderable.
    apply forallb_forall. intros a Ha%list_elem_of_In.
    apply forallb_forall. intros b Hb%list_elem_of_In.
    apply bool_decide_eq_true_2, py_lt_comparable.
    destruct Hkeys as [Hnum|Hstr]; rewrite Forall_forall in *.
    + left. auto.
    + right. destruct (Hstr a Ha) as [s ->], (Hstr b Hb) as [t ->]. eauto.
Qed.

Lemma sorted_desc_exists l :
  is_Some (sorted_desc l)
  ↔ (length l < 2)%nat
    ∨ Forall numeric_severity l
    ∨ Forall (λ c, ∃ s, sort_key c = PStr s) l.
Proof.
  unfold sorted_desc.
  assert (Hkeys : orderable (map sort_key l) = true
                  ↔ Forall numeric_severity l
                    ∨ Forall (λ c, ∃ s, sort_key c = PStr s) l).
  { rewrite orderable_iff, !Forall_fmap. done. }
  destruct (Nat.ltb_spec (length l) 2) as [Hlt|Hge]; simpl.
  - split; [by left|by eexists].
  - destruct (orderable (map sort_key l)) eqn:Hord.
    + split; [|by eexists]. intros _. right. by apply Hkeys.
    + split; [by intros [? ?]|].
      intros [?|Hall]; [lia|]. apply Hkeys in Hall. done.
Qed.

Lemma report_of_sorted cs :
  is_Some (generate_report_json cs)
  ↔ is_Some (sorted_desc (filter (λ c, is_offensive c = true) cs)).
Proof.
  unfold generate_report_json.
  destruct (sorted_desc _); simpl; split; by eauto.
Qed.

(** X8: when the severity of one offensive comment is a number (or
    absent) and the severity of another one is a string, no report is
    returned: [sorted] raises, whatever the other comments hold. *)
Theorem mixed_severities_break_report cs c1 c2 s :
  c1 ∈ cs → c2 ∈ cs →
  is_offensive c1 = true → is_offensive c2 = true →
  numeric_severity c1 →
  sort_key c2 = PStr s →
  generate_report_json cs = None.
Proof.
  intros H1 H2 Ho1 Ho2 [z Hz] Hs.
  destruct (generate_report_json cs) eqn:Hr; [|done]. exfalso.
  assert (Hsome : is_Some (generate_report_json cs)) by by eexists.
  assert (Hin1 : c1 ∈ filter (λ c, is_offensive c = true) cs)
    by (by apply list_elem_of_filter).
  assert (Hin2 : c2 ∈ filter (λ c, is_offensive c = true) cs)
    by (by apply list_elem_of_filter).
  apply report_of_sorted, sorted_desc_exists in Hsome
    as [Hlt|[Hnum|Hstr]].
  - destruct (filter (λ c, is_offensive c = true) cs) as [|x [|y l]];
      [by apply elem_of_nil in Hin1| |simpl in Hlt; lia].
    apply list_elem_of_singleton in Hin1 as ->.
    apply list_elem_of_singleton in Hin2 as ->.
    rewrite Hs in Hz. discriminate.
  - rewrite Forall_forall in Hnum. destruct (Hnum c2 Hin2) as [z2 Hz2].
    rewrite Hs in Hz2. discriminate.
  - rewrite Forall_forall in Hstr. destruct (Hstr c1 Hin1) as [s1 Hs1].
    rewrite Hs1 in Hz. discriminate.
Qed.

End ReportShape.

(** ** Loading and exporting: what cannot happen *)

Module FilesSafety.
Import Csv CsvFacts FilesFacts.
Local Open Scope list_scope.

(** The world differs from [w] at most in the file at [path]. *)
Lemma file_write_frame path s w :
  ∃ w', file_write path s w = (Ok tt, w')
    ∧ stdout w' = stdout w ∧ requests w' = requests w
    ∧ (∀ p, p ≠ path → files w' !! p = files w !! p)
    ∧ (is_Some (files w !! path) → is_Some (files w' !! path)).
Proof.
  unfold file_write. destruct (files w !! path) as [[e|e|text]|] eqn:Hf;
    eexists; (split; [reflexivity|]); cbn [files stdout requests];
    repeat split; try done; try (by rewrite Hf).
  - intros p Hp. by rewrite lookup_insert_ne.
  - intros _. rewrite lookup_insert_eq. by eexists.
Qed.

Lemma open_write_frame path w :
  ∃ r w', open_write path w = (r, w')
    ∧ stdout w' = stdout w ∧ requests w' = requests w
    ∧ (∀ p, p ≠ path → files w' !! p = files w !! p).
Proof.
  unfold open_write. destruct (files w !! path) as [[e|e|text]|];
    eexists _, _; (split; [reflexivity|]); cbn [files stdout requests];
    repeat split; try done; intros p Hp; by rewrite lookup_insert_ne.
Qed.

Section Safety.
Context `{Externals}.

Lemma writerows_frame names path cs : ∀ w,
  ∃ r w', writerows names path cs w = (r, w')
    ∧ stdout w' = stdout w ∧ requests w' = requests w
    ∧ (∀ p, p ≠ path → files w' !! p = files w !! p).
Proof.
  induction cs as [|c cs IH]; intros w; simpl.
  - by exists (Ok tt), w.
  - unfold mbind, M_bind, lift_result.
    destruct (dict_to_list names c) as [values|e]; [|by exists (Raise e), w].
    destruct (file_write_frame path (row_line values) w)
      as (w1 & -> & Hout1 & Hreq1 & Hfiles1 & _).
    destruct (IH w1) as (r & w' & -> & Hout & Hreq & Hfiles).
    exists r, w'. split; [done|]. split; [congruence|]. split; [congruence|].
    intros p Hp. rewrite Hfiles, Hfiles1; done.
Qed.

Lemma load_comments_effects path w :
  ∃ comments w',
    load_comments path w = (Ok comments, w')
    ∧ files w' = files w
    ∧ requests w' = requests w
    ∧ (w' = w ∨ (comments = [] ∧ ∃ line, stdout w' = stdout w ++ [line])).
Proof.
  unfold load_comments, try_except, mbind, M_bind, read_file, lift_result,
    raise, print, of_class, mret, M_ret.
  destruct (endswith path ".csv").
  - destruct (files w !! path) as [[e|e|text]|].
    + case_bool_decide; eexists _, _; (split; [reflexivity|]);
        cbn [files stdout requests]; eauto 10.
    + case_bool_decide; eexists _, _; (split; [reflexivity|]);
        cbn [files stdout requests]; eauto 10.
    + destruct (DictReader text) as [cs|e].
      * eexists _, _; (split; [reflexivity|]); eauto.
      * case_bool_decide; eexists _, _; (split; [reflexivity|]);
          cbn [files stdout requests]; eauto 10.
    + cbn [exn_cls]. rewrite bool_decide_eq_true_2 by done.
      eexists _, _; (split; [reflexivity|]);
        cbn [files stdout requests]; eauto 10.
  - destruct (endswith path ".json").
    + destruct (files w !! path) as [[e|e|text]|].
      * case_bool_decide; eexists _, _; (split; [reflexivity|]);
          cbn [files stdout requests]; eauto 10.
      * case_bool_decide; eexists _, _; (split; [reflexivity|]);
          cbn [files stdout requests]; eauto 10.
      * destruct (json_loads text) as [[d [cs|]|cs|v]|e].
        -- eexists _, _; (split; [reflexivity|]); eauto.
        -- eexists _, _; (split; [reflexivity|]);
             cbn [files stdout requests]; eauto 10.
        -- eexists _, _; (split; [reflexivity|]); eauto.
        -- eexists _, _; (split; [reflexivity|]);
             cbn [files stdout requests]; eauto 10.
        -- case_bool_decide; eexists _, _; (split; [reflexivity|]);
             cbn [files stdout requests]; eauto 10.
      * cbn [exn_cls]. rewrite bool_decide_eq_true_2 by done.
        eexists _, _; (split; [reflexivity|]);
          cbn [files stdout requests]; eauto 10.
    + eexists _, _; (split; [reflexivity|]);
        cbn [files stdout requests]; eauto 10.
Qed.

Lemma export_report_effects analyzed_comments output_file w :
  ∃ w' line,
    export_report analyzed_comments output_file w = (Ok tt, w')
    ∧ stdout w' = stdout w ++ [line]
    ∧ requests w' = requests w
    ∧ (∀ p, p ≠ output_file → files w' !! p = files w !! p)
    ∧ (line = String "010" "Analyzed data exported to " +:+ output_file
       ∨ (line = "Unsupported output file format. Please use CSV or JSON."
          ∧ files w' = files w)
       ∨ ∃ e, line = "Error exporting data: " +:+ exn_str e).
Proof.
  unfold export_report, try_except, any_exception.
  destruct (endswith output_file ".csv").
  - unfold mbind at 1, M_bind at 1.
    destruct (open_write_frame output_file w)
      as ([[]|e] & w1 & -> & Hout1 & Hreq1 & Hfiles1).
    + unfold mbind at 1, M_bind at 1.
      destruct (file_write_frame output_file
                  (row_line (map PStr fieldnames)) w1)
        as (w2 & -> & Hout2 & Hreq2 & Hfiles2 & _).
      unfold mbind at 1, M_bind at 1.
      destruct (writerows_frame fieldnames output_file
                  (map fill_missing analyzed_comments) w2)
        as ([[]|e] & w3 & -> & Hout3 & Hreq3 & Hfiles3).
      * eexists _, _. unfold print. split; [reflexivity|].
        cbn [files stdout requests].
        split; [by rewrite Hout3, Hout2, Hout1|].
        split; [congruence|]. split; [|by left].
        intros p Hp. by rewrite Hfiles3, Hfiles2, Hfiles1.
      * eexists _, _. unfold print. split; [reflexivity|].
        cbn [files stdout requests].
        split; [by rewrite Hout3, Hout2, Hout1|].
        split; [congruence|]. split; [|right; right; by eexists].
        intros p Hp. by rewrite Hfiles3, Hfiles2, Hfiles1.
    + eexists _, _. unfold print. split; [reflexivity|].
      cbn [files stdout requests].
      split; [by rewrite Hout1|]. split; [done|].
      split; [|right; right; by eexists].
      intros p Hp. by rewrite Hfiles1.
  - destruct (endswith output_file ".json").
    + unfold mbind at 1, M_bind at 1.
      destruct (open_write_frame output_file w)
        as ([[]|e] & w1 & -> & Hout1 & Hreq1 & Hfiles1).
      * unfold mbind at 1, M_bind at 1.
        destruct (file_write_frame output_file (json_dumps analyzed_comments)
                    w1)
          as (w2 & -> & Hout2 & Hreq2 & Hfiles2 & _).
        eexists _, _. unfold print. split; [reflexivity|].
        cbn [files stdout requests].
        split; [by rewrite Hout2, Hout1|].
        split; [congruence|]. split; [|by left].
        intros p Hp. by rewrite Hfiles2, Hfiles1.
      * eexists _, _. unfold print. split; [reflexivity|].
        cbn [files stdout requests].
        split; [by rewrite Hout1|]. split; [done|].
        split; [|right; right; by eexists].
        intros p Hp. by rewrite Hfiles1.
    + eexists _, _. unfold print. split; [reflexivity|].
      cbn [files stdout requests]. repeat split; try done.
      right; left. done.
Qed.


(** X10: [export_report] never raises; it prints exactly one line, which
    reports the export, the unsupported format or the error; it sends no
    request; and apart from the output file the files are afterwards what
    they were before. *)
Theorem export_report_never_raises analyzed_comments output_file w :
  ∃ w' line,
    export_report analyzed_comments output_file w = (Ok tt, w')
    ∧ stdout w' = stdout w ++ [line]
    ∧ requests w' = requests w
    ∧ delete output_file (files w') = delete output_file (files w)
    ∧ (line = String "010" "Analyzed data exported to " +:+ output_file
       ∨ (line = "Unsupported output file format. Please use CSV or JSON."
          ∧ files w' = files w)
       ∨ ∃ e, line = "Error exporting data: " +:+ exn_str e).
Proof.
  destruct (export_report_effects analyzed_comments output_file w)
    as (w' & line & Hrun & Hout & Hreq & Hfiles & Hline).
  exists w', line. repeat split; try done.
  apply map_eq. intros p.
  destruct (decide (p = output_file)) as [->|Hp].
  - by rewrite !lookup_delete_eq.
  - rewrite !lookup_delete_ne by done. by apply Hfiles.
Qed.

End Safety.
End FilesSafety.

(** ** Exporting: rows that cannot be written, and reading the file back *)

Module ExportFacts.
Import Csv CsvFacts FilesFacts.
Local Open Scope list_scope.

(** *** The filling loop *)

Lemma fill_fold names : ∀ c k,
  items (fold_left (λ comment field,
                      if contains comment field then comment
                      else setitem field PNone comment) names c) !! k
  = match items c !! k with
    | Some v => Some v
    | None => if decide (k ∈ names) then Some PNone else None
    end
  ∧ surplus (fold_left (λ comment field,
                          if contains comment field then comment
                          else setitem field PNone comment) names c)
    = surplus c.
Proof.
  induction names as [|n names IH]; intros c k; cbn [fold_left].
  - split; [|done]. destruct (items c !! k); [done|].
    destruct (decide (k ∈ [])) as [Hin|]; [|done].
    by apply elem_of_nil in Hin.
  - destruct (IH (if contains c n then c else setitem n PNone c) k)
      as [-> ->].
    unfold contains. case_bool_decide as Hn.
    + split; [|done]. destruct (items c !! k) eqn:Hk; [done|].
      destruct (decide (k ∈ names)) as [Hin|Hout].
      * by rewrite decide_True by (by right).
      * rewrite decide_False; [done|].
        intros [->|?]%elem_of_cons; [|done].
        rewrite Hk in Hn. by destruct Hn.
    + split; [|done]. rewrite items_setitem.
      destruct (decide (k = n)) as [->|Hne].
      * rewrite lookup_insert_eq.
        destruct (items c !! n) eqn:Hk; [destruct Hn; by eexists|].
        by rewrite decide_True by (by left).
      * rewrite lookup_insert_ne by done.
        destruct (items c !! k); [done|].
        destruct (decide (k ∈ names)) as [Hin|Hout].
        -- by rewrite decide_True by (by right).
        -- rewrite decide_False; [done|].
           by intros [->|?]%elem_of_cons.
Qed.

Lemma fill_missing_lookup c k :
  items (fill_missing c) !! k
  = match items c !! k with
    | Some v => Some v
    | None => if decide (k ∈ fieldnames) then Some PNone else None
    end.
Proof. apply fill_fold. Qed.

Lemma surplus_fill_missing c : surplus (fill_missing c) = surplus c.
Proof. apply (fill_fold fieldnames c ""). Qed.

Lemma get_fill_missing c k : get (fill_missing c) k = get c k.
Proof.
  unfold get. rewrite fill_missing_lookup.
  destruct (items c !! k); [done|]. by case_decide.
Qed.

Lemma dom_fill_missing c :
  dom (items (fill_missing c)) ≡ dom (items c) ∪ list_to_set fieldnames.
Proof.
  intros k. rewrite elem_of_union, !elem_of_dom, elem_of_list_to_set.
  rewrite fill_missing_lookup.
  destruct (items c !! k) eqn:Hk.
  - split; [left|]; by eexists.
  - case_decide as Hin.
    + split; [by right|by eexists].
    + split; [by intros [? ?]|]. intros [[? ?]|?]; done.
Qed.

Lemma row_values_fill_missing c :
  row_values fieldnames (fill_missing c) = map (get c) fieldnames.
Proof.
  unfold row_values. apply map_ext_in. intros k Hk%list_elem_of_In.
  unfold get_or. rewrite fill_missing_lookup.
  unfold get. destruct (items c !! k); [done|].
  by rewrite decide_True.
Qed.

(** A filled comment can be written exactly when the comment holds no
    key beside the field names. *)
Lemma dict_to_list_fill_missing c :
  dict_to_list fieldnames (fill_missing c)
  = if bool_decide (dom (items c) ⊆ list_to_set fieldnames)
       && bool_decide (surplus c = None)
    then Ok (map (get c) fieldnames)
    else Raise (Exn ValueError "dict contains fields not in fieldnames").
Proof.
  unfold dict_to_list. rewrite surplus_fill_missing.
  fold (row_values fieldnames (fill_missing c)).
  rewrite row_values_fill_missing.
  assert (Hdom : dom (items (fill_missing c)) ⊆ list_to_set fieldnames
                 ↔ dom (items c) ⊆ list_to_set fieldnames).
  { rewrite dom_fill_missing. split.
    - intros Hs k Hk. apply Hs, elem_of_union. by left.
    - intros Hs k [Hk|Hk]%elem_of_union; [by apply Hs|done]. }
  by rewrite (bool_decide_ext _ _ Hdom).
Qed.

Section Exporting.
Context `{Externals}.

(** *** A comment that cannot be written *)

Lemma writerows_stops names path good bad rest e : ∀ w text,
  files w !! path = Some (Contents text) →
  Forall (λ c, dict_to_list names c = Ok (row_values names c)) good →
  dict_to_list names bad = Raise e →
  ∃ text',
    writerows names path (good ++ bad :: rest) w
    = (Raise e, World (<[path := Contents text']> (files w)) (stdout w)
                  (requests w))
    ∧ list_ascii_of_string text'
      = list_ascii_of_string text
        ++ concat (map (λ c, list_ascii_of_string
                               (row_line (row_values names c))) good).
Proof.
  induction good as [|c good IH]; intros w text Hfile Hgood Hbad.
  - exists text. split; [|by rewrite app_nil_r].
    cbn [app writerows]. unfold mbind, M_bind, lift_result. rewrite Hbad.
    destruct w as [fs out rq]; cbn [files stdout requests] in *.
    by rewrite insert_id.
  - apply Forall_cons in Hgood as [Hc Hgood].
    cbn [app writerows]. unfold mbind, M_bind, lift_result, file_write.
    rewrite Hc, Hfile.
    match goal with
    | |- context [writerows names path (good ++ bad :: rest) ?w1] =>
        destruct (IH w1 (text +:+ row_line (row_values names c)))
          as (text' & Hrun & Htext);
          [cbn [files]; by rewrite lookup_insert_eq|done..|]
    end.
    exists text'. split.
    + rewrite Hrun. cbn [files stdout requests].
      by rewrite insert_insert_eq.
    + rewrite Htext, list_ascii_of_string_app. cbn [map concat].
      by rewrite <- app_assoc.
Qed.

(** X11: when a comment holds a key that is no field name of the export
    (a column of the input file beside the seven, or fields beyond the
    header), the CSV export does not raise: it prints a line that starts
    with "Error exporting data: ", and the output file is left with the
    header and the rows of the comments before the first such comment. *)
Theorem export_report_stops_at_unknown_key good bad rest output_file w :
  endswith output_file ".csv" = true →
  (∀ e, files w !! output_file ≠ Some (NoAccess e)) →
  Forall (λ c, dom (items c) ⊆ list_to_set fieldnames ∧ surplus c = None)
    good →
  dom (items bad) ⊈ list_to_set fieldnames ∨ surplus bad ≠ None →
  ∃ text e,
    export_report (good ++ bad :: rest) output_file w
    = (Ok tt,
       World (<[output_file := Contents text]> (files w))
         (stdout w ++ ["Error exporting data: " +:+ exn_str e])
         (requests w))
    ∧ list_ascii_of_string text
      = concat (map writerow
                  (map list_ascii_of_string fieldnames
                   :: map (λ c, map (λ k, list_ascii_of_string
                                           (field_text (get c k)))
                                  fieldnames) good)).
Proof.
  intros Hext Hopen Hgood Hbad.
  set (w1 := World (<[output_file := Contents ""]> (files w)) (stdout w)
               (requests w)).
  set (head := row_line (map PStr fieldnames)).
  set (w2 := World (<[output_file := Contents ("" +:+ head)]> (files w1))
               (stdout w1) (requests w1)).
  set (e := Exn ValueError "dict contains fields not in fieldnames").
  destruct (writerows_stops fieldnames output_file (map fill_missing good)
              (fill_missing bad) (map fill_missing rest) e w2 ("" +:+ head))
    as (text & Hrun & Htext).
  { apply lookup_insert_eq. }
  { apply Forall_fmap. eapply Forall_impl; [exact Hgood|].
    intros c [Hdom Hs]. unfold compose; cbv beta.
    rewrite dict_to_list_fill_missing, row_values_fill_missing.
    by rewrite !bool_decide_eq_true_2. }
  { rewrite dict_to_list_fill_missing.
    destruct Hbad as [Hdom|Hs].
    - by rewrite (bool_decide_eq_false_2 _ Hdom).
    - by rewrite (bool_decide_eq_false_2 _ Hs), andb_false_r. }
  exists text, e. split.
  - unfold export_report, try_except. rewrite Hext.
    rewrite (bind_ok _ _ w tt w1) by (by apply open_write_ok).
    rewrite (bind_ok _ _ w1 tt w2)
      by (apply file_write_ok, lookup_insert_eq).
    rewrite map_app, map_cons.
    unfold mbind at 1, M_bind at 1. rewrite Hrun.
    unfold any_exception, print. cbn [files stdout requests w1 w2].
    by rewrite !insert_insert_eq.
  - rewrite Htext. change ("" +:+ head) with head.
    unfold head. rewrite row_line_ascii. cbn [concat map].
    f_equal. rewrite !map_map. f_equal. apply map_ext. intros c.
    by rewrite row_line_ascii, row_values_fill_missing, map_map.
Qed.

(** *** Reading an exported file back *)

Lemma fieldnames_texts :
  map string_of_list_ascii (map list_ascii_of_string fieldnames) = fieldnames.
Proof. reflexivity. Qed.

Lemma row_dict_fieldnames_texts (f : string → string) :
  surplus (row_dict fieldnames (map f fieldnames)) = None
  ∧ dom (items (row_dict fieldnames (map f fieldnames)))
    = list_to_set fieldnames
  ∧ ∀ k, k ∈ fieldnames →
         items (row_dict fieldnames (map f fieldnames)) !! k
         = Some (PStr (f k)).
Proof.
  split; [reflexivity|]. split; [vm_compute; reflexivity|].
  intros k Hk. unfold fieldnames in Hk.
  repeat (apply elem_of_cons in Hk as [->|Hk]; [vm_compute; reflexivity|]).
  by apply elem_of_nil in Hk.
Qed.

Lemma row_dict_fieldnames c :
  reloaded_from c
    (row_dict fieldnames (map (λ k, field_text (get c k)) fieldnames)).
Proof. apply (row_dict_fieldnames_texts (λ k, field_text (get c k))). Qed.

Lemma export_then_load analyzed_comments output_file w :
  endswith output_file ".csv" = true →
  (∀ e, files w !! output_file ≠ Some (NoAccess e)) →
  Forall exportable analyzed_comments →
  ∃ w1 comments',
    export_report analyzed_comments output_file w = (Ok tt, w1)
    ∧ load_comments output_file w1 = (Ok comments', w1)
    ∧ Forall2 reloaded_from analyzed_comments comments'.
Proof.
  intros Hext Hopen Hall.
  destruct (export_report_csv output_file analyzed_comments w Hext Hopen)
    as (text & Hexport & Htext).
  { apply Forall_fmap. eapply Forall_impl; [exact Hall|].
    intros c (Hdom & Hs & _). unfold compose; cbv beta.
    rewrite dict_to_list_fill_missing, row_values_fill_missing.
    by rewrite !bool_decide_eq_true_2. }
  set (texts := λ c : dict, map (λ k, field_text (get c k)) fieldnames).
  assert (Hwritten :
    list_ascii_of_string text
    = concat (map writerow
                (map list_ascii_of_string fieldnames
                 :: map (λ c, map list_ascii_of_string (texts c))
                      analyzed_comments))).
  { rewrite Htext. do 3 f_equal. apply map_ext. intros c.
    unfold texts. by rewrite row_values_fill_missing, !map_map. }
  assert (Hrecords :
    records text = Ok (fieldnames :: map texts analyzed_comments)).
  { unfold records. rewrite Hwritten, reader_rows_writerow.
    - unfold mbind, result_bind. f_equal. rewrite map_cons. f_equal.
      rewrite map_map. apply map_ext. intros c. rewrite map_map.
      rewrite <- (map_id (texts c)) at 2. apply map_ext. intros t.
      apply string_of_list_ascii_of_string.
    - constructor; [by repeat constructor|].
      apply Forall_fmap. eapply Forall_impl; [exact Hall|].
      intros c (_ & _ & Hfits). unfold compose, texts; cbv beta.
      rewrite map_map. by apply Forall_fmap. }
  eexists _, (map (λ c, row_dict fieldnames (texts c)) analyzed_comments).
  split; [exact Hexport|]. split.
  - apply (load_comments_csv _ text); [done| |].
    + cbn [files]. by rewrite lookup_insert_eq.
    + unfold DictReader, mbind, result_bind. rewrite Hrecords.
      rewrite filter_all, map_map; [done|].
      apply Forall_fmap, Forall_true. intros c. unfold compose, texts.
      discriminate.
  - apply Forall2_fmap_r, Forall_Forall2_diag, Forall_true.
    intros c. apply row_dict_fieldnames.
Qed.

(** X12: comments whose keys are among the seven field names, with field
    texts within the reader's limit, are exported to a CSV file that can
    be opened and loaded again without error; the loaded comments are as
    many, in the same order, each with exactly the seven keys, and each
    value is the text of the exported value: the value itself for a
    string, nothing for [None] or an absent key, [str(value)] for a
    number or a boolean. *)
Theorem export_then_load_gives_texts analyzed_comments output_file w :
  endswith output_file ".csv" = true →
  (∀ e, files w !! output_file ≠ Some (NoAccess e)) →
  Forall exportable analyzed_comments →
  ∃ w1 comments',
    export_report analyzed_comments output_file w = (Ok tt, w1)
    ∧ load_comments output_file w1 = (Ok comments', w1)
    ∧ Forall2 (λ c c',
        surplus c' = None
        ∧ dom (items c') = list_to_set fieldnames
        ∧ ∀ k, k ∈ fieldnames →
            get c' k
            = PStr match get c k with
                   | PNone => ""
                   | PStr s => s
                   | v => py_str v
                   end) analyzed_comments comments'.
Proof.
  intros Hext Hopen Hall.
  destruct (export_then_load analyzed_comments output_file w Hext Hopen Hall)
    as (w1 & comments' & Hexport & Hload & Hfrom).
  exists w1, comments'. split; [done|]. split; [done|].
  eapply Forall2_impl; [exact Hfrom|].
  intros c c' (Hs & Hdom & Hk). split; [done|]. split; [done|].
  intros k Hin. unfold get at 1. rewrite (Hk k Hin). simpl.
  unfold field_text. by destruct (get c k).
Qed.

(** X13: in a file that was exported and loaded again, a comment counts
    as offensive exactly when the text written for its [is_offensive] is
    not empty.  So it does whenever [is_offensive] was a boolean, [False]
    included: the loaded value is the text "True" or "False", and both are
    truthy.  It does not when [is_offensive] was [None], absent or the
    empty string. *)
Theorem reloaded_false_is_offensive analyzed_comments output_file w :
  endswith output_file ".csv" = true →
  (∀ e, files w !! output_file ≠ Some (NoAccess e)) →
  Forall exportable analyzed_comments →
  ∃ w1 comments',
    export_report analyzed_comments output_file w = (Ok tt, w1)
    ∧ load_comments output_file w1 = (Ok comments', w1)
    ∧ Forall2 (λ c c',
        Report.is_offensive c'
        = negb (String.eqb (field_text (get c "is_offensive")) "")
        ∧ (∀ b, get c "is_offensive" = PBool b → Report.is_offensive c' = true)
        ∧ (get c "is_offensive" = PNone → Report.is_offensive c' = false)
        ∧ (get c "is_offensive" = PStr "" → Report.is_offensive c' = false))
        analyzed_comments comments'.
Proof.
  intros Hext Hopen Hall.
  destruct (export_then_load analyzed_comments output_file w Hext Hopen Hall)
    as (w1 & comments' & Hexport & Hload & Hfrom).
  exists w1, comments'. split; [done|]. split; [done|].
  eapply Forall2_impl; [exact Hfrom|].
  intros c c' (_ & _ & Hk).
  assert (Hv : get c' "is_offensive"
               = PStr (field_text (get c "is_offensive"))).
  { unfold get at 1. rewrite Hk; [done|]. unfold fieldnames.
    do 3 right. by left. }
  unfold Report.is_offensive. rewrite Hv. split; [done|]. split; [|split].
  - intros b ->. by destruct b.
  - by intros ->.
  - by intros ->.
Qed.

End Exporting.
End ExportFacts.

(** ** The program as a whole *)

Module MainFacts.
Import Report ReportFacts ReportShape PipelineFacts FilesSafety ExportFacts Main.
Local Open Scope list_scope.

(** *** The report after an export *)

Lemma is_offensive_fill_missing c :
  is_offensive (fill_missing c) = is_offensive c.
Proof. unfold is_offensive. by rewrite get_fill_missing. Qed.

Lemma filter_offensive_fill_missing l :
  filter (λ c, is_offensive c = true) (map fill_missing l)
  = map fill_missing (filter (λ c, is_offensive c = true) l).
Proof.
  induction l as [|c l IH]; [done|].
  cbn [map]. rewrite !filter_cons, is_offensive_fill_missing.
  case_decide; [cbn [map]|]; by rewrite IH.
Qed.

Lemma sort_key_fill_missing c :
  is_Some (items c !! "severity") → sort_key (fill_missing c) = sort_key c.
Proof.
  intros [v Hv]. unfold sort_key, get_or.
  by rewrite fill_missing_lookup, Hv.
Qed.

(** A null severity among two or more offensive comments. *)
Lemma null_key_no_report cs c :
  c ∈ cs → is_offensive c = true → sort_key c = PNone →
  (2 ≤ length (filter (λ c, is_offensive c = true) cs))%nat →
  generate_report_json cs = None.
Proof.
  intros Hc Ho Hkey Hlen.
  destruct (generate_report_json cs) eqn:Hr; [|done]. exfalso.
  assert (Hsome : is_Some (generate_report_json cs)) by by eexists.
  apply report_of_sorted, sorted_desc_exists in Hsome
    as [Hlt|[Hnum|Hstr]]; [lia|..].
  - rewrite Forall_forall in Hnum.
    destruct (Hnum c) as [z Hz]; [by apply list_elem_of_filter|].
    by rewrite Hkey in Hz.
  - rewrite Forall_forall in Hstr.
    destruct (Hstr c) as [s Hs]; [by apply list_elem_of_filter|].
    by rewrite Hkey in Hs.
Qed.

Section Program.
Context `{Externals} `{Reporting}.

(** *** display_summary, save_report_json, plot_offense_distribution *)

Lemma print_samples_effects sample : ∀ i w,
  print_samples i sample w
  = (Ok tt, World (files w)
              (stdout w ++ imap (λ j, sample_line (i + j)) sample)
              (requests w)).
Proof.
  induction sample as [|c sample IH]; intros i w.
  - cbn [print_samples imap]. rewrite app_nil_r. by destruct w.
  - cbn [print_samples imap]. unfold mbind, M_bind, print.
    rewrite IH. cbn [files stdout requests].
    rewrite Nat.add_0_r, <- app_assoc. do 2 f_equal. cbn [app]. do 2 f_equal.
    apply imap_ext. intros j x _. unfold compose. f_equal. lia.
Qed.

Lemma display_summary_effects comments w :
  display_summary comments w
  = (Ok tt,
     World (files w)
       (stdout w
        ++ ("Total number of comments loaded: " +:+ pretty (length comments))
           :: (if bool_decide (comments ≠ [])
               then String "010" "Sample of the first 5 comments:"
                    :: imap sample_line (take 5 comments)
               else ["No comments to display."]))
       (requests w)).
Proof.
  unfold display_summary, mbind, M_bind, print.
  case_bool_decide.
  - rewrite print_samples_effects. cbn [files stdout requests].
    by rewrite <- !app_assoc.
  - cbn [files stdout requests]. by rewrite <- !app_assoc.
Qed.

Lemma save_report_json_effects report_data output_file w :
  ∃ w' line,
    save_report_json report_data output_file w = (Ok tt, w')
    ∧ stdout w' = stdout w ++ [line]
    ∧ requests w' = requests w
    ∧ (∀ p, p ≠ output_file → files w' !! p = files w !! p)
    ∧ ((line = String "010" "Offensive comment report saved to: "
               +:+ output_file
        ∧ files w' !! output_file = Some (Contents (report_dumps report_data)))
       ∨ ((∃ e, line = "Error saving JSON report: " +:+ exn_str e)
          ∧ files w' = files w)).
Proof.
  unfold save_report_json, try_except, any_exception, mbind, M_bind,
    open_write, file_write, print.
  destruct (files w !! output_file) as [[e|e|text]|] eqn:Hf;
    cbn [files stdout requests]; rewrite ?lookup_insert_eq;
    eexists _, _; (split; [reflexivity|]); cbn [files stdout requests];
    (split; [done|]); (split; [done|]).
  - split; [done|]. right. split; [by eexists|done].
  - split; [intros p Hp; by rewrite !lookup_insert_ne|].
    left. split; [done|]. by rewrite lookup_insert_eq.
  - split; [intros p Hp; by rewrite !lookup_insert_ne|].
    left. split; [done|]. by rewrite lookup_insert_eq.
  - split; [intros p Hp; by rewrite !lookup_insert_ne|].
    left. split; [done|]. by rewrite lookup_insert_eq.
Qed.

Lemma plot_filter cs :
  map (λ c, get c "offense_type")
    (filter (λ c, truthy (get c "is_offensive")
                  && truthy (get c "offense_type") = true) cs)
  = map (λ c, get c "offense_type")
      (filter (λ c, truthy (get c "offense_type") = true)
         (filter (λ c, is_offensive c = true) cs)).
Proof.
  induction cs as [|c cs IH]; [done|].
  rewrite !filter_cons.
  destruct (decide (is_offensive c = true)) as [Ho|Ho].
  - rewrite filter_cons. unfold is_offensive in Ho. rewrite Ho, andb_true_l.
    destruct (decide (truthy (get c "offense_type") = true)) as [Ht|Ht].
    + cbn [map]. by rewrite IH.
    + done.
  - rewrite decide_False; [done|].
    unfold is_offensive in Ho. intros [? _]%andb_true_iff. done.
Qed.

Lemma plot_offense_distribution_effects cs w :
  ∃ r w',
    plot_offense_distribution cs w = (r, w')
    ∧ files w' = files w ∧ requests w' = requests w.
Proof.
  unfold plot_offense_distribution, lift_result, print.
  case_bool_decide; eexists _, _; split; reflexivity || done.
Qed.

(** X14: [display_summary] never raises and only prints: the number of
    comments, then either "No comments to display." or a heading and one
    line for each of the first five comments, numbered from 1, with the
    identifier, the user and the text of the comment. *)
Theorem display_summary_prints_sample comments w :
  ∃ lines,
    display_summary comments w
    = (Ok tt, World (files w) (stdout w ++ lines) (requests w))
    ∧ lines !! 0%nat
      = Some ("Total number of comments loaded: " +:+ pretty (length comments))
    ∧ length lines
      = (if bool_decide (comments = []) then 2
         else 2 + length comments `min` 5)%nat
    ∧ (comments = [] → lines !! 1%nat = Some "No comments to display.")
    ∧ ∀ i c, (i < 5)%nat → comments !! i = Some c →
        lines !! (2 + i)%nat
        = Some ("  " +:+ pretty (i + 1)%nat +:+ ". ID: "
                +:+ py_str (get c "comment_id") +:+ ", User: "
                +:+ py_str (get c "username") +:+ ", Comment: "
                +:+ py_str (get c "comment_text")).
Proof.
  eexists. split; [apply display_summary_effects|].
  split; [done|]. destruct comments as [|c0 comments].
  - rewrite bool_decide_eq_false_2 by (by intros ?).
    rewrite bool_decide_eq_true_2 by done.
    repeat split; done.
  - rewrite bool_decide_eq_true_2 by done.
    rewrite bool_decide_eq_false_2 by done.
    split; [|split; [done|]].
    + cbn [length]. rewrite length_imap, length_take. cbn [length]. lia.
    + intros i c Hi Hc. cbn [lookup list_lookup Nat.add].
      change (imap sample_line (take 5 (c0 :: comments)) !! i
              = Some (sample_line i c)).
      rewrite list_lookup_imap, lookup_take_lt by done. by rewrite Hc.
Qed.

(** X15: [save_report_json] never raises; it prints exactly one line
    and sends no request; apart from its output file the files are
    afterwards what they were before; the output file then holds the text
    of the report, unless it cannot be opened: then the line reports the
    error and no file is changed. *)
Theorem save_report_json_never_raises report_data output_file w :
  ∃ w' line,
    save_report_json report_data output_file w = (Ok tt, w')
    ∧ stdout w' = stdout w ++ [line]
    ∧ requests w' = requests w
    ∧ delete output_file (files w') = delete output_file (files w)
    ∧ ((line = String "010" "Offensive comment report saved to: "
               +:+ output_file
        ∧ files w' !! output_file = Some (Contents (report_dumps report_data)))
       ∨ ((∃ e, line = "Error saving JSON report: " +:+ exn_str e)
          ∧ files w' = files w)).
Proof.
  destruct (save_report_json_effects report_data output_file w)
    as (w' & line & Hrun & Hout & Hreq & Hfiles & Hline).
  exists w', line. repeat split; try done.
  apply map_eq. intros p.
  destruct (decide (p = output_file)) as [->|Hp].
  - by rewrite !lookup_delete_eq.
  - rewrite !lookup_delete_ne by done. by apply Hfiles.
Qed.

Lemma Counter_nil l : Counter l = [] ↔ l = [].
Proof.
  split; [|by intros ->]. intros Hnil.
  assert (Hlen : length l = 0%nat)
    by (by rewrite <- (Counter_sum l), Hnil).
  by destruct l.
Qed.

(** X16: the chart of [plot_offense_distribution] shows the
    [offense_type_breakdown] of the report on the same comments: the same
    offense types in the same order, with the same counts.  Nothing is
    drawn, and a line is printed instead, exactly when no offensive
    comment has a truthy offense type. *)
Theorem plot_shows_report_breakdown cs r w :
  generate_report_json cs = Some r →
  plot_offense_distribution cs w
  = (if bool_decide (offense_type_breakdown r ≠ []) then
       (show_bar_chart (map fst (offense_type_breakdown r))
          (map snd (offense_type_breakdown r)), w)
     else
       (Ok tt,
        World (files w)
          (stdout w ++ ["No offensive comments found to plot distribution."])
          (requests w)))
  ∧ (offense_type_breakdown r = []
     ↔ Forall (λ c, ¬ (is_offensive c = true
                       ∧ truthy (get c "offense_type") = true)) cs).
Proof.
  intros Hr. rewrite (generate_report_json_breakdown cs r Hr).
  unfold plot_offense_distribution, breakdown. rewrite plot_filter.
  split; [by case_bool_decide|].
  rewrite Counter_nil. split.
  - intros Hnil%fmap_nil_inv. apply Forall_forall. intros c Hc [Ho Ht].
    assert (Hin : c ∈ filter (λ c, truthy (get c "offense_type") = true)
                      (filter (λ c, is_offensive c = true) cs))
      by (by rewrite !list_elem_of_filter).
    rewrite Hnil in Hin. by apply elem_of_nil in Hin.
  - intros Hall.
    assert (Hnil : filter (λ c, truthy (get c "offense_type") = true)
                     (filter (λ c, is_offensive c = true) cs) = []).
    { apply elem_of_nil_inv. intros c Hc.
      rewrite !list_elem_of_filter in Hc. destruct Hc as (Ht & Ho & Hc).
      rewrite Forall_forall in Hall. by apply (Hall c). }
    by rewrite Hnil.
Qed.

(** *** main *)

Lemma bind_raise {A B} (m : M A) (f : A → M B) w e w' :
  m w = (Raise e, w') → (m ≫= f) w = (Raise e, w').
Proof. intros Hm. unfold mbind, M_bind. by rewrite Hm. Qed.

(** The steps of [main] after the report: saving it and drawing. *)
Lemma main_tail_effects a report_data exported_comments w :
  ∃ r w',
    ((_ ← (if report_json_output a
           then save_report_json report_data (report_json_output_file a)
           else mret tt);
      if plot_chart a then plot_offense_distribution exported_comments
      else mret tt) : M unit) w = (r, w')
    ∧ requests w' = requests w
    ∧ (∀ p, report_json_output a = false ∨ p ≠ report_json_output_file a →
            files w' !! p = files w !! p).
Proof.
  assert (Hsave : ∃ w1,
    (if report_json_output a
     then save_report_json report_data (report_json_output_file a)
     else mret tt) w = (Ok tt, w1)
    ∧ requests w1 = requests w
    ∧ (∀ p, report_json_output a = false ∨ p ≠ report_json_output_file a →
            files w1 !! p = files w !! p)).
  { destruct (report_json_output a).
    - destruct (save_report_json_effects report_data
                  (report_json_output_file a) w)
        as (w1 & line & Hrun & _ & Hreq & Hfiles & _).
      exists w1. split; [done|]. split; [done|].
      intros p [?|Hp]; [done|by apply Hfiles].
    - by exists w. }
  destruct Hsave as (w1 & Hrun1 & Hreq1 & Hfiles1).
  rewrite (FilesFacts.bind_ok _ _ w tt w1 Hrun1).
  destruct (plot_chart a).
  - destruct (plot_offense_distribution_effects exported_comments w1)
      as (r & w' & -> & Hfiles & Hreq).
    exists r, w'. split; [done|]. split; [congruence|].
    intros p Hp. rewrite Hfiles. by apply Hfiles1.
  - by exists (Ok tt), w1.
Qed.

Lemma main_effects a w :
  ∃ comments w0 r w',
    load_comments (input_file a) w = (Ok comments, w0)
    ∧ main a w = (r, w')
    ∧ requests w'
      = requests w
        ++ map text_of
             (filter (λ c, prefiltered c = false)
                (if pre_filter a then map pre_filter_one comments
                 else comments))
    ∧ (∀ p, p ≠ output_file a →
            report_json_output a = false ∨ p ≠ report_json_output_file a →
            files w' !! p = files w !! p)
    ∧ (comments = [] → r = Ok tt ∧ files w' = files w).
Proof.
  destruct (load_comments_effects (input_file a) w)
    as (comments & w0 & Hload & Hfiles0 & Hreq0 & _).
  exists comments, w0. unfold main.
  rewrite (FilesFacts.bind_ok _ _ w comments w0 Hload).
  case_bool_decide as Hne.
  2:{ subst comments.
      eexists _, _. unfold print. split; [done|]. split; [reflexivity|].
      cbn [files stdout requests]. destruct (pre_filter a); cbn [map];
        rewrite filter_nil, app_nil_r; repeat split; try done;
        intros; by rewrite Hfiles0. }
  rewrite (FilesFacts.bind_ok _ _ w0 tt _ (display_summary_effects comments w0)).
  match goal with
  | |- context [(process_comments comments (pre_filter a) ≫= _) ?w1] =>
      destruct (process_comments_effects comments (pre_filter a) w1)
        as (analyzed & w2 & Hrun & Hfiles2 & Hreq2 & _);
      rewrite (FilesFacts.bind_ok _ _ w1 analyzed w2 Hrun)
  end.
  cbn [files stdout requests] in Hfiles2, Hreq2.
  unfold mbind at 1, M_bind at 1, after_export.
  set (exported_comments :=
         if endswith (output_file a) ".csv"
         then match files w2 !! output_file a with
              | Some (NoAccess _) => analyzed
              | _ => map fill_missing analyzed
              end
         else analyzed).
  destruct (export_report_effects analyzed (output_file a) w2)
    as (w3 & line & Hexport & _ & Hreq3 & Hfiles3 & _).
  rewrite (FilesFacts.bind_ok _ _ w2 tt w3 Hexport).
  assert (Hreq : requests w3
                 = requests w
                   ++ map text_of
                        (filter (λ c, prefiltered c = false)
                           (if pre_filter a then map pre_filter_one comments
                            else comments))) by congruence.
  assert (Hfiles : ∀ p, p ≠ output_file a → files w3 !! p = files w !! p).
  { intros p Hp. rewrite Hfiles3 by done. congruence. }
  unfold report_of.
  destruct (generate_report_json exported_comments) as [report_data|].
  - rewrite (FilesFacts.bind_ok _ _ w3 report_data w3) by done.
    destruct (main_tail_effects a report_data exported_comments w3)
      as (r & w' & -> & Hreq' & Hfiles').
    exists r, w'. split; [done|]. split; [done|]. split; [congruence|].
    split; [|done]. intros p Hp Hq. rewrite Hfiles' by done. by apply Hfiles.
  - erewrite bind_raise by reflexivity.
    eexists _, w3. split; [done|]. split; [reflexivity|].
    split; [done|]. split; [|done]. intros p Hp _. by apply Hfiles.
Qed.

(** X17: in a run of [main] that loads comments, shows the summary and
    analyses them, exactly one classification request is sent for each
    loaded comment that is not marked as offensive profanity, by the file
    it came from or by the pre-filter, in the order of the file; nothing
    that follows sends a request, whether the export fails, the report
    raises or the run ends normally. *)
Theorem main_one_request_per_comment a w comments w0 w1 analyzed w2 r w' :
  load_comments (input_file a) w = (Ok comments, w0) →
  comments ≠ [] →
  display_summary comments w0 = (Ok tt, w1) →
  process_comments comments (pre_filter a) w1 = (Ok analyzed, w2) →
  main a w = (r, w') →
  requests w'
  = requests w
    ++ map text_of
         (filter (λ c, prefiltered c = false)
            (if pre_filter a then map pre_filter_one comments
             else comments)).
Proof.
  intros Hload _ _ _ Hmain.
  destruct (main_effects a w)
    as (comments' & w0' & r' & w'' & Hload' & Hmain' & Hreq & _).
  rewrite Hload in Hload'. injection Hload' as <- <-.
  rewrite Hmain in Hmain'. by injection Hmain' as <- <-.
Qed.

(** X18: [main] writes no file beside the output file and, with
    [--report_json], the report file; every other path holds after the
    run what it held before, whether the run ends normally or raises. *)
Theorem main_writes_only_its_outputs a w r w' p :
  main a w = (r, w') →
  p ≠ output_file a →
  report_json_output a = false ∨ p ≠ report_json_output_file a →
  files w' !! p = files w !! p.
Proof.
  intros Hmain Hp Hq.
  destruct (main_effects a w)
    as (comments & w0 & r0 & w0' & _ & Hrun & _ & Hfiles & _).
  rewrite Hrun in Hmain. injection Hmain as <- <-. by apply Hfiles.
Qed.

(** X19: when [load_comments] returns no comment (a missing or malformed
    file, an unsupported format, a file without records), [main] ends
    normally after the line "No comments loaded. Exiting."; it prints
    nothing else beyond what the load printed, sends no request and
    changes no file. *)
Theorem main_exits_without_comments a w w0 :
  load_comments (input_file a) w = (Ok [], w0) →
  main a w
  = (Ok tt,
     World (files w) (stdout w0 ++ ["No comments loaded. Exiting."])
       (requests w)).
Proof.
  intros Hload.
  destruct (load_comments_effects (input_file a) w)
    as (comments & w0' & Hload' & Hfiles0 & Hreq0 & _).
  rewrite Hload in Hload'. injection Hload' as <- <-.
  unfold main. rewrite (FilesFacts.bind_ok _ _ w [] w0 Hload).
  rewrite bool_decide_eq_false_2 by (by intros ?).
  unfold print. by rewrite Hfiles0, Hreq0.
Qed.

(** X20: a reply that marks a comment offensive with a null severity
    ends [main] with the [TypeError] of [sorted] as soon as a second
    comment is offensive.  The analysis has been exported by then; no
    report is saved and no chart is drawn. *)
Theorem main_raises_after_export a w comments w0 w1 analyzed w2 c :
  load_comments (input_file a) w = (Ok comments, w0) →
  comments ≠ [] →
  display_summary comments w0 = (Ok tt, w1) →
  process_comments comments (pre_filter a) w1 = (Ok analyzed, w2) →
  c ∈ analyzed →
  is_offensive c = true →
  get c "severity" = PNone →
  (2 ≤ length (filter (λ c, is_offensive c = true) analyzed))%nat →
  ∃ w3 e,
    export_report analyzed (output_file a) w2 = (Ok tt, w3)
    ∧ main a w = (Raise e, w3)
    ∧ exn_cls e = TypeError.
Proof.
  intros Hload Hne Hshow Hrun Hc Ho Hsev Hlen.
  destruct (process_comments_effects comments (pre_filter a) w1)
    as (analyzed' & w2' & Hrun' & _ & _ & Hall).
  rewrite Hrun in Hrun'. injection Hrun' as <- <-.
  assert (Hpresent : is_Some (items c !! "severity")).
  { apply list_elem_of_lookup_1 in Hc as [i Hi].
    destruct (Forall2_lookup_r _ _ _ _ _ Hall Hi)
      as (c0 & _ & _ & _ & _ & _ & Hs). done. }
  assert (Hkey : sort_key c = PNone).
  { unfold sort_key, get_or. unfold get in Hsev.
    destruct Hpresent as [v Hv]. rewrite Hv in *. done. }
  destruct (export_report_effects analyzed (output_file a) w2)
    as (w3 & line & Hexport & _).
  exists w3. eexists. split; [done|].
  unfold main. rewrite (FilesFacts.bind_ok _ _ w comments w0 Hload).
  rewrite bool_decide_eq_true_2 by done.
  rewrite (FilesFacts.bind_ok _ _ w0 tt w1 Hshow).
  rewrite (FilesFacts.bind_ok _ _ w1 analyzed w2 Hrun).
  unfold mbind at 1, M_bind at 1, after_export.
  set (exported_comments :=
         if endswith (output_file a) ".csv"
         then match files w2 !! output_file a with
              | Some (NoAccess _) => analyzed
              | _ => map fill_missing analyzed
              end
         else analyzed).
  rewrite (FilesFacts.bind_ok _ _ w2 tt w3 Hexport).
  assert (Hfilled : generate_report_json (map fill_missing analyzed) = None).
  { apply (null_key_no_report _ (fill_missing c)).
    - apply list_elem_of_fmap. by exists c.
    - by rewrite is_offensive_fill_missing.
    - by rewrite sort_key_fill_missing.
    - by rewrite filter_offensive_fill_missing, length_map. }
  assert (Hnone : generate_report_json exported_comments = None).
  { unfold exported_comments.
    destruct (endswith (output_file a) ".csv");
      [|by apply (null_key_no_report _ c)].
    destruct (files w2 !! output_file a) as [[e| |]|]; try done.
    by apply (null_key_no_report _ c). }
  unfold report_of. rewrite Hnone.
  erewrite bind_raise by reflexivity. done.
Qed.

(** X25: when the report can be generated from the analysed comments as
    the export left them, [main] called with [--report_json] and without
    [--plot] ends normally; the report counts every loaded comment, and
    the report file holds its text unless it cannot be opened. *)
Theorem main_reports_every_loaded_comment a w comments w0 w1 analyzed w2
    exported_comments r :
  load_comments (input_file a) w = (Ok comments, w0) →
  comments ≠ [] →
  display_summary comments w0 = (Ok tt, w1) →
  process_comments comments (pre_filter a) w1 = (Ok analyzed, w2) →
  after_export analyzed (output_file a) w2 = (Ok exported_comments, w2) →
  generate_report_json exported_comments = Some r →
  report_json_output a = true →
  plot_chart a = false →
  ∃ w3 w',
    export_report analyzed (output_file a) w2 = (Ok tt, w3)
    ∧ main a w = (Ok tt, w')
    ∧ total_comments r = length comments
    ∧ num_offensive_comments r
      = length (filter (λ c, is_offensive c = true) analyzed)
    ∧ (files w' !! report_json_output_file a
       = Some (Contents (report_dumps r))
       ∨ files w' = files w3).
Proof.
  intros Hload Hne Hshow Hrun Hafter Hr Hjson Hplot.
  destruct (process_comments_effects comments (pre_filter a) w1)
    as (analyzed' & w2' & Hrun' & _ & _ & Hall).
  rewrite Hrun in Hrun'. injection Hrun' as <- <-.
  assert (Hlen : length analyzed = length comments)
    by (symmetry; by eapply Forall2_length).
  destruct (export_report_effects analyzed (output_file a) w2)
    as (w3 & line & Hexport & _).
  destruct (save_report_json_effects r (report_json_output_file a) w3)
    as (w' & line' & Hsave & _ & _ & _ & Hfile).
  exists w3, w'. split; [done|].
  assert (Hcounts : total_comments r = length exported_comments
                    ∧ num_offensive_comments r
                      = length (filter (λ c, is_offensive c = true)
                                  exported_comments)).
  { unfold generate_report_json in Hr.
    destruct (sorted_desc _); [|done]. by injection Hr as <-. }
  destruct Hcounts as [Htotal Hoff].
  assert (Hsame : length exported_comments = length analyzed
                  ∧ length (filter (λ c, is_offensive c = true)
                              exported_comments)
                    = length (filter (λ c, is_offensive c = true) analyzed)).
  { unfold after_export in Hafter. injection Hafter as <-.
    destruct (endswith (output_file a) ".csv"); [|done].
    destruct (files w2 !! output_file a) as [[e| |]|]; try done;
      by rewrite filter_offensive_fill_missing, !length_map. }
  destruct Hsame as [Hsame1 Hsame2].
  split; [|split; [congruence|split; [congruence|]]].
  - unfold main. rewrite (FilesFacts.bind_ok _ _ w comments w0 Hload).
    rewrite bool_decide_eq_true_2 by done.
    rewrite (FilesFacts.bind_ok _ _ w0 tt w1 Hshow).
    rewrite (FilesFacts.bind_ok _ _ w1 analyzed w2 Hrun).
    rewrite (FilesFacts.bind_ok _ _ w2 exported_comments w2 Hafter).
    rewrite (FilesFacts.bind_ok _ _ w2 tt w3 Hexport).
    unfold report_of. rewrite Hr.
    rewrite (FilesFacts.bind_ok _ _ w3 r w3) by done.
    rewrite Hjson, Hplot.
    by rewrite (FilesFacts.bind_ok _ _ w3 tt w' Hsave).
  - destruct Hfile as [[_ Hfile]|[_ Hfile]]; [by left|by right].
Qed.

End Program.
End MainFacts.

(** ** The generator *)

Module GeneratorFacts.
Import Csv CsvFacts Generation GenerationFacts FilesFacts FilesSafety Generator.
Local Open Scope list_scope.

Section Script.
Context `{Externals} `{Printing}.

(** *** One batch *)

Lemma batch_loop_effects lines : ∀ comments w,
  Forall accepted comments →
  ∃ r w',
    batch_loop lines comments w = (r, w')
    ∧ files w' = files w
    ∧ requests w' = requests w
    ∧ ∀ kept, r = Ok kept → Forall accepted kept.
Proof.
  induction lines as [|line lines IH]; intros comments w Hacc.
  - exists (Ok comments), w. repeat split; try done. by intros ? [= <-].
  - cbn [batch_loop].
    assert (Hstep : ∃ r1 w1,
      try_except (of_class JSONDecodeError)
        (comment_json ← lift_result (json_loads line);
         has_username ← lift_result (py_in "username" comment_json);
         has_both ←
           (if has_username : bool
            then lift_result (py_in "comment_text" comment_json)
            else mret false);
         if has_both : bool then mret (comments ++ [comment_json])
         else
           _ ← print ("Warning: Incomplete JSON object: "
                      +:+ str_of_json comment_json);
           mret comments)
        (λ e,
         _ ← print ("Warning: Could not decode JSON line: " +:+ line);
         mret comments) w = (r1, w1)
      ∧ files w1 = files w ∧ requests w1 = requests w
      ∧ ∀ kept, r1 = Ok kept → Forall accepted kept).
    { unfold try_except, mbind, M_bind, lift_result, print, mret, M_ret,
        of_class.
      destruct (json_loads line) as [x|e].
      - destruct (py_in "username" x) as [[|]|e1] eqn:Hu.
        + destruct (py_in "comment_text" x) as [[|]|e2] eqn:Ht.
          * eexists _, _. split; [reflexivity|]. repeat split; try done.
            intros kept [= <-]. apply Forall_app. split; [done|].
            by apply Forall_singleton.
          * eexists _, _. split; [reflexivity|]. repeat split; try done.
            by intros kept [= <-].
          * case_bool_decide; eexists _, _; (split; [reflexivity|]);
              repeat split; try done. by intros kept [= <-].
        + eexists _, _. split; [reflexivity|]. repeat split; try done.
          by intros kept [= <-].
        + case_bool_decide; eexists _, _; (split; [reflexivity|]);
            repeat split; try done. by intros kept [= <-].
      - case_bool_decide; eexists _, _; (split; [reflexivity|]);
          repeat split; try done. by intros kept [= <-]. }
    destruct Hstep as (r1 & w1 & Hrun1 & Hfiles1 & Hreq1 & Hacc1).
    unfold mbind at 1, M_bind at 1. rewrite Hrun1.
    destruct r1 as [kept|e].
    + destruct (IH kept w1) as (r & w' & -> & Hfiles & Hreq & Hkept);
        [by apply Hacc1|].
      exists r, w'. split; [done|]. split; [congruence|].
      split; [congruence|done].
    + exists (Raise e), w1. repeat split; done.
Qed.

Lemma generate_comments_batch_effects num_comments w :
  ∃ batch w',
    generate_comments_batch num_comments w = (Ok batch, w')
    ∧ files w' = files w
    ∧ requests w' = requests w ++ [PStr (prompt num_comments)]
    ∧ Forall accepted batch.
Proof.
  unfold generate_comments_batch, try_except, any_exception.
  unfold mbind at 1, M_bind at 1, create.
  set (w1 := World (files w) (stdout w)
               (requests w ++ [PStr (prompt num_comments)])).
  destruct (chat_completions_create _ _) as [e|[|[content|] choices]].
  - eexists _, _. unfold mbind, M_bind, print, mret, M_ret.
    split; [reflexivity|]. by repeat split.
  - eexists _, _. unfold mbind, M_bind, print, mret, M_ret.
    split; [reflexivity|]. by repeat split.
  - unfold mbind at 1, M_bind at 1, mret at 1, M_ret at 1.
    destruct (batch_loop_effects (splitlines (strip content)) [] w1)
      as ([kept|e] & w' & -> & Hfiles & Hreq & Hkept); [done|..].
    + exists kept, w'. repeat split; try done. by apply Hkept.
    + eexists _, _. unfold mbind, M_bind, print, mret, M_ret.
      split; [reflexivity|]. by repeat split.
  - eexists _, _. unfold mbind, M_bind, raise, print, mret, M_ret.
    split; [reflexivity|]. by repeat split.
Qed.

(** X21: [generate_comments_batch] never raises and sends exactly one
    request, the prompt; it changes no file; and no item it returns is
    [null], a boolean or a number: an item is a JSON object with the keys
    [username] and [comment_text], a JSON string in which both words
    occur, or a JSON array. *)
Theorem generate_comments_batch_keeps_complete_items num_comments w :
  ∃ batch w',
    generate_comments_batch num_comments w = (Ok batch, w')
    ∧ files w' = files w
    ∧ requests w' = requests w ++ [PStr (prompt num_comments)]
    ∧ Forall (λ item,
        (∃ d comments, item = JObject d comments
                       ∧ is_Some (d !! "username")
                       ∧ is_Some (d !! "comment_text"))
        ∨ (∃ s, item = JScalar (PStr s)
                ∧ is_Some (String.index 0 "username" s)
                ∧ is_Some (String.index 0 "comment_text" s))
        ∨ (∃ elems, item = JArray elems)) batch.
Proof.
  destruct (generate_comments_batch_effects num_comments w)
    as (batch & w' & Hrun & Hfiles & Hreq & Hacc).
  exists batch, w'. repeat split; try done.
  eapply Forall_impl; [exact Hacc|].
  intros [d comments|elems|[| | |s]] [Hu Ht]; try discriminate.
  - left. exists d, comments. split; [done|].
    injection Hu as Hu. injection Ht as Ht.
    rewrite orb_false_r in Hu, Ht.
    split; by eapply bool_decide_eq_true_1.
  - right; left. exists s. split; [done|].
    injection Hu as Hu. injection Ht as Ht.
    split; by eapply bool_decide_eq_true_1.
Qed.

Lemma batch_loop_raises lines v : ∀ comments w,
  (∃ line, line ∈ lines ∧ json_loads line = Ok (JScalar v)) →
  (∀ s, v ≠ PStr s) →
  ∃ e w', batch_loop lines comments w = (Raise e, w').
Proof.
  induction lines as [|line lines IH]; intros comments w (l & Hl & Hv) Hns;
    [by apply elem_of_nil in Hl|].
  cbn [batch_loop]. unfold mbind at 1, M_bind at 1.
  destruct (decide (l = line)) as [->|Hne].
  - unfold try_except, mbind, M_bind, lift_result, of_class. rewrite Hv.
    destruct v as [|b|z|s]; [| | |by destruct (Hns s)]; cbn [py_in exn_cls];
      rewrite bool_decide_eq_false_2 by done; by eexists _, _.
  - apply elem_of_cons in Hl as [?|Hl]; [done|].
    match goal with
    | |- context [try_except ?h ?b ?k w] =>
        destruct (try_except h b k w) as [[kept|e] w1]
    end.
    + apply IH; [by exists l|done].
    + by eexists _, _.
Qed.

(** X26: one line of a reply that decodes to [null], a boolean or a
    number costs the whole batch: the membership test raises a
    [TypeError], which only the outer handler catches, and
    [generate_comments_batch] returns the empty list, whatever the other
    lines hold. *)
Theorem generate_comments_batch_loses_the_batch num_comments w content
    choices line v :
  chat_completions_create (length (requests w)) (PStr (prompt num_comments))
  = ApiResponse (Some content :: choices) →
  line ∈ splitlines (strip content) →
  json_loads line = Ok (JScalar v) →
  (∀ s, v ≠ PStr s) →
  ∃ w' e,
    generate_comments_batch num_comments w = (Ok [], w')
    ∧ last (stdout w') = Some ("Error during Groq API call: " +:+ exn_str e).
Proof.
  intros Hreply Hline Hv Hns.
  unfold generate_comments_batch, try_except, any_exception.
  unfold mbind at 1, M_bind at 1, create. rewrite Hreply.
  unfold mbind at 1, M_bind at 1, mret at 1, M_ret at 1.
  match goal with
  | |- context [batch_loop ?lines [] ?w1] =>
      destruct (batch_loop_raises lines v [] w1) as (e & w2 & ->);
        [by exists line|done|]
  end.
  eexists _, e. unfold mbind, M_bind, print, mret, M_ret.
  split; [reflexivity|]. cbn [stdout]. by rewrite last_snoc.
Qed.

(** *** The batches *)

Lemma batches_effects starts : ∀ all_generated_comments w,
  Forall accepted all_generated_comments →
  ∃ all' w',
    batches starts all_generated_comments w = (Ok all', w')
    ∧ files w' = files w
    ∧ requests w'
      = requests w
        ++ replicate (length starts) (PStr (prompt COMMENTS_PER_BATCH))
    ∧ Forall accepted all'.
Proof.
  induction starts as [|i starts IH]; intros all_generated_comments w Hacc.
  - exists all_generated_comments, w. repeat split; try done.
    by rewrite app_nil_r.
  - cbn [batches]. unfold mbind at 1, M_bind at 1, print.
    match goal with
    | |- context [(generate_comments_batch COMMENTS_PER_BATCH ≫= _) ?w1] =>
        destruct (generate_comments_batch_effects COMMENTS_PER_BATCH w1)
          as (batch & w2 & Hrun & Hfiles2 & Hreq2 & Hbatch);
        rewrite (bind_ok _ _ w1 batch w2 Hrun)
    end.
    cbn [files stdout requests] in Hfiles2, Hreq2.
    destruct (IH (all_generated_comments ++ batch) w2)
      as (all' & w' & -> & Hfiles & Hreq & Hall);
      [by apply Forall_app|].
    exists all', w'. split; [done|]. split; [congruence|]. split; [|done].
    rewrite Hreq, Hreq2. cbn [length replicate]. by rewrite <- app_assoc.
Qed.

(** *** The assembly loop on what the batches return *)

Lemma final_comment_accepted index drawn d comments :
  accepted (JObject d comments) →
  final_comment index drawn d = (assembled index (JObject d comments), drawn).
Proof.
  intros [Hu Ht]. injection Hu as Hu. injection Ht as Ht.
  rewrite orb_false_r in Hu, Ht.
  unfold final_comment, assembled, entry. by rewrite Hu, Ht.
Qed.

Lemma unsubscriptable_accepted l item :
  Forall accepted l → first_unsubscriptable l = Some item →
  ∃ s, item = JScalar (PStr s).
Proof.
  induction 1 as [|x l Hx _ IH]; [done|].
  destruct x as [d comments|elems|[| | |s]]; cbn [first_unsubscriptable];
    try (destruct Hx as [Hu _]; discriminate Hu).
  - exact IH.
  - intros [= <-]. by exists s.
Qed.

Lemma final_loop_accepted l : ∀ index drawn,
  Forall accepted l →
  final_loop l index drawn
  = match first_unsubscriptable l with
    | Some _ => None
    | None => Some (imap (λ i, assembled (index + i)) l)
    end.
Proof.
  induction l as [|x l IH]; intros index drawn Hacc; [done|].
  apply Forall_cons in Hacc as [Hx Hl].
  destruct x as [d comments|elems|v]; cbn [first_unsubscriptable final_loop];
    [|done..].
  rewrite (final_comment_accepted _ _ _ comments Hx), (IH _ _ Hl).
  destruct (first_unsubscriptable l); [done|].
  cbn [mbind option_bind imap]. rewrite Nat.add_0_r. do 2 f_equal.
  apply imap_ext. intros i item _. unfold compose. f_equal. lia.
Qed.

Lemma save_effects final_comments w :
  ∃ r w',
    save final_comments w = (r, w')
    ∧ requests w' = requests w
    ∧ ∀ p, p ≠ OUTPUT_FILENAME → files w' !! p = files w !! p.
Proof.
  unfold save. unfold mbind at 1, M_bind at 1.
  destruct (open_write_frame OUTPUT_FILENAME w)
    as ([[]|e] & w1 & -> & _ & Hreq1 & Hfiles1); [|by eexists _, _].
  unfold mbind at 1, M_bind at 1.
  destruct (file_write_frame OUTPUT_FILENAME (row_line (map PStr header)) w1)
    as (w2 & -> & _ & Hreq2 & Hfiles2 & _).
  unfold mbind at 1, M_bind at 1.
  destruct (writerows_frame header OUTPUT_FILENAME final_comments w2)
    as ([[]|e] & w3 & -> & _ & Hreq3 & Hfiles3).
  - eexists _, _. unfold print. split; [reflexivity|].
    cbn [files stdout requests]. split; [congruence|].
    intros p Hp. by rewrite Hfiles3, Hfiles2, Hfiles1.
  - eexists _, _. split; [reflexivity|]. split; [congruence|].
    intros p Hp. by rewrite Hfiles3, Hfiles2, Hfiles1.
Qed.

(** X22: the script sends exactly twenty requests, each the prompt for
    ten comments, however many comments the replies yield and whether or
    not the run ends normally: a reply that yields fewer than ten
    comments is not asked for again. *)
Theorem script_sends_twenty_requests w r w' :
  script w = (r, w') →
  requests w' = requests w ++ replicate 20 (PStr (prompt 10)).
Proof.
  unfold script.
  destruct (batches_effects
              (range 0 NUM_COMMENTS_TO_GENERATE COMMENTS_PER_BATCH) [] w)
    as (all & w1 & Hrun & _ & Hreq & _); [done|].
  rewrite (bind_ok _ _ w all w1 Hrun).
  unfold mbind at 1, M_bind at 1, print.
  destruct (final_comments all) as [recs|].
  - match goal with
    | |- save recs ?w2 = _ → _ =>
        destruct (save_effects recs w2) as (r' & w'' & -> & Hreq' & _)
    end.
    intros [= <- <-]. rewrite Hreq'. exact Hreq.
  - unfold raise. intros [= <- <-]. exact Hreq.
Qed.

(** X23: the items that the batches return are assembled as they are:
    the script either stops with a [TypeError] at the first item that is
    no JSON object (a string or an array that has passed the tests),
    leaving the files as they were, or it writes the header and one row
    for each item, numbered from 1, with the [username] and the
    [comment_text] of the item; no name is drawn from [fake] and the
    placeholder text is never used. *)
Theorem script_writes_the_generated_items w :
  (∀ e, files w !! OUTPUT_FILENAME ≠ Some (NoAccess e)) →
  ∃ all_generated_comments w1,
    batches (range 0 NUM_COMMENTS_TO_GENERATE COMMENTS_PER_BATCH) [] w
    = (Ok all_generated_comments, w1)
    ∧ match first_unsubscriptable all_generated_comments with
      | Some item =>
          ((∃ s, item = JScalar (PStr s)) ∨ (∃ elems, item = JArray elems))
          ∧ ∃ w', script w = (Raise (Exn TypeError (item_error item)), w')
                  ∧ files w' = files w
      | None =>
          ∃ text w',
            script w = (Ok tt, w')
            ∧ files w' = <[OUTPUT_FILENAME := Contents text]> (files w)
            ∧ list_ascii_of_string text
              = concat (map writerow
                  (map list_ascii_of_string header
                   :: imap (λ i item,
                        map (λ v, list_ascii_of_string (field_text v))
                          [PInt (Z.of_nat i + 1); entry "username" item;
                           entry "comment_text" item])
                        all_generated_comments))
      end.
Proof.
  intros Hopen.
  destruct (batches_effects
              (range 0 NUM_COMMENTS_TO_GENERATE COMMENTS_PER_BATCH) [] w)
    as (all & w1 & Hrun & Hfiles1 & _ & Hacc); [done|].
  exists all, w1. split; [done|].
  pose proof (final_loop_accepted all 0 0 Hacc) as Hfinal.
  fold (final_comments all) in Hfinal.
  unfold script. rewrite (bind_ok _ _ w all w1 Hrun).
  erewrite (bind_ok _ _ w1 tt) by reflexivity.
  destruct (first_unsubscriptable all) as [item|] eqn:Hfirst.
  - split; [left; by eapply unsubscriptable_accepted|].
    rewrite Hfinal. cbv beta iota. eexists. split; [reflexivity|done].
  - rewrite Hfinal. cbv beta iota.
    match goal with
    | |- context [save ?recs ?w2] =>
        destruct (save_final_comments all recs w2 Hfinal)
          as (text & Hsave & Htext);
          [cbn [files]; by rewrite Hfiles1|]
    end.
    exists text. eexists. split; [exact Hsave|].
    cbn [files]. split; [by rewrite Hfiles1|].
    rewrite Htext. do 3 f_equal.
    rewrite fmap_imap. apply imap_ext. intros i item _. reflexivity.
Qed.

(** *** From the generator to the detector *)

Lemma row_dict_header_texts (f : string → string) :
  surplus (row_dict header (map f header)) = None
  ∧ dom (items (row_dict header (map f header))) = three_fields
  ∧ ∀ k, k ∈ header →
         items (row_dict header (map f header)) !! k = Some (PStr (f k)).
Proof.
  split; [reflexivity|]. split; [vm_compute; reflexivity|].
  intros k Hk. unfold header in Hk.
  repeat (apply elem_of_cons in Hk as [->|Hk]; [vm_compute; reflexivity|]).
  by apply elem_of_nil in Hk.
Qed.

(** X24: the file that the generator saves is the default input of the
    detector, and [load_comments] reads it back without error when its
    fields are within the field limit: one comment for each record, in
    order, with the three keys; every value comes back as text, so the
    identifiers are the strings "1", "2", ... and no longer numbers. *)
Theorem generated_file_is_loaded all_generated_comments recs w w' :
  final_comments all_generated_comments = Some recs →
  save recs w = (Ok tt, w') →
  Forall (λ r, Forall (λ v, fits (list_ascii_of_string (field_text v)))
                 (key_fields r)) recs →
  ∃ comments,
    load_comments (Main.input_file Main.default_args) w' = (Ok comments, w')
    ∧ Forall2 (λ r c,
        surplus c = None
        ∧ dom (items c) = three_fields
        ∧ ∀ k, k ∈ header → get c k = PStr (field_text (get r k)))
        recs comments
    ∧ ∀ i c, comments !! i = Some c →
        get c "comment_id" = PStr (pretty (Z.of_nat i + 1)%Z).
Proof.
  intros Hrecs Hsave Hfits.
  assert (Hopen : ∀ e, files w !! OUTPUT_FILENAME ≠ Some (NoAccess e)).
  { intros e He. unfold save in Hsave.
    unfold mbind at 1, M_bind at 1, open_write in Hsave.
    by rewrite He in Hsave. }
  destruct (save_final_comments all_generated_comments recs w Hrecs Hopen)
    as (text & Hsaved & Htext).
  rewrite Hsaved in Hsave. injection Hsave as <-.
  set (texts := λ r : dict, map (λ k, field_text (get r k)) header).
  assert (Hrecords : records text = Ok (header :: map texts recs)).
  { unfold records. rewrite Htext, reader_rows_writerow.
    - unfold mbind, result_bind. f_equal. rewrite map_cons. f_equal.
      rewrite map_map. apply map_ext. intros r. rewrite map_map.
      unfold texts, key_fields, header. cbn [map].
      by rewrite !string_of_list_ascii_of_string.
    - constructor; [by repeat constructor|].
      apply Forall_fmap. eapply Forall_impl; [exact Hfits|].
      intros r Hr. unfold compose; cbv beta. by apply Forall_fmap. }
  exists (map (λ r, row_dict header (texts r)) recs).
  split; [|split].
  - apply (load_comments_csv _ text); [done| |].
    + cbn [files]. apply lookup_insert_eq.
    + unfold DictReader, mbind, result_bind. rewrite Hrecords.
      rewrite filter_all, map_map; [done|].
      apply Forall_fmap, Forall_true. intros r. unfold compose, texts.
      discriminate.
  - apply Forall2_fmap_r, Forall_Forall2_diag, Forall_true. intros r.
    destruct (row_dict_header_texts (λ k, field_text (get r k)))
      as (Hs & Hdom & Hk).
    split; [done|]. split; [done|].
    intros k Hin. unfold get at 1. unfold texts. by rewrite (Hk k Hin).
  - intros i c Hc. apply list_lookup_fmap_Some in Hc as (r & -> & Hr).
    unfold final_comments in Hrecs.
    destruct (final_loop_spec _ _ _ _ Hrecs) as [_ Hshape].
    destruct (Hshape i r Hr) as (Hid & _).
    destruct (row_dict_header_texts (λ k, field_text (get r k)))
      as (_ & _ & Hk).
    unfold get at 1. unfold texts. rewrite (Hk "comment_id") by (by left).
    cbn [default]. by rewrite Hid.
Qed.

End Script.
End GeneratorFacts.

Module Witnesses.
Import Report Generation Examples ReportFacts GenerationFacts FilesFacts.

Lemma api_exception_witness :
  ∃ c' w', @analyze_comment_with_ai service hello (after 1) = (Ok c', w')
    ∧ get c' "is_offensive" = PBool true
    ∧ get c' "offense_type" = PStr "api_error"
    ∧ get c' "severity" = PInt 4
    ∧ get c' "explanation"
      = PStr ("Error during AI analysis: " +:+ "Connection error.").
Proof.
  apply (@api_exception_marks_api_error service hello (after 1)
           (Exn (OtherException "APIConnectionError") "Connection error."));
    reflexivity.
Defined.

Lemma undecodable_response_witness :
  ∃ c' w', @analyze_comment_with_ai service hello (after 2) = (Ok c', w')
    ∧ get c' "is_offensive" = PBool true
    ∧ get c' "offense_type" = PStr "error"
    ∧ get c' "explanation" = PStr "Error decoding AI analysis response."
    ∧ get c' "severity" = PInt 3.
Proof.
  apply (@undecodable_response_marks_error service hello (after 2)
           "not json" []
           (Exn JSONDecodeError "Expecting value: line 1 column 1 (char 0)"));
    reflexivity.
Defined.

(** C5 as stated fails: a choice whose content is [None] carries no
    valid JSON, and the comment comes back with offense type [api_error]
    and severity 4: [json.loads] raises a [TypeError], which only the
    outer handler catches. *)
Lemma null_content_is_api_error :
  ¬ (∀ c' w',
       @analyze_comment_with_ai contentless hello idle = (Ok c', w') →
       get c' "is_offensive" = PBool true
       ∧ get c' "offense_type" = PStr "error"
       ∧ get c' "explanation" = PStr "Error decoding AI analysis response."
       ∧ get c' "severity" = PInt 3).
Proof.
  intros Hclaim.
  edestruct Hclaim as (_ & Htype & _); [vm_compute; reflexivity|].
  vm_compute in Htype. discriminate.
Qed.

Lemma not_offensive_fields_witness :
  (@chat_completions_create service 0 (PStr "hello") = ApiResponse []
   ∧ get unanswered "offense_type" = PNone
   ∧ get unanswered "severity" = PNone
   ∧ get unanswered "explanation" = PStr "No response from AI model.")
  ∨ (∃ content rest d cs,
       @chat_completions_create service 0 (PStr "hello")
       = ApiResponse (Some content :: rest)
       ∧ @json_loads service content = Ok (JObject d cs)
       ∧ get unanswered "offense_type" = default PNone (d !! "offense_type")
       ∧ get unanswered "explanation" = default PNone (d !! "explanation")
       ∧ get unanswered "severity" = default PNone (d !! "severity")).
Proof.
  apply (@not_offensive_fields service hello idle unanswered
           (World ∅ [] [PStr "hello"])); reflexivity.
Defined.

(** C2 as stated fails: answered without choices, the comment comes back
    with [is_offensive] false and a non-null [explanation]. *)
Lemma no_choices_explanation_not_null :
  ¬ (∀ c' w', @analyze_comment_with_ai service hello idle = (Ok c', w') →
              get c' "is_offensive" = PBool false →
              get c' "offense_type" = PNone
              ∧ get c' "explanation" = PNone
              ∧ get c' "severity" = PNone).
Proof.
  intros Hclaim.
  destruct (Hclaim unanswered (World ∅ [] [PStr "hello"]))
    as (_ & Hexpl & _); [reflexivity..|].
  vm_compute in Hexpl. discriminate.
Qed.

Lemma profane_comment_witness :
  ∃ filtered w1 c1,
    @pre_filter_comments service [hello; swearing] idle = (Ok filtered, w1)
    ∧ filtered !! 1%nat = Some c1
    ∧ get c1 "is_offensive" = PBool true
    ∧ get c1 "offense_type" = PStr "profanity"
    ∧ get c1 "explanation" = PStr "Flagged by better_profanity"
    ∧ (∀ w2, ∃ c2, @analyze_comment_with_ai service c1 w2 = (Ok c2, w2)
               ∧ get c2 "severity" = PInt 1
               ∧ get c2 "offense_type" = PStr "profanity")
    ∧ (∃ analyzed w3 c3,
         @process_comments service [hello; swearing] true idle
         = (Ok analyzed, w3)
         ∧ analyzed !! 1%nat = Some c3
         ∧ get c3 "severity" = PInt 1
         ∧ get c3 "offense_type" = PStr "profanity").
Proof.
  apply (@profane_comment_gets_severity_1 service [hello; swearing] 1
           swearing idle); reflexivity.
Defined.

Lemma null_severity_witness : generate_report_json null_severity_input = None.
Proof.
  apply (null_severity_breaks_report null_severity_input
           (analyzed "1" (PStr "toxicity") PNone)).
  - left.
  - reflexivity.
  - reflexivity.
  - vm_compute. lia.
Defined.

Lemma breakdown_witness :
  generate_report_json mixed_input = Some mixed_report
  ∧ counter_get (offense_type_breakdown mixed_report) (PStr "toxicity") = 2%nat
  ∧ counter_get (offense_type_breakdown mixed_report) PNone = 0%nat.
Proof.
  split; [reflexivity|].
  destruct (breakdown_counts_offensive_typed mixed_input mixed_report)
    as (Hcount & _ & Hnone); [reflexivity|].
  split; [|exact Hnone].
  rewrite Hcount. reflexivity.
Defined.

Lemma final_comments_witness :
  length generated_records = 2%nat
  ∧ ∀ i r, generated_records !! i = Some r →
      get r "comment_id" = PInt (Z.of_nat i + 1)
      ∧ dom (items r) = three_fields
      ∧ surplus r = None.
Proof.
  apply (@final_comments_sequential service generated_input generated_records).
  reflexivity.
Defined.

Lemma load_comments_witness :
  ∃ line,
    @load_comments service "missing.csv" idle
    = (Ok [], World (files idle) (stdout idle ++ [line]) (requests idle))
    ∧ String.prefix "Error" line = true.
Proof.
  apply (@load_comments_unloadable service "missing.csv" idle).
  - apply missing_file. reflexivity.
  - intros text d Hfile. vm_compute in Hfile. discriminate.
Defined.

(** C4 as stated fails: a CSV file with a quote that is never closed is
    malformed, and yet it is loaded without a word: the reader ends the
    field where the file ends. *)
Lemma unterminated_quote_is_loaded :
  ¬ (∀ comments w',
       @load_comments service "broken.csv" broken_disk = (Ok comments, w') →
       comments = []
       ∧ ∃ line, stdout w' = (stdout broken_disk ++ [line])%list).
Proof.
  intros Hclaim.
  edestruct Hclaim as [Hnil _]; [vm_compute; reflexivity|].
  discriminate Hnil.
Qed.

Lemma csv_round_trip_witness :
  ∃ comments w1 w2 comments' w3,
    @load_comments service "comments.csv" disk = (Ok comments, w1)
    ∧ @export_report service comments "analyzed_comments.csv" w1 = (Ok tt, w2)
    ∧ @load_comments service "analyzed_comments.csv" w2 = (Ok comments', w3)
    ∧ map key_fields comments
      = map (map PStr) (filter (λ row, row ≠ []) comments_rows)
    ∧ map key_fields comments' = map key_fields comments.
Proof.
  apply (@csv_round_trip service "comments.csv" "analyzed_comments.csv"
           comments_csv comments_rows disk).
  - reflexivity.
  - reflexivity.
  - reflexivity.
  - intros e. vm_compute. discriminate.
  - vm_compute. reflexivity.
  - repeat constructor; (by left) || (by right).
Defined.

(** Such an input comes out of the pipeline itself: a reply that marks a
    comment offensive without a severity leaves [severity] at [None]. *)
Example pipeline_reaches_null_severity :
  ∃ analyzed w,
    @process_comments careless [hello; swearing] false idle = (Ok analyzed, w)
    ∧ Forall (λ c, items c !! "severity" = Some PNone) analyzed
    ∧ generate_report_json analyzed = None.
Proof.
  eexists _, _. split; [vm_compute; reflexivity|].
  split; [by repeat constructor|]. vm_compute. reflexivity.
Qed.

(** The case C1 singles out: one comment of each of the types A, B and C
    comes before the second comment of type A. *)
Example varied_before_repeated :
  (λ r, map (λ c, get c "comment_id")
          (top_5_most_severe_offensive_comments_varied r))
    <$> generate_report_json abc_input
  = Some [PStr "1"; PStr "3"; PStr "4"; PStr "2"].
Proof. vm_compute. reflexivity. Qed.

End Witnesses.

(** * The further properties on concrete runs *)

Module RunFacts.
Import Report Generation Examples Main Generator Runs.
Import ReportFacts ReportShape PipelineFacts FilesSafety ExportFacts MainFacts
  GeneratorFacts.
Local Open Scope list_scope.

Lemma process_comments_keeps_other_entries_witness :
  Forall2 (λ c c', beside_analysis (items c') = beside_analysis (items c)
                   ∧ surplus c' = surplus c)
    [hello; swearing] processed.1.
Proof.
  apply (@process_comments_keeps_other_entries service [hello; swearing] true
           idle processed.1 processed.2).
  reflexivity.
Defined.

Lemma process_comments_sets_severity_witness :
  Forall (λ c', is_Some (items c' !! "is_offensive")
                ∧ is_Some (items c' !! "offense_type")
                ∧ is_Some (items c' !! "severity")
                ∧ sort_key c' = get c' "severity") processed.1.
Proof.
  apply (@process_comments_sets_severity service [hello; swearing] true idle
           processed.1 processed.2).
  reflexivity.
Defined.

Lemma report_counts_add_up_witness :
  total_comments mixed_report = length mixed_input
  ∧ num_offensive_comments mixed_report
    = length (filter (λ c, is_offensive c = true) mixed_input)
  ∧ (num_offensive_comments mixed_report ≤ total_comments mixed_report)%nat
  ∧ Forall (λ kn, (1 ≤ kn.2)%nat) (offense_type_breakdown mixed_report)
  ∧ sum_list (map snd (offense_type_breakdown mixed_report))
    = length (filter (λ c, is_offensive c = true
                           ∧ truthy (get c "offense_type") = true)
                mixed_input)
  ∧ (sum_list (map snd (offense_type_breakdown mixed_report))
     ≤ num_offensive_comments mixed_report)%nat.
Proof. apply (report_counts_add_up mixed_input mixed_report). reflexivity. Defined.

Lemma top_5_distinct_offensive_comments_witness :
  (length (top_5_most_severe_offensive_comments_varied mixed_report) ≤ 5)%nat
  ∧ Forall (λ c, c ∈ mixed_input ∧ is_offensive c = true)
      (top_5_most_severe_offensive_comments_varied mixed_report)
  ∧ pairwise_different (top_5_most_severe_offensive_comments_varied mixed_report)
  ∧ ((length (top_5_most_severe_offensive_comments_varied mixed_report) < 5)%nat →
     ∀ c, c ∈ mixed_input → is_offensive c = true →
          dict_in c (top_5_most_severe_offensive_comments_varied mixed_report)
          = true).
Proof.
  apply (top_5_distinct_offensive_comments mixed_input mixed_report).
  reflexivity.
Defined.

Lemma top_5_covers_offense_types_witness :
  (∃ t, t ∈ top_5_most_severe_offensive_comments_varied mixed_report
        ∧ py_eq (get t "offense_type")
            (get (analyzed "3" (PStr "toxicity") (PInt 4)) "offense_type")
          = true)
  ∨ (length (top_5_most_severe_offensive_comments_varied mixed_report) = 5%nat
     ∧ ∀ i j a b, (i < j)%nat →
         top_5_most_severe_offensive_comments_varied mixed_report !! i = Some a →
         top_5_most_severe_offensive_comments_varied mixed_report !! j = Some b →
         py_eq (get a "offense_type") (get b "offense_type") = false).
Proof.
  apply (top_5_covers_offense_types mixed_input mixed_report
           (analyzed "3" (PStr "toxicity") (PInt 4))).
  - reflexivity.
  - apply (list_elem_of_lookup_2 _ 2). reflexivity.
  - reflexivity.
Defined.

Lemma most_severe_comes_first_witness :
  match top_5_most_severe_offensive_comments_varied mixed_report with
  | [] => filter (λ c, is_offensive c = true) mixed_input = []
  | first :: _ =>
      (∀ c, c ∈ mixed_input → is_offensive c = true →
            (severity c ≤ severity first)%Z)
      ∧ head (filter (λ c, severity c = severity first)
                (filter (λ c, is_offensive c = true) mixed_input))
        = Some first
  end.
Proof.
  apply (most_severe_comes_first mixed_input mixed_report).
  - reflexivity.
  - unfold numeric_severity. apply (bool_decide_unpack _).
    vm_compute. exact I.
Defined.

Lemma mixed_severities_break_report_witness :
  generate_report_json worded_input = None.
Proof.
  apply (mixed_severities_break_report worded_input
           (analyzed "1" (PStr "toxicity") (PInt 2))
           (analyzed "2" (PStr "harassment") (PStr "high")) "high").
  - apply (list_elem_of_lookup_2 _ 0). reflexivity.
  - apply (list_elem_of_lookup_2 _ 1). reflexivity.
  - reflexivity.
  - reflexivity.
  - unfold numeric_severity. apply (bool_decide_unpack _).
    vm_compute. exact I.
  - reflexivity.
Defined.

Lemma export_report_stops_at_unknown_key_witness :
  ∃ text e,
    @export_report service ([hello] ++ liked :: [swearing]) "out.csv" idle
    = (Ok tt,
       World (<["out.csv" := Contents text]> (files idle))
         (stdout idle ++ ["Error exporting data: " +:+ exn_str e])
         (requests idle))
    ∧ list_ascii_of_string text
      = concat (map Csv.writerow
                  (map list_ascii_of_string fieldnames
                   :: map (λ c, map (λ k, list_ascii_of_string
                                           (Csv.field_text (get c k)))
                                  fieldnames) [hello])).
Proof.
  apply (@export_report_stops_at_unknown_key service [hello] liked [swearing]
           "out.csv" idle).
  - reflexivity.
  - intros e. vm_compute. discriminate.
  - apply Forall_singleton. split; [|reflexivity].
    apply (bool_decide_unpack _). vm_compute. exact I.
  - left. apply (bool_decide_eq_false_1 _). vm_compute. reflexivity.
Defined.

Lemma exported_input_exportable : Forall exportable exported_input.
Proof.
  unfold exported_input. repeat apply Forall_cons_2; try apply Forall_nil_2;
    (split; [apply (bool_decide_unpack _); vm_compute; exact I|]);
    (split; [reflexivity|]);
    unfold fieldnames; repeat apply Forall_cons_2; try apply Forall_nil_2;
    vm_compute; discriminate.
Defined.

Lemma export_then_load_gives_texts_witness :
  ∃ w1 comments',
    @export_report service exported_input "out.csv" idle = (Ok tt, w1)
    ∧ @load_comments service "out.csv" w1 = (Ok comments', w1)
    ∧ Forall2 (λ c c',
        surplus c' = None
        ∧ dom (items c') = list_to_set fieldnames
        ∧ ∀ k, k ∈ fieldnames →
            get c' k
            = PStr match get c k with
                   | PNone => ""
                   | PStr s => s
                   | v => py_str v
                   end) exported_input comments'.
Proof.
  apply (@export_then_load_gives_texts service exported_input "out.csv" idle).
  - reflexivity.
  - intros e. vm_compute. discriminate.
  - exact exported_input_exportable.
Defined.

Lemma reloaded_false_is_offensive_witness :
  ∃ w1 comments',
    @export_report service exported_input "out.csv" idle = (Ok tt, w1)
    ∧ @load_comments service "out.csv" w1 = (Ok comments', w1)
    ∧ Forall2 (λ c c',
        is_offensive c'
        = negb (String.eqb (Csv.field_text (get c "is_offensive")) "")
        ∧ (∀ b, get c "is_offensive" = PBool b → is_offensive c' = true)
        ∧ (get c "is_offensive" = PNone → is_offensive c' = false)
        ∧ (get c "is_offensive" = PStr "" → is_offensive c' = false))
        exported_input comments'.
Proof.
  apply (@reloaded_false_is_offensive service exported_input "out.csv" idle).
  - reflexivity.
  - intros e. vm_compute. discriminate.
  - exact exported_input_exportable.
Defined.

Lemma plot_shows_report_breakdown_witness :
  @plot_offense_distribution paper mixed_input idle
  = (if bool_decide (offense_type_breakdown mixed_report ≠ []) then
       (@show_bar_chart paper (map fst (offense_type_breakdown mixed_report))
          (map snd (offense_type_breakdown mixed_report)), idle)
     else
       (Ok tt,
        World (files idle)
          (stdout idle
           ++ ["No offensive comments found to plot distribution."])
          (requests idle)))
  ∧ (offense_type_breakdown mixed_report = []
     ↔ Forall (λ c, ¬ (is_offensive c = true
                       ∧ truthy (get c "offense_type") = true)) mixed_input).
Proof.
  apply (@plot_shows_report_breakdown paper mixed_input mixed_report idle).
  reflexivity.
Defined.

Lemma main_writes_only_its_outputs_witness :
  files main_run.2 !! "comments.csv" = files disk !! "comments.csv".
Proof.
  apply (@main_writes_only_its_outputs careless paper with_report disk
           main_run.1 main_run.2 "comments.csv").
  - reflexivity.
  - discriminate.
  - right. discriminate.
Defined.

Lemma main_exits_without_comments_witness :
  @main service paper default_args idle
  = (Ok tt,
     World (files idle)
       (stdout (World ∅ ["Error: File not found at generated_comments.csv"] [])
        ++ ["No comments loaded. Exiting."])
       (requests idle)).
Proof.
  apply (@main_exits_without_comments service paper default_args idle
           (World ∅ ["Error: File not found at generated_comments.csv"] [])).
  reflexivity.
Defined.

Lemma main_raises_after_export_witness :
  ∃ w3 e,
    @export_report careless classified.1 (output_file with_report) classified.2
    = (Ok tt, w3)
    ∧ @main careless paper with_report disk = (Raise e, w3)
    ∧ exn_cls e = TypeError.
Proof.
  apply (@main_raises_after_export careless paper with_report disk
           loaded.1 loaded.2 shown classified.1 classified.2
           (default empty_dict (head classified.1))).
  - reflexivity.
  - discriminate.
  - reflexivity.
  - reflexivity.
  - apply (list_elem_of_lookup_2 _ 0). reflexivity.
  - reflexivity.
  - reflexivity.
  - vm_compute. lia.
Defined.

Lemma main_one_request_per_comment_witness :
  requests main_run.2
  = requests disk
    ++ map text_of
         (filter (λ c, prefiltered c = false)
            (if pre_filter with_report
             then map (@pre_filter_one careless) loaded.1
             else loaded.1)).
Proof.
  apply (@main_one_request_per_comment careless paper with_report disk
           loaded.1 loaded.2 shown classified.1 classified.2 main_run.1
           main_run.2).
  - reflexivity.
  - discriminate.
  - reflexivity.
  - reflexivity.
  - reflexivity.
Defined.

Lemma main_reports_every_loaded_comment_witness :
  ∃ w3 w',
    @export_report service answered.1 (output_file with_report) answered.2
    = (Ok tt, w3)
    ∧ @main service paper with_report disk = (Ok tt, w')
    ∧ total_comments answered_report = length loaded.1
    ∧ num_offensive_comments answered_report
      = length (filter (λ c, is_offensive c = true) answered.1)
    ∧ (files w' !! report_json_output_file with_report
       = Some (Contents (@report_dumps paper answered_report))
       ∨ files w' = files w3).
Proof.
  apply (@main_reports_every_loaded_comment service paper with_report disk
           loaded.1 loaded.2 shown answered.1 answered.2 answered_exported
           answered_report).
  - reflexivity.
  - discriminate.
  - reflexivity.
  - reflexivity.
  - reflexivity.
  - reflexivity.
  - reflexivity.
  - reflexivity.
Defined.

Lemma generate_comments_batch_loses_the_batch_witness :
  ∃ w' e,
    @generate_comments_batch numbering plain 10 idle = (Ok [], w')
    ∧ last (stdout w') = Some ("Error during Groq API call: " +:+ exn_str e).
Proof.
  apply (@generate_comments_batch_loses_the_batch numbering plain 10 idle
           (first_line +:+ String "010" "5") [] "5" (PInt 5)).
  - reflexivity.
  - apply (list_elem_of_lookup_2 _ 1). reflexivity.
  - reflexivity.
  - intros s. discriminate.
Defined.

Lemma script_sends_twenty_requests_witness :
  requests script_run.2 = requests idle ++ replicate 20 (PStr (prompt 10)).
Proof.
  apply (@script_sends_twenty_requests groq plain idle script_run.1).
  reflexivity.
Defined.

Lemma script_writes_the_generated_items_witness :
  ∃ all_generated_comments w1,
    @batches groq plain
      (range 0 NUM_COMMENTS_TO_GENERATE COMMENTS_PER_BATCH) [] idle
    = (Ok all_generated_comments, w1)
    ∧ match first_unsubscriptable all_generated_comments with
      | Some item =>
          ((∃ s, item = JScalar (PStr s)) ∨ (∃ elems, item = JArray elems))
          ∧ ∃ w', @script groq plain idle
                  = (Raise (Exn TypeError (@item_error plain item)), w')
                  ∧ files w' = files idle
      | None =>
          ∃ text w',
            @script groq plain idle = (Ok tt, w')
            ∧ files w' = <[OUTPUT_FILENAME := Contents text]> (files idle)
            ∧ list_ascii_of_string text
              = concat (map Csv.writerow
                  (map list_ascii_of_string header
                   :: imap (λ i item,
                        map (λ v, list_ascii_of_string (Csv.field_text v))
                          [PInt (Z.of_nat i + 1); entry "username" item;
                           entry "comment_text" item])
                        all_generated_comments))
      end.
Proof.
  apply (@script_writes_the_generated_items groq plain idle).
  intros e. vm_compute. discriminate.
Defined.

Lemma generated_file_is_loaded_witness :
  ∃ comments,
    @load_comments service (input_file default_args) saved
    = (Ok comments, saved)
    ∧ Forall2 (λ r c,
        surplus c = None
        ∧ dom (items c) = three_fields
        ∧ ∀ k, k ∈ header → get c k = PStr (Csv.field_text (get r k)))
        generated_records comments
    ∧ ∀ i c, comments !! i = Some c →
        get c "comment_id" = PStr (pretty (Z.of_nat i + 1)%Z).
Proof.
  apply (@generated_file_is_loaded service generated_input generated_records
           idle saved).
  - reflexivity.
  - reflexivity.
  - unfold generated_records.
    repeat apply Forall_cons_2; try apply Forall_nil_2;
      vm_compute; discriminate.
Defined.

End RunFacts.
